(** * scrape_blog.py: a shallow embedding and its verified properties

    The development follows [scripts/scrape_blog.py] function by function.
    Python strings are sequences of Unicode code points, exceptions are an
    explicit [Raise] outcome, and the effects of the script (HTTP requests,
    console output, the filesystem, the clock, sleeping) are threaded
    through a state-and-exception monad over a [world] record.

    What the script obtains from libraries that are not part of the
    repository (requests, BeautifulSoup's parser and serializer, urllib's
    URL algebra, the Unicode database, datetime) and from the file system
    (whether a file can be written) is collected in the record
    [externals]; every theorem quantifies over it. *)

From Stdlib Require Import ZArith NArith List Bool Lia String Ascii DecimalString.
From stdpp Require Import base gmap sets list strings.
Import ListNotations.
Local Open Scope Z_scope.
Local Set Warnings "-register-all,-clear-no-such-hyp".

(** ** Python strings *)

Module PyStr.

(** A code point. *)
Definition char := N.

(** A Python [str]. *)
Definition pystr := list N.

(** Decoding of the UTF-8 bytes of a source literal into code points, so that
    literals can be written as they appear in the script. *)
Fixpoint utf8_decode (bs : list N) : pystr :=
  match bs with
  | [] => []
  | b :: r =>
      if (b <? 128)%N then b :: utf8_decode r
      else if (b <? 224)%N then
        match r with
        | b1 :: r' => ((b - 192) * 64 + (b1 - 128))%N :: utf8_decode r'
        | _ => []
        end
      else if (b <? 240)%N then
        match r with
        | b1 :: b2 :: r' =>
            ((b - 224) * 4096 + (b1 - 128) * 64 + (b2 - 128))%N :: utf8_decode r'
        | _ => []
        end
      else
        match r with
        | b1 :: b2 :: b3 :: r' =>
            ((b - 240) * 262144 + (b1 - 128) * 4096 + (b2 - 128) * 64 + (b3 - 128))%N
              :: utf8_decode r'
        | _ => []
        end
  end.

Definition py (s : string) : pystr :=
  utf8_decode (map N_of_ascii (list_ascii_of_string s)).

(** [str(n)] for an integer. *)
Definition str_of_Z (n : Z) : pystr :=
  py (NilZero.string_of_int (Z.to_int n)).

Definition eqb (a b : pystr) : bool := bool_decide (a = b).

(** [d.get(key)] for a dictionary with string keys. *)
Fixpoint assoc {V : Type} (key : pystr) (l : list (pystr * V)) : option V :=
  match l with
  | [] => None
  | (k, v) :: r => if eqb k key then Some v else assoc key r
  end.

(** The single character of a one-character literal. *)
Definition chr (s : string) : N := hd 0%N (py s).

(** [a or b] for strings. *)
Definition or_str (a b : pystr) : pystr :=
  match a with
  | [] => b
  | _ => a
  end.

(** [a or b] for values that are [None] or a string. *)
Definition or_opt (a b : option pystr) : option pystr :=
  match a with
  | Some (_ :: _) => a
  | _ => b
  end.

(** [a or b] for values that are [None] or an object that is always true. *)
Definition or_else {A : Type} (a b : option A) : option A :=
  match a with
  | Some _ => a
  | None => b
  end.

(** Character classes of ASCII. *)
Definition is_ascii (c : char) : bool := (c <? 128)%N.
Definition is_upper_AZ (c : char) : bool := (65 <=? c)%N && (c <=? 90)%N.
Definition is_lower_az (c : char) : bool := (97 <=? c)%N && (c <=? 122)%N.
Definition is_digit_09 (c : char) : bool := (48 <=? c)%N && (c <=? 57)%N.
Definition hyphen : char := 45%N.
Definition is_hyphen (c : char) : bool := (c =? hyphen)%N.
Definition dot : char := 46%N.
Definition slash : char := 47%N.

(** The characters of a sanitized ASCII file name: [a-z0-9_-]. *)
Definition name_char (c : char) : bool :=
  is_lower_az c || is_digit_09 c || (c =? 95)%N || is_hyphen c.

(** The characters a slug is made of: [a-z0-9-]. *)
Definition slug_char (c : char) : bool := is_lower_az c || is_digit_09 c || is_hyphen c.

(** Python's [str.isspace] on one code point, which is also what [\s]
    matches in a [str] pattern: the characters of bidirectional type WS, B
    or S, or of category Zs. *)
Definition is_space (c : char) : bool :=
  ((9 <=? c) && (c <=? 13) || (28 <=? c) && (c <=? 32)
   || (c =? 133) || (c =? 160) || (c =? 5760)
   || (8192 <=? c) && (c <=? 8202)
   || (c =? 8232) || (c =? 8233) || (c =? 8239) || (c =? 8287)
   || (c =? 12288))%N.

Definition ascii_lower_char (c : char) : char :=
  if is_upper_AZ c then (c + 32)%N else c.

(** [s.replace(a, b)] for single characters [a] and [b]. *)
Definition replace_char (a b : char) (s : pystr) : pystr :=
  map (fun c => if (c =? a)%N then b else c) s.

(** [s.lstrip(chars)], [s.rstrip(chars)] and [s.strip(chars)], with the set
    of stripped characters given as a predicate. *)
Fixpoint lstrip (P : char -> bool) (s : pystr) : pystr :=
  match s with
  | [] => []
  | c :: r => if P c then lstrip P r else s
  end.

Fixpoint rstrip (P : char -> bool) (s : pystr) : pystr :=
  match s with
  | [] => []
  | c :: r =>
      match rstrip P r with
      | [] => if P c then [] else [c]
      | r' => c :: r'
      end
  end.

Definition strip (P : char -> bool) (s : pystr) : pystr := rstrip P (lstrip P s).

(** [s.startswith(p)] and [s.endswith(p)]. *)
Fixpoint startswith (s p : pystr) : bool :=
  match p, s with
  | [], _ => true
  | a :: p', b :: s' => (a =? b)%N && startswith s' p'
  | _ :: _, [] => false
  end.

Definition endswith (s p : pystr) : bool := startswith (rev s) (rev p).

(** [p in s] for strings: [p] occurs in [s] as a contiguous substring. *)
Fixpoint contains (s p : pystr) : bool :=
  startswith s p ||
  match s with
  | [] => false
  | _ :: s' => contains s' p
  end.

(** [re.sub(cls+, rep, s)] for a character class [cls]: every maximal run of
    characters of the class is replaced by [rep].  [in_run] records that the
    previous character belonged to the class. *)
Fixpoint sub_runs_from (P : char -> bool) (rep : pystr) (in_run : bool) (s : pystr) : pystr :=
  match s with
  | [] => []
  | c :: r =>
      if P c then (if in_run then [] else rep) ++ sub_runs_from P rep true r
      else c :: sub_runs_from P rep false r
  end.

Definition sub_runs (P : char -> bool) (rep : pystr) (s : pystr) : pystr :=
  sub_runs_from P rep false s.

(** [re.sub(cls, '', s)] for a character class [cls]: the characters of the
    class are deleted. *)
Definition sub_delete (P : char -> bool) (s : pystr) : pystr :=
  List.filter (fun c => negb (P c)) s.

(** [re.split(cls, s)] for a character class [cls], and [s.split(c)] when
    the class is a single character: the pieces of [s] between the
    characters of the class, the empty ones included. *)
Fixpoint split_on (P : char -> bool) (s : pystr) : list pystr :=
  match s with
  | [] => [[]]
  | c :: r =>
      if P c then [] :: split_on P r
      else match split_on P r with
           | x :: l => (c :: x) :: l
           | [] => [[c]]
           end
  end.

(** [sep.join(l)]. *)
Fixpoint join (sep : pystr) (l : list pystr) : pystr :=
  match l with
  | [] => []
  | x :: r =>
      x ++ match r with
           | [] => []
           | _ :: _ => sep ++ join sep r
           end
  end.

(** The pieces that are not empty. *)
Definition non_empty (l : list pystr) : list pystr :=
  List.filter (fun x => negb (eqb x [])) l.

(** No two neighbours of [s] satisfy [P]; [prev] tells whether the character
    before [s] does. *)
Fixpoint no_run (P : char -> bool) (prev : bool) (s : pystr) : bool :=
  match s with
  | [] => true
  | c :: r => if P c then negb prev && no_run P true r else no_run P false r
  end.

(** [s.rfind(c)] for a character [c]: the last index of [c], or [-1]. *)
Fixpoint rfind_from (c : char) (i last : Z) (s : pystr) : Z :=
  match s with
  | [] => last
  | x :: r => rfind_from c (i + 1) (if (x =? c)%N then i else last) r
  end.

Definition rfind (s : pystr) (c : char) : Z := rfind_from c 0 (-1) s.

(** [s[i:j]] and [s[i:]] for indices that are not negative. *)
Definition slice (s : pystr) (i j : Z) : pystr :=
  drop (Z.to_nat i) (take (Z.to_nat j) s).

Definition slice_from (s : pystr) (i : Z) : pystr := drop (Z.to_nat i) s.

End PyStr.
Export PyStr.

(** ** [os.path] (posixpath) *)

Module OsPath.

(** [os.path.basename(p)]. *)
Definition basename (p : pystr) : pystr := slice_from p (rfind p slash + 1).

(** [os.path.splitext(p)]: the extension starts at the last dot of the last
    component, unless that component has only dots before it. *)
Definition splitext (p : pystr) : pystr * pystr :=
  let sepIndex := rfind p slash in
  let dotIndex := rfind p dot in
  if (sepIndex <? dotIndex)
     && existsb (fun c => negb (c =? dot)%N) (slice p (sepIndex + 1) dotIndex)
  then (slice p 0 dotIndex, slice_from p dotIndex)
  else (p, []).

End OsPath.
Export OsPath.

(** ** [pathlib] (PurePosixPath)

    A path is kept as the string [str(path)]; parsing that string gives the
    path back. *)

Module PathLib.

Definition is_slash (c : char) : bool := (c =? slash)%N.

(** The root of a path given as a string: [//] for exactly two leading
    slashes, [/] for one or for more than two, nothing otherwise. *)
Definition root_of (s : pystr) : pystr :=
  match s with
  | [] => []
  | c :: _ =>
      if is_slash c then
        if (length s - length (lstrip is_slash s) =? 2)%nat then [slash; slash]
        else [slash]
      else []
  end.

(** The components of a path given as a string: empty components and [.]
    are dropped, [..] is kept. *)
Definition parts_of (s : pystr) : list pystr :=
  List.filter (fun x => negb (eqb x []) && negb (eqb x [dot])) (split_on is_slash s).

(** [str(path)] for a root and components. *)
Definition format_path (root : pystr) (parts : list pystr) : pystr :=
  or_str (root ++ join [slash] parts) [dot].

(** [str(Path(d) / name)]: an absolute [name] replaces [d]. *)
Definition joinpath (d name : pystr) : pystr :=
  match root_of name with
  | [] => format_path (root_of d) (parts_of d ++ parts_of name)
  | root => format_path root (parts_of name)
  end.

(** A string that can be used as one component of a path. *)
Definition is_segment (name : pystr) : bool :=
  negb (eqb name []) && negb (eqb name [dot]) && forallb (fun c => negb (is_slash c)) name.

(** A string that is the [str] of a path with at least one component. *)
Definition is_plain_path (d : pystr) : bool :=
  eqb d (root_of d ++ join [slash] (parts_of d)) &&
  match parts_of d with
  | [] => false
  | _ :: _ => true
  end.

End PathLib.
Export PathLib.

(** ** The parsed document (BeautifulSoup's tree) *)

Module Bs4.

(** A parsed document.  [NText] is a [NavigableString] or a [CData];
    [NSpecial] is a string that the parser met inside a [script], [style],
    [template], [rt] or [rp] element and gave the class of that element
    ([Script], [Stylesheet], [TemplateString], [RubyTextString],
    [RubyParenthesisString]), named here by the element; [NOther] stands for
    the string kinds that no [get_text] returns (comments, doctypes, ...).
    The multi-valued [class] attribute is kept as the list of its values
    ([[]] when the attribute is absent); the other attributes are strings. *)
Inductive node :=
| NText (s : pystr)
| NSpecial (container : pystr) (s : pystr)
| NOther (s : pystr)
| NTag (name : pystr) (classes : list pystr) (attrs : list (pystr * pystr))
       (children : list node).

(** A reference to an element of a document: the child indices leading to
    it from the root. *)
Definition path := list nat.

Definition has_name (nm : pystr) (n : node) : bool :=
  match n with
  | NTag x _ _ _ => eqb x nm
  | _ => false
  end.

Definition has_name_in (nms : list pystr) (n : node) : bool :=
  existsb (fun nm => has_name nm n) nms.

Definition is_tag (n : node) : bool :=
  match n with
  | NTag _ _ _ _ => true
  | _ => false
  end.

(** [tag.get(key)] for an attribute other than [class]. *)
Definition get (n : node) (key : pystr) : option pystr :=
  match n with
  | NTag _ _ attrs _ => assoc key attrs
  | _ => None
  end.

(** [' '.join(l)]. *)
Fixpoint join_space (l : list pystr) : pystr :=
  match l with
  | [] => []
  | [x] => x
  | x :: r => x ++ py " " ++ join_space r
  end.

(** [re.compile('a|b|...').search(s)] for literal alternatives. *)
Definition search_any (alts : list pystr) (s : pystr) : bool :=
  existsb (fun a => contains s a) alts.

(** The filter [class_=re.compile('a|b|...')]: some value of the class
    attribute matches, or the values joined by spaces match. *)
Definition class_ (alts : list pystr) (n : node) : bool :=
  match n with
  | NTag _ cl _ _ => existsb (search_any alts) cl || search_any alts (join_space cl)
  | _ => false
  end.

(** The filter [attr=re.compile('a|b|...')] on a string attribute. *)
Definition attr_search (key : pystr) (alts : list pystr) (n : node) : bool :=
  match get n key with
  | Some v => search_any alts v
  | None => false
  end.

(** The filter [attr='value'] on a string attribute. *)
Definition attr_is (key value : pystr) (n : node) : bool :=
  match get n key with
  | Some v => eqb v value
  | None => false
  end.

(** The descendants of a node in document order. *)
Fixpoint descendants (n : node) : list node :=
  match n with
  | NTag _ _ _ ch =>
      (fix go (l : list node) : list node :=
         match l with
         | [] => []
         | x :: r => x :: descendants x ++ go r
         end) ch
  | _ => []
  end.

(** [tag.find_all(filter)] and [tag.find(filter)]. *)
Definition find_all (P : node -> bool) (n : node) : list node :=
  List.filter P (descendants n).

Definition find (P : node -> bool) (n : node) : option node :=
  List.find P (descendants n).

(** [tag.find(filter)], keeping the position of the element found, for the
    elements that are later modified in place. *)
Fixpoint find_ref (P : node -> bool) (n : node) : option (path * node) :=
  match n with
  | NTag _ _ _ ch =>
      (fix go (i : nat) (l : list node) : option (path * node) :=
         match l with
         | [] => None
         | x :: r =>
             if P x then Some ([i], x)
             else match find_ref P x with
                  | Some (p, y) => Some (i :: p, y)
                  | None => go (S i) r
                  end
         end) 0%nat ch
  | _ => None
  end.

(** The element at a position. *)
Fixpoint subtree (n : node) (p : path) : option node :=
  match p with
  | [] => Some n
  | i :: p' =>
      match n with
      | NTag _ _ _ ch =>
          match nth_error ch i with
          | Some c => subtree c p'
          | None => None
          end
      | _ => None
      end
  end.

(** In-place modification of the element at a position. *)
Fixpoint update_at (f : node -> node) (n : node) (p : path) : node :=
  match p with
  | [] => f n
  | i :: p' =>
      match n with
      | NTag nm cl at_ ch =>
          NTag nm cl at_
            ((fix go (i : nat) (l : list node) : list node :=
                match l, i with
                | [], _ => []
                | x :: r, O => update_at f x p' :: r
                | x :: r, S j => x :: go j r
                end) i ch)
      | _ => n
      end
  end.

(** [for e in tag.find_all(filter): e.decompose()]: every descendant that
    satisfies the filter is removed together with its subtree. *)
Fixpoint decompose_all (P : node -> bool) (n : node) : node :=
  match n with
  | NTag nm cl at_ ch =>
      NTag nm cl at_
        ((fix go (l : list node) : list node :=
            match l with
            | [] => []
            | x :: r => if P x then go r else decompose_all P x :: go r
            end) ch)
  | _ => n
  end.

(** The elements whose strings have a class of their own
    ([HTMLTreeBuilder.DEFAULT_STRING_CONTAINERS]). *)
Definition string_containers : list pystr :=
  [py "rt"; py "rp"; py "style"; py "script"; py "template"].

(** [tag.interesting_string_types]: the class of the strings that the
    [get_text] of an element returns, [None] standing for the ordinary
    strings and the name of a container for the class of that container. *)
Definition interesting_string_types (n : node) : option pystr :=
  match n with
  | NTag nm _ _ _ => if existsb (eqb nm) string_containers then Some nm else None
  | _ => None
  end.

(** The strings of one class below a node, in document order. *)
Fixpoint strings_of (types : option pystr) (n : node) : list pystr :=
  match n with
  | NText s =>
      match types with
      | None => [s]
      | Some _ => []
      end
  | NSpecial container s =>
      match types with
      | Some nm => if eqb container nm then [s] else []
      | None => []
      end
  | NOther _ => []
  | NTag _ _ _ ch =>
      (fix go (l : list node) : list pystr :=
         match l with
         | [] => []
         | x :: r => strings_of types x ++ go r
         end) ch
  end.

(** The strings [get_text] concatenates: those of the class the element is
    interested in. *)
Definition all_strings (n : node) : list pystr :=
  strings_of (interesting_string_types n) n.

(** [tag.get_text()]. *)
Definition get_text (n : node) : pystr := concat (all_strings n).

(** [tag.get_text(strip=True)]: every string is stripped of white space and
    the empty ones are dropped. *)
Definition get_text_strip (n : node) : pystr :=
  concat (List.filter (fun s => negb (eqb s [])) (map (strip is_space) (all_strings n))).

(** The CSS selectors used by the script. *)
Inductive selector :=
| SelTag (name : pystr)               (* [name] *)
| SelClass (cls : pystr)              (* [.cls] *)
| SelClassContains (sub : pystr).     (* [[class*="sub"]] *)

Definition select_matches (sel : selector) (n : node) : bool :=
  match sel, n with
  | SelTag nm, NTag x _ _ _ => eqb x nm
  | SelClass c, NTag _ cl _ _ => existsb (fun x => eqb x c) cl
  | SelClassContains sub, NTag _ cl _ _ => contains (join_space cl) sub
  | _, _ => false
  end.

(** Induction on documents, with the hypothesis for every child. *)
Fixpoint node_ind' (P : node -> Prop)
    (Htext : forall s, P (NText s)) (Hspecial : forall c s, P (NSpecial c s))
    (Hother : forall s, P (NOther s))
    (Htag : forall nm cl attrs ch, Forall P ch -> P (NTag nm cl attrs ch))
    (n : node) : P n :=
  match n with
  | NText s => Htext s
  | NSpecial c s => Hspecial c s
  | NOther s => Hother s
  | NTag nm cl attrs ch =>
      Htag nm cl attrs ch
        ((fix go (l : list node) : Forall P l :=
            match l with
            | [] => List.Forall_nil P
            | x :: r =>
                @List.Forall_cons node P x r
                  (node_ind' P Htext Hspecial Hother Htag x) (go r)
            end) ch)
  end.

End Bs4.
Export Bs4.

(** ** Effects: exceptions and the world the script acts on *)

Module Effects.

(** The outcome of a Python computation: a value, or a raised exception
    with its message. *)
Inductive result (A : Type) :=
| Ok (a : A)
| Raise (e : pystr).
Arguments Ok {A} a.
Arguments Raise {A} e.

(** An HTTP response whose status was accepted by [raise_for_status]. *)
Record response := { text : pystr; content : pystr }.

(** A [datetime], identified by its ISO-8601 rendering. *)
Record datetime := { isoformat : pystr }.

(** The values stored in a post dictionary. *)
Inductive pyval :=
| VNone
| VBool (b : bool)
| VInt (z : Z)
| VStr (s : pystr)
| VList (l : list pystr).

(** A Python [dict] with string keys, in insertion order. *)
Definition pydict := list (pystr * pyval).

Definition dict_get (d : pydict) (key : pystr) : option pyval := assoc key d.

Definition keys (d : pydict) : list pystr := map fst d.

(** What a file holds: raw bytes, or the object given to [json.dump]. *)
Inductive file :=
| FBytes (b : pystr)
| FJson (d : pydict).

Record world := {
  requests_log : list pystr;     (* the URLs requested so far, oldest first *)
  stdout : list pystr;           (* the lines printed so far, oldest first *)
  files : gmap pystr file;       (* the files written *)
  write_log : list pystr;        (* the paths written to, oldest first *)
  dirs : gset pystr;             (* the directories created *)
  clock_reads : nat;             (* how often the clock was read *)
  slept : Z                      (* seconds spent in [time.sleep] *)
}.

Definition empty_world : world :=
  {| requests_log := []; stdout := []; files := ∅; write_log := []; dirs := ∅;
     clock_reads := 0%nat; slept := 0 |}.

(** The behaviour of the libraries and of the environment of the script. *)
Record externals := {
  (* [str.lower] on a string with a character outside ASCII *)
  unicode_lower : pystr -> pystr;
  (* [str.isalnum] on a character outside ASCII *)
  unicode_isalnum : char -> bool;
  (* [requests.get(url, ...)] followed by [raise_for_status()], given the
     URLs requested before *)
  http : list pystr -> pystr -> result response;
  (* [BeautifulSoup(html, 'html.parser')] *)
  html_parser : pystr -> result node;
  (* [str(tag)] *)
  soup_str : node -> pystr;
  (* [urllib.parse.urljoin(base, url)] *)
  urljoin : pystr -> pystr -> result pystr;
  (* [urllib.parse.urlparse(url).path] *)
  urlparse_path : pystr -> result pystr;
  (* [datetime.strptime(s, fmt)] *)
  strptime : pystr -> pystr -> result datetime;
  (* the value of the n-th call of [datetime.now()] *)
  clock : nat -> datetime;
  (* [open(path, 'w')] followed by [json.dump], and [Path.write_bytes],
     given the paths written so far: the exception raised when the file
     system refuses the path (a name that is too long, a missing directory,
     ...) or the content cannot be written (a string that cannot be
     encoded, a full disk, ...) *)
  file_write : list pystr -> pystr -> file -> result unit;
  (* the two output directories *)
  CONTENT_DIR : pystr;
  IMAGES_DIR : pystr
}.

(** A computation that reads and changes the world and may raise. *)
Definition M (A : Type) : Type := world -> result A * world.

Definition ret {A} (a : A) : M A := fun w => (Ok a, w).

Definition bind {A B} (m : M A) (k : A -> M B) : M B :=
  fun w =>
    match m w with
    | (Ok a, w') => k a w'
    | (Raise e, w') => (Raise e, w')
    end.

Definition raise {A} (e : pystr) : M A := fun w => (Raise e, w).

(** A library call that may raise and has no other effect. *)
Definition lift {A} (r : result A) : M A := fun w => (r, w).

(** [try: m except Exception as e: h e]. *)
Definition try_except {A} (m : M A) (h : pystr -> M A) : M A :=
  fun w =>
    match m w with
    | (Ok a, w') => (Ok a, w')
    | (Raise e, w') => h e w'
    end.

Definition print (line : pystr) : M unit :=
  fun w =>
    (Ok tt, {| requests_log := requests_log w; stdout := stdout w ++ [line];
               files := files w; write_log := write_log w; dirs := dirs w;
               clock_reads := clock_reads w; slept := slept w |}).

Definition sleep (seconds : Z) : M unit :=
  fun w =>
    (Ok tt, {| requests_log := requests_log w; stdout := stdout w;
               files := files w; write_log := write_log w; dirs := dirs w;
               clock_reads := clock_reads w; slept := slept w + seconds |}).

(** [path.mkdir(parents=True, exist_ok=True)], for a directory that the
    file system lets the script create. *)
Definition mkdir (d : pystr) : M unit :=
  fun w =>
    (Ok tt, {| requests_log := requests_log w; stdout := stdout w;
               files := files w; write_log := write_log w; dirs := {[d]} ∪ dirs w;
               clock_reads := clock_reads w; slept := slept w |}).

(** [with open(p, 'w') as f: json.dump(..., f)] and [p.write_bytes(...)].
    Opening the file or writing to it may raise: the exception goes to the
    caller, and the path is not counted among the files written (what is
    left there, if anything, is a truncated file).  Otherwise the write
    replaces what the path held. *)
Definition write_file (E : externals) (p : pystr) (f : file) : M unit :=
  fun w =>
    match file_write E (write_log w) p f with
    | Ok _ =>
        (Ok tt, {| requests_log := requests_log w; stdout := stdout w;
                   files := <[p := f]> (files w); write_log := write_log w ++ [p];
                   dirs := dirs w;
                   clock_reads := clock_reads w; slept := slept w |})
    | Raise e => (Raise e, w)
    end.

(** [requests.get(url, ...)] and [response.raise_for_status()]. *)
Definition requests_get (E : externals) (url : pystr) : M response :=
  fun w =>
    (http E (requests_log w) url,
     {| requests_log := requests_log w ++ [url]; stdout := stdout w;
        files := files w; write_log := write_log w; dirs := dirs w;
        clock_reads := clock_reads w; slept := slept w |}).

(** [datetime.now()]. *)
Definition datetime_now (E : externals) : M datetime :=
  fun w =>
    (Ok (clock E (clock_reads w)),
     {| requests_log := requests_log w; stdout := stdout w;
        files := files w; write_log := write_log w; dirs := dirs w;
        clock_reads := S (clock_reads w); slept := slept w |}).

(** [directory / name] of [pathlib], as the string of the resulting path. *)
Definition path_join (d name : pystr) : pystr := joinpath d name.

End Effects.
Export Effects.

Notation "'let*' x := m 'in' k" := (bind m (fun x => k))
  (at level 10, x name, m at level 100, k at level 200).
Notation "m ;; k" := (bind m (fun _ => k))
  (at level 100, k at level 200, right associativity).

(** ** The script *)

Section Script.

Variable E : externals.

Definition BASE_URL : pystr := py "https://postgrespro.com/blog".

(** Category mappings *)
Definition CATEGORY_MAP : list (pystr * list (pystr * pystr)) :=
  [ (py "PostgreSQL", [ (py "en", py "PostgreSQL"); (py "tr", py "PostgreSQL") ]);
    (py "Company Updates",
     [ (py "en", py "Company Updates"); (py "tr", py "Şirket Güncellemeleri") ]) ].

(** What [\w] matches in a [str] pattern: [[a-zA-Z0-9_]] within ASCII, and
    outside ASCII the characters that [str.isalnum] accepts. *)
Definition is_word (c : char) : bool :=
  if is_ascii c
  then is_upper_AZ c || is_lower_az c || is_digit_09 c || (c =? chr "_")%N
  else unicode_isalnum E c.

(** [s.lower()]: on an ASCII string the letters [A-Z] become [a-z]; a
    string with a character outside ASCII is lowered by the Unicode
    database. *)
Definition lower (s : pystr) : pystr :=
  if forallb is_ascii s then map ascii_lower_char s else unicode_lower E s.

(** The character classes [[^\w\s-]] and [[-\s]]. *)
Definition not_word_space_hyphen (c : char) : bool :=
  negb (is_word c || is_space c || is_hyphen c).

Definition hyphen_or_space (c : char) : bool := is_hyphen c || is_space c.

(** Sanitize filename for filesystem *)
Definition sanitize_filename (filename : pystr) : pystr :=
  let filename := sub_delete not_word_space_hyphen filename in
  let filename := sub_runs hyphen_or_space (py "-") filename in
  strip is_hyphen (lower filename).

(** Generate URL-friendly slug from title *)
Definition generate_slug (title : pystr) : pystr :=
  let slug := lower title in
  (* Replace Turkish characters *)
  let slug := replace_char (chr "ş") (chr "s")
                (replace_char (chr "ü") (chr "u")
                   (replace_char (chr "ğ") (chr "g") slug)) in
  let slug := replace_char (chr "ç") (chr "c")
                (replace_char (chr "ö") (chr "o")
                   (replace_char (chr "ı") (chr "i") slug)) in
  (* Remove special characters *)
  let slug :=
    sub_delete
      (fun c => negb (is_lower_az c || is_digit_09 c || is_space c || is_hyphen c))
      slug in
  (* Replace spaces with hyphens *)
  let slug := sub_runs is_space (py "-") slug in
  (* Remove multiple hyphens *)
  let slug := sub_runs is_hyphen (py "-") slug in
  strip is_hyphen slug.

(** [re.findall(r'\b\w+\b', text)]: the maximal runs of word characters.
    [cur] is the run being read, latest character first. *)
Fixpoint findall_words_from (cur : option pystr) (text : pystr) : list pystr :=
  match text with
  | [] =>
      match cur with
      | Some w => [rev w]
      | None => []
      end
  | c :: r =>
      if is_word c then findall_words_from (Some (c :: default [] cur)) r
      else
        match cur with
        | Some w => rev w :: findall_words_from None r
        | None => findall_words_from None r
        end
  end.

Definition findall_words (text : pystr) : list pystr := findall_words_from None text.

(** Calculate reading time in minutes (average 200 words per minute) *)
Definition calculate_reading_time (text : pystr) : Z :=
  let words := Z.of_nat (length (findall_words text)) in
  Z.max 1 ((words + 199) / 200).

Definition unwanted_selectors : list selector :=
  [ SelTag (py "script"); SelTag (py "style"); SelTag (py "nav");
    SelTag (py "footer"); SelTag (py "header");
    SelClass (py "subscribe"); SelClass (py "social-share");
    SelClass (py "newsletter");
    SelClass (py "advertisement"); SelClass (py "ads");
    SelClassContains (py "ad-");
    SelClassContains (py "subscribe"); SelClassContains (py "newsletter") ].

(** Clean HTML content, remove unwanted elements *)
Definition clean_html_content (html : pystr) : M pystr :=
  let* soup := lift (html_parser E html) in
  (* Remove unwanted elements *)
  let soup :=
    fold_left (fun soup selector => decompose_all (select_matches selector) soup)
      unwanted_selectors soup in
  (* Remove empty paragraphs *)
  let soup :=
    decompose_all (fun p => has_name (py "p") p && eqb (get_text_strip p) []) soup in
  ret (soup_str E soup).

(** A [for] loop whose body updates a local variable and may raise. *)
Fixpoint for_each {A S : Type} (l : list A) (body : A -> S -> M S) (s : S) : M S :=
  match l with
  | [] => ret s
  | x :: r => let* s' := body x s in for_each r body s'
  end.

(** Extract image URLs from HTML *)
Definition extract_images (html base_url : pystr) : M (list pystr) :=
  let* soup := lift (html_parser E html) in
  for_each (find_all (has_name (py "img")) soup)
    (fun img images =>
       match or_opt (get img (py "src")) (get img (py "data-src")) with
       | Some ((_ :: _) as src) =>
           (* Convert relative URLs to absolute *)
           if startswith src (py "//") then ret (images ++ [py "https:" ++ src])
           else if startswith src (py "/") then
             let* src := lift (urljoin E base_url src) in ret (images ++ [src])
           else if negb (startswith src (py "http")) then
             let* src := lift (urljoin E base_url src) in ret (images ++ [src])
           else ret (images ++ [src])
       | _ => ret images
       end)
    [].

(** Download image and return local path *)
Definition download_image (img_url slug : pystr) : M (option pystr) :=
  try_except
    (let* response := requests_get E img_url in
     (* Get file extension *)
     let* parsed_path := lift (urlparse_path E img_url) in
     let ext := or_str (snd (splitext parsed_path)) (py ".jpg") in
     (* Create images directory for this post *)
     let post_images_dir := path_join (IMAGES_DIR E) slug in
     mkdir post_images_dir ;;
     (* Generate filename *)
     let filename := or_str (sanitize_filename (basename parsed_path)) (py "image") in
     let filename := if negb (endswith filename ext) then filename ++ ext else filename in
     let local_path := path_join post_images_dir filename in
     write_file E local_path (FBytes (content response)) ;;
     (* Return relative path *)
     ret (Some (py "/blog/" ++ slug ++ py "/" ++ filename)))
    (fun e =>
       print (py "Error downloading image " ++ img_url ++ py ": " ++ e) ;;
       ret None).

(** The date formats tried in turn. *)
Definition date_formats : list pystr :=
  [ py "%Y-%m-%d"; py "%B %d, %Y"; py "%d %B %Y"; py "%Y-%m-%dT%H:%M:%S" ].

(** The loop over the formats: the first format that parses wins, a format
    that raises is skipped. *)
Fixpoint first_parse (s : pystr) (fmts : list pystr) : option datetime :=
  match fmts with
  | [] => None
  | fmt :: rest =>
      match strptime E s fmt with
      | Ok d => Some d
      | Raise _ => first_parse s rest
      end
  end.

(** The elements removed from the content region. *)
Definition unwanted_in_content : node -> bool :=
  has_name_in [py "script"; py "style"; py "nav"; py "footer"].

(** The candidates for the content region, in the order they are tried. *)
Definition content_selectors : list (node -> bool) :=
  [ has_name (py "article"); has_name (py "main");
    class_ [py "content"; py "post-body"]; has_name (py "body") ].

(** The two candidates for the description of the page. *)
Definition og_description (n : node) : bool :=
  has_name (py "meta") n && attr_is (py "property") (py "og:description") n.

Definition meta_description (n : node) : bool :=
  has_name (py "meta") n && attr_is (py "name") (py "description") n.

(** The blocks of [scrape_blog_post] that read the parsed page. *)

(* Extract title *)
Definition extract_title (soup : node) : pystr :=
  let title_elem :=
    or_else (find (has_name (py "h1")) soup) (find (has_name (py "title")) soup) in
  match title_elem with
  | Some t => get_text_strip t
  | None => py "Untitled"
  end.

(* Extract date: the string to parse, empty when there is none *)
Definition extract_date_str (soup : node) : pystr :=
  let date_elem :=
    or_else (find (has_name (py "time")) soup)
            (find (class_ [py "date"; py "published"]) soup) in
  match date_elem with
  | Some d => or_str (default [] (get d (py "datetime"))) (get_text_strip d)
  | None => []
  end.

(* Extract author *)
Definition extract_author (soup : node) : pystr :=
  match find (class_ [py "author"; py "byline"]) soup with
  | Some author_elem => get_text_strip author_elem
  | None => py "Postgres Pro"
  end.

(* Extract category *)
Definition extract_category (soup : node) : pystr :=
  match find (class_ [py "category"; py "tag"]) soup with
  | Some category_elem =>
      let cat_text := get_text_strip category_elem in
      match assoc cat_text CATEGORY_MAP with
      | Some _ => cat_text
      | None => py "PostgreSQL"
      end
  | None => py "PostgreSQL"
  end.

(* Extract tags *)
Definition extract_tags (soup : node) : list pystr :=
  let tag_elems := find_all (class_ [py "tag"; py "keyword"]) soup in
  fold_left
    (fun tags tag_elem =>
       let tag_text := get_text_strip tag_elem in
       if negb (eqb tag_text []) && negb (existsb (eqb tag_text) tags)
       then tags ++ [tag_text] else tags)
    tag_elems [].

(* Extract content: the element and its position in the page *)
Definition find_content (soup : node) : option (path * node) :=
  let content_elem :=
    or_else (find_ref (has_name (py "article")) soup)
      (or_else (find_ref (has_name (py "main")) soup)
         (find_ref (class_ [py "content"; py "post-body"]) soup)) in
  match content_elem with
  | None => find_ref (has_name (py "body")) soup
  | Some _ => content_elem
  end.

(* Extract excerpt (first paragraph or meta description) *)
Definition extract_excerpt (soup content_elem : node) : pystr :=
  let excerpt_elem :=
    or_else (find og_description soup) (find meta_description soup) in
  let excerpt :=
    match excerpt_elem with
    | Some e => default [] (get e (py "content"))
    | None => []
    end in
  match excerpt with
  | [] =>
      match find (has_name (py "p")) content_elem with
      | Some first_p => take 200 (get_text_strip first_p)
      | None => excerpt
      end
  | _ => excerpt
  end.

(** Scrape a single blog post *)
Definition scrape_blog_post (url : pystr) : M (option pydict) :=
  try_except
    (print (py "Scraping: " ++ url) ;;
     let* response := requests_get E url in
     let* soup := lift (html_parser E (text response)) in
     let title := extract_title soup in
     let date_str := extract_date_str soup in
     (* Try to parse date *)
     let date :=
       match date_str with
       | [] => None
       | _ => first_parse (take 19 date_str) date_formats
       end in
     let* date :=
       match date with
       | Some d => ret d
       | None => datetime_now E
       end in
     let author := extract_author soup in
     let category := extract_category soup in
     let tags := extract_tags soup in
     match find_content soup with
     | Some (pos, content_elem) =>
         (* Remove unwanted elements before extracting; the element is part
            of the document, which changes with it *)
         let content_elem := decompose_all unwanted_in_content content_elem in
         let soup := update_at (decompose_all unwanted_in_content) soup pos in
         let content_html := soup_str E content_elem in
         let* content_html := clean_html_content content_html in
         (* Extract images *)
         let* images := extract_images content_html url in
         let excerpt := extract_excerpt soup content_elem in
         (* Generate slug *)
         let slug := generate_slug title in
         (* Calculate reading time *)
         let content_text := get_text content_elem in
         let reading_time := calculate_reading_time content_text in
         (* Create blog post object *)
         let post : pydict :=
           [ (py "title", VStr title);
             (py "titleTr", VStr title);
             (py "slug", VStr slug);
             (py "date", VStr (isoformat date));
             (py "author", VStr author);
             (py "category", VStr category);
             (py "categoryTr",
              VStr (default category
                      (assoc (py "tr") (default [] (assoc category CATEGORY_MAP)))));
             (py "tags", VList tags);
             (py "tagsTr", VList tags);
             (py "sourceUrl", VStr url);
             (py "canonicalUrl", VStr url);
             (py "excerpt", VStr excerpt);
             (py "excerptTr", VStr excerpt);
             (py "content", VStr content_html);
             (py "contentTr", VStr content_html);
             (py "readingTime", VInt reading_time);
             (py "heroImage", VNone);
             (py "images", VList images);
             (py "published", VBool true) ] in
         ret (Some post)
     | None =>
         print (py "Could not find content for " ++ url) ;;
         ret None
     end)
    (fun e =>
       print (py "Error scraping " ++ url ++ py ": " ++ e) ;;
       ret None).

(** The anchors of a listing page that may lead to a post, and the anchor
    that announces a next page. *)
Definition post_anchor (n : node) : bool :=
  has_name (py "a") n && attr_search (py "href") [py "/blog/"] n.

Definition next_anchor (n : node) : bool :=
  has_name (py "a") n && class_ [py "next"; py "pagination"] n.

(** The loop over the anchors of a listing page.  [links] is updated in
    place, so what was added before an exception stays added: the state is
    returned next to the outcome. *)
Fixpoint collect_links (base_url : pystr) (post_links : list node)
    (links : gset pystr) (found_new : bool) : result unit * (gset pystr * bool) :=
  match post_links with
  | [] => (Ok tt, (links, found_new))
  | link :: rest =>
      let href := default [] (get link (py "href")) in
      if negb (eqb href []) && contains href (py "/blog/") then
        match urljoin E base_url href with
        | Ok full_url =>
            if bool_decide (full_url ∈ links)
            then collect_links base_url rest links found_new
            else collect_links base_url rest ({[full_url]} ∪ links) true
        | Raise e => (Raise e, (links, found_new))
        end
      else collect_links base_url rest links found_new
  end.

(** How one turn of the [while True] loop ends. *)
Inductive loop_exit := Break | NextTurn.

Definition page_url (base_url : pystr) (page : Z) : pystr :=
  if page =? 1 then base_url else base_url ++ py "?page=" ++ str_of_Z page.

(** One turn of the loop of [find_all_blog_links]: the [try] block and its
    handler.  It returns the set of links as the turn leaves it. *)
Definition crawl_page (base_url : pystr) (page : Z) (links : gset pystr)
    : M (gset pystr * loop_exit) :=
  let url := page_url base_url page in
  let on_error (links : gset pystr) (e : pystr) : M (gset pystr * loop_exit) :=
    print (py "Error fetching blog list page " ++ str_of_Z page ++ py ": " ++ e) ;;
    ret (links, Break) in
  try_except
    (print (py "Fetching blog list page " ++ str_of_Z page ++ py "...") ;;
     let* response := requests_get E url in
     let* soup := lift (html_parser E (text response)) in
     (* Find all blog post links *)
     let post_links := find_all post_anchor soup in
     match collect_links base_url post_links links false with
     | (Raise e, (links, _)) => on_error links e
     | (Ok _, (links, found_new)) =>
         (* Check if there's a next page *)
         let next_link := find next_anchor soup in
         if negb found_new || negb (bool_decide (is_Some next_link))
         then ret (links, Break)
         else
           sleep 1 ;;  (* Be polite *)
           ret (links, NextTurn)
     end)
    (on_error links).

(** The [while True] loop.  [fuel] bounds the number of turns; [None] means
    that the loop has not ended within the bound. *)
Fixpoint crawl (fuel : nat) (base_url : pystr) (page : Z) (links : gset pystr)
    : M (option (gset pystr)) :=
  match fuel with
  | O => ret None
  | S fuel' =>
      let* turn := crawl_page base_url page links in
      match turn with
      | (links, Break) => ret (Some links)
      | (links, NextTurn) => crawl fuel' base_url (page + 1) links
      end
  end.

(** Find all blog post links from the blog listing pages *)
Definition find_all_blog_links (fuel : nat) (base_url : pystr)
    : M (option (gset pystr)) :=
  crawl fuel base_url 1 ∅.

(** The loop of [main] over the URLs found. *)
Fixpoint main_loop (blog_urls : list pystr) (scraped_count : Z) : M Z :=
  match blog_urls with
  | [] => ret scraped_count
  | url :: rest =>
      let* post := scrape_blog_post url in
      let* scraped_count :=
        match post with
        | Some ((_ :: _) as post) =>
            (* Save as JSON *)
            let* slug :=
              match dict_get post (py "slug") with
              | Some (VStr slug) => ret slug
              | _ => raise (py "KeyError: 'slug'")
              end in
            let json_path := path_join (CONTENT_DIR E) (slug ++ py ".json") in
            write_file E json_path (FJson post) ;;
            print (py "Saved: " ++ slug ++ py ".json") ;;
            ret (scraped_count + 1)
        | _ => ret scraped_count
        end in
      sleep 2 ;;  (* Be polite to the server *)
      main_loop rest scraped_count
  end.

(** Main scraping function.  [None] means that the crawl of the listing
    has not ended within [fuel] turns. *)
Definition main (fuel : nat) : M (option unit) :=
  print (py "Starting blog scraping...") ;;
  (* Create directories *)
  mkdir (CONTENT_DIR E) ;;
  mkdir (IMAGES_DIR E) ;;
  (* Find all blog post URLs *)
  print (py "Finding all blog post URLs...") ;;
  let* found := find_all_blog_links fuel BASE_URL in
  match found with
  | None => ret None
  | Some blog_urls =>
      print (py "Found " ++ str_of_Z (Z.of_nat (size blog_urls)) ++ py " blog posts") ;;
      (* Scrape each post, in the order in which the set is iterated *)
      let* scraped_count := main_loop (elements blog_urls) 0 in
      print ([10%N] ++ py "Scraping complete! Scraped " ++ str_of_Z scraped_count
             ++ py " posts.") ;;
      ret (Some tt)
  end.

End Script.

(** ** The listing as a sequence of pages

    What the crawler meets, described without running it. *)

Section Listing.

Variable E : externals.
Variable base_url : pystr.
Variable w : world.

(** The requests made before listing page [page] is fetched, when the crawl
    starts in the world [w]. *)
Definition history_before (page : nat) : list pystr :=
  requests_log w ++ map (fun k => page_url base_url (Z.of_nat k)) (seq 1 (page - 1)).

(** Listing page [page] as the crawler gets it: the parsed page, or the
    exception of the request or of the parser. *)
Definition listing_page (page : nat) : result node :=
  match http E (history_before page) (page_url base_url (Z.of_nat page)) with
  | Ok response => html_parser E (text response)
  | Raise e => Raise e
  end.

(** What an anchor of a listing page contributes: nothing, or the outcome of
    resolving its [href]. *)
Definition link_target (link : node) : option (result pystr) :=
  let href := default [] (get link (py "href")) in
  if negb (eqb href []) && contains href (py "/blog/")
  then Some (urljoin E base_url href) else None.

Definition page_targets (soup : node) : list (result pystr) :=
  omap link_target (find_all post_anchor soup).

Definition ok_value (r : result pystr) : option pystr :=
  match r with
  | Ok u => Some u
  | Raise _ => None
  end.

(** The URLs a page contributes. *)
Definition page_urls (soup : node) : gset pystr :=
  list_to_set (omap ok_value (page_targets soup)).

(** The URLs of the listing pages [1..n]. *)
Fixpoint accumulated (n : nat) : gset pystr :=
  match n with
  | O => ∅
  | S k =>
      accumulated k ∪
      match listing_page (S k) with
      | Ok soup => page_urls soup
      | Raise _ => ∅
      end
  end.

(** Listing page [n] ends the crawl: it cannot be fetched or parsed, or one
    of its links cannot be resolved, or it contributes no URL that the pages
    before it have not contributed, or it has no anchor to a next page. *)
Definition page_stops (n : nat) : Prop :=
  match listing_page n with
  | Raise _ => True
  | Ok soup =>
      (exists e, In (Raise e) (page_targets soup))
      \/ page_urls soup ⊆ accumulated (n - 1)
      \/ find next_anchor soup = None
  end.

End Listing.

(** The keys of a post dictionary, in the order they are inserted. *)
Definition post_fields : list pystr :=
  [ py "title"; py "titleTr"; py "slug"; py "date"; py "author"; py "category";
    py "categoryTr"; py "tags"; py "tagsTr"; py "sourceUrl"; py "canonicalUrl";
    py "excerpt"; py "excerptTr"; py "content"; py "contentTr"; py "readingTime";
    py "heroImage"; py "images"; py "published" ].

(** The same list with the names written out as [...Translated]. *)
Definition translated_fields : list pystr :=
  [ py "title"; py "titleTranslated"; py "slug"; py "date"; py "author";
    py "category"; py "categoryTranslated"; py "tags"; py "tagsTranslated";
    py "sourceUrl"; py "canonicalUrl"; py "excerpt"; py "excerptTranslated";
    py "content"; py "contentTranslated"; py "readingTime"; py "heroImage";
    py "images"; py "published" ].

(** A file that holds a post: a JSON object with the keys of a post. *)
Definition is_post_file (f : file) : Prop :=
  exists d, f = FJson d /\ keys d = post_fields.

(** A computation that leaves the world alone and does not depend on it. *)
Definition pure_m {A : Type} (m : M A) : Prop := exists r, forall w, m w = (r, w).

(** ** Notions used to state what the cleaner, the image functions and the
    orchestrator do *)

(** The strings [get_text(strip=True)] joins: the stripped strings of the
    element that are not empty. *)
Definition stripped_strings (n : node) : list pystr :=
  List.filter (fun s => negb (eqb s [])) (map (strip is_space) (all_strings n)).

(** A paragraph without text, as the cleaner tests it. *)
Definition empty_paragraph (p : node) : bool :=
  has_name (py "p") p && eqb (get_text_strip p) [].

(** The reference of an image element that [extract_images] uses: [src],
    else [data-src], when it is not empty. *)
Definition image_src (img : node) : option pystr :=
  match or_opt (get img (py "src")) (get img (py "data-src")) with
  | Some ((_ :: _) as src) => Some src
  | _ => None
  end.

(** How [extract_images] turns a reference into an entry of its result. *)
Definition resolves_to (E : externals) (base_url src out : pystr) : Prop :=
  if startswith src (py "//") then out = py "https:" ++ src
  else if startswith src (py "/") || negb (startswith src (py "http"))
       then urljoin E base_url src = Ok out
       else out = src.

(** A file that holds a post under the name made of its slug. *)
Definition stored_by_slug (E : externals) (path : pystr) (f : file) : Prop :=
  exists d slug,
    f = FJson d /\ dict_get d (py "slug") = Some (VStr slug)
    /\ path = path_join (CONTENT_DIR E) (slug ++ py ".json").

(** The words of a file name: what is left of the name when the characters
    that are not word characters, white space or hyphens are removed is
    cut at the white space and the hyphens, and the pieces that are not
    empty are kept. *)
Definition name_words (E : externals) (filename : pystr) : list pystr :=
  non_empty (split_on hyphen_or_space (sub_delete (not_word_space_hyphen E) filename)).

(** The file of a post cannot be written: in the world [w], writing some
    post to [CONTENT_DIR/<slug>.json], for the slug it holds, raises [e]. *)
Definition post_file_refused (E : externals) (w : world) (e : pystr) : Prop :=
  exists post title,
    keys post = post_fields /\
    dict_get post (py "slug") = Some (VStr (generate_slug E title)) /\
    file_write E (write_log w)
      (path_join (CONTENT_DIR E) (generate_slug E title ++ py ".json")) (FJson post)
    = Raise e.

(** The last line of [main]. *)
Definition report_line (count : nat) : pystr :=
  [10%N] ++ py "Scraping complete! Scraped " ++ str_of_Z (Z.of_nat count) ++ py " posts.".

(** Lower-casing does not make a full stop out of other characters. *)
Definition lower_makes_no_dot (E : externals) : Prop :=
  forall s, ~ In dot s -> ~ In dot (unicode_lower E s).

(** ** A concrete site

    An instance of [externals] on which the script can be run: a small blog
    with two listing pages and four posts, and a fifth post that no listing
    page links to.  Its Unicode tables agree with
    CPython on the code points below U+0180, its URL functions on absolute
    URLs and on references that start with a slash. *)

Module Demo.

(** [str.lower] on Basic Latin, Latin-1 Supplement and Latin Extended-A. *)
Definition lower_char (c : char) : list char :=
  let up1 := [(c + 1)%N] in
  if is_upper_AZ c then [(c + 32)%N]
  else if ((192 <=? c) && (c <=? 222) && negb (c =? 215))%N then [(c + 32)%N]
  else if (c =? 304)%N then [105%N; 775%N]
  else if (c =? 376)%N then [255%N]
  else if ((256 <=? c) && (c <=? 311) && N.even c)%N then up1
  else if ((313 <=? c) && (c <=? 328) && N.odd c)%N then up1
  else if ((330 <=? c) && (c <=? 375) && N.even c)%N then up1
  else if ((377 <=? c) && (c <=? 382) && N.odd c)%N then up1
  else [c].

Definition lower (s : pystr) : pystr := flat_map lower_char s.

(** [str.isalnum] on the code points from U+0080 to U+017F. *)
Definition isalnum (c : char) : bool :=
  (existsb (N.eqb c) [170; 178; 179; 181; 185; 186; 188; 189; 190]
   || (192 <=? c) && (c <=? 383) && negb (c =? 215) && negb (c =? 247))%N.

(** Serialization of a document the way BeautifulSoup writes it, for text
    without characters that need escaping. *)
Definition void_tags : list pystr :=
  [py "img"; py "meta"; py "br"; py "hr"; py "link"; py "input"].

Definition attrs_str (cl : list pystr) (attrs : list (pystr * pystr)) : pystr :=
  (match cl with
   | [] => []
   | _ => py " class=" ++ [34%N] ++ join_space cl ++ [34%N]
   end)
  ++ flat_map (fun kv => py " " ++ fst kv ++ py "=" ++ [34%N] ++ snd kv ++ [34%N]) attrs.

Fixpoint to_str (n : node) : pystr :=
  match n with
  | NText s => s
  | NSpecial _ s => s
  | NOther s => py "<!--" ++ s ++ py "-->"
  | NTag nm cl attrs ch =>
      let inner :=
        (fix go (l : list node) : pystr :=
           match l with
           | [] => []
           | x :: r => to_str x ++ go r
           end) ch in
      if eqb nm (py "[document]") then inner
      else if existsb (eqb nm) void_tags
      then py "<" ++ nm ++ attrs_str cl attrs ++ py "/>"
      else py "<" ++ nm ++ attrs_str cl attrs ++ py ">" ++ inner
           ++ py "</" ++ nm ++ py ">"
  end.

Definition elem (nm : string) (ch : list node) : node := NTag (py nm) [] [] ch.
Definition document (ch : list node) : node := NTag (py "[document]") [] [] ch.
Definition anchor (cl : list pystr) (href : string) (label : string) : node :=
  NTag (py "a") cl [(py "href", py href)] [NText (py label)].

(** The two listing pages. *)
Definition listing1 : node :=
  document
    [elem "html"
       [elem "body"
          [anchor [] "/blog/pgpro-news" "News";
           anchor [] "/blog/q-and-a" "Questions";
           anchor [py "next"] "/blog?page=2" "Older posts"]]].

Definition listing2 : node :=
  document
    [elem "html"
       [elem "body"
          [anchor [] "/blog/q-and-a" "Questions";
           anchor [] "/blog/gone" "Gone";
           anchor [] "/blog/bare" "Bare"]]].

(** A description of 201 characters. *)
Definition long_description : pystr := repeat (chr "x") 201.

(** The content regions of the two posts that have one. *)
Definition news_article : node :=
  elem "article"
    [elem "h1" [NText (py "PostgreSQL Şirket Güncellemeleri!")];
     NTag (py "time") [] [(py "datetime", py "2024-05-01")] [NText (py "May 1")];
     elem "p" [NText (py "Hello world")];
     NTag (py "img") [] [(py "src", py "https://cdn.example.com/img.png")] []].

Definition questions_article : node :=
  elem "article"
    [elem "h1" [NText (py "???")];
     elem "p" [];
     elem "p" [NText (py "Answers inside")]].

Definition news_page : node :=
  document
    [elem "html"
       [elem "head"
          [elem "title" [NText (py "News")];
           NTag (py "meta") []
             [(py "property", py "og:description"); (py "content", long_description)] []];
        elem "body" [news_article]]].

(** The same region once the cleaner has removed the empty paragraph. *)
Definition questions_cleaned : node :=
  elem "article"
    [elem "h1" [NText (py "???")];
     elem "p" [NText (py "Answers inside")]].

Definition questions_page : node :=
  document [elem "html" [elem "body" [questions_article]]].

(** A page without any content region: no article, main, content class or
    body. *)
Definition bare_page : node :=
  document [elem "title" [NText (py "Bare")]].

(** A post whose title has 300 characters. *)
Definition long_title : pystr := repeat (chr "a") 300.

Definition long_article : node :=
  elem "article" [elem "h1" [NText long_title]; elem "p" [NText (py "Long")]].

Definition long_page : node :=
  document [elem "html" [elem "body" [long_article]]].

Definition news_url : pystr := py "https://postgrespro.com/blog/pgpro-news".
Definition questions_url : pystr := py "https://postgrespro.com/blog/q-and-a".
Definition gone_url : pystr := py "https://postgrespro.com/blog/gone".
Definition bare_url : pystr := py "https://postgrespro.com/blog/bare".
Definition long_url : pystr := py "https://postgrespro.com/blog/long".
Definition image_url : pystr := py "https://cdn.example.com/img.png".

(** The documents the parser knows, by their text. *)
Definition documents : list (pystr * node) :=
  map (fun d => (to_str d, d))
    [listing1; listing2; news_page; questions_page; bare_page; long_page;
     document [news_article]; document [questions_article];
     document [questions_cleaned]; document [long_article]].

Definition parser (html : pystr) : result node :=
  match assoc html documents with
  | Some d => Ok d
  | None => Raise (py "ParserRejectedMarkup")
  end.

Definition site : list (pystr * response) :=
  [ (py "https://postgrespro.com/blog", {| text := to_str listing1; content := [] |});
    (py "https://postgrespro.com/blog?page=2",
     {| text := to_str listing2; content := [] |});
    (news_url, {| text := to_str news_page; content := [] |});
    (questions_url, {| text := to_str questions_page; content := [] |});
    (bare_url, {| text := to_str bare_page; content := [] |});
    (long_url, {| text := to_str long_page; content := [] |});
    (image_url, {| text := []; content := py "PNG" |}) ].

Definition get (history : list pystr) (url : pystr) : result response :=
  match assoc url site with
  | Some r => Ok r
  | None => Raise (py "404 Client Error: Not Found for url: " ++ url)
  end.

(** The scheme and host of a URL: what precedes its third slash. *)
Fixpoint until_slash (n : nat) (s : pystr) : pystr :=
  match s with
  | [] => []
  | c :: r =>
      if (c =? slash)%N then
        match n with
        | O => []
        | S k => c :: until_slash k r
        end
      else c :: until_slash n r
  end.

Definition origin (url : pystr) : pystr := until_slash 2 url.

Definition join (base url : pystr) : result pystr :=
  if contains url (py "://") then Ok url
  else if startswith url (py "/") then Ok (origin base ++ url)
  else Ok (slice base 0 (rfind base slash + 1) ++ url).

Fixpoint until_query (s : pystr) : pystr :=
  match s with
  | [] => []
  | c :: r => if ((c =? chr "?") || (c =? chr "#"))%N then [] else c :: until_query r
  end.

Definition url_path (url : pystr) : result pystr :=
  Ok (until_query (drop (length (origin url)) url)).

(** [strptime] for the format [%Y-%m-%d] on a string of ten characters. *)
Definition parse_date (s fmt : pystr) : result datetime :=
  if eqb fmt (py "%Y-%m-%d") && (length s =? 10)%nat
     && forallb (fun c => is_digit_09 c || is_hyphen c) s
  then Ok {| isoformat := s ++ py "T00:00:00" |}
  else Raise (py "ValueError: time data does not match format").

(** A file system whose names have at most 255 characters ([NAME_MAX]; the
    names used here are ASCII). *)
Definition write (written : list pystr) (p : pystr) (f : file) : result unit :=
  if (255 <? length (basename p))%nat
  then Raise (py "[Errno 36] File name too long: '" ++ p ++ py "'")
  else Ok tt.

Definition env : externals :=
  {| unicode_lower := lower;
     unicode_isalnum := isalnum;
     http := get;
     html_parser := parser;
     soup_str := to_str;
     urljoin := join;
     urlparse_path := url_path;
     strptime := parse_date;
     clock := fun _ => {| isoformat := py "2024-06-01T12:00:00" |};
     file_write := write;
     CONTENT_DIR := py "wwwroot/content/blog";
     IMAGES_DIR := py "wwwroot/blog" |}.

(** The same environment with a file system that takes every name. *)
Definition roomy : externals :=
  {| unicode_lower := lower;
     unicode_isalnum := isalnum;
     http := get;
     html_parser := parser;
     soup_str := to_str;
     urljoin := join;
     urlparse_path := url_path;
     strptime := parse_date;
     clock := fun _ => {| isoformat := py "2024-06-01T12:00:00" |};
     file_write := fun _ _ _ => Ok tt;
     CONTENT_DIR := py "wwwroot/content/blog";
     IMAGES_DIR := py "wwwroot/blog" |}.

(** The same environment when the network is down. *)
Definition offline : externals :=
  {| unicode_lower := lower;
     unicode_isalnum := isalnum;
     http := fun _ _ => Raise (py "ConnectionError");
     html_parser := parser;
     soup_str := to_str;
     urljoin := join;
     urlparse_path := url_path;
     strptime := parse_date;
     clock := fun _ => {| isoformat := py "2024-06-01T12:00:00" |};
     file_write := write;
     CONTENT_DIR := py "wwwroot/content/blog";
     IMAGES_DIR := py "wwwroot/blog" |}.

End Demo.

(** ** Facts about the string operations *)

Section StringFacts.

Variable P : char -> bool.

Lemma lstrip_head s c r : lstrip P s = c :: r -> P c = false.
Proof.
  induction s as [|a s IH]; simpl; [discriminate|].
  destruct (P a) eqn:Ha; [exact IH|].
  intros H; injection H as -> _; exact Ha.
Qed.

Lemma lstrip_fix s : (forall c r, s = c :: r -> P c = false) -> lstrip P s = s.
Proof.
  destruct s as [|a s]; simpl; [reflexivity|].
  intros H; rewrite (H a s eq_refl); reflexivity.
Qed.

Lemma rstrip_cons c r : rstrip P (c :: r) = [] \/ exists r', rstrip P (c :: r) = c :: r'.
Proof.
  simpl. destruct (rstrip P r); [destruct (P c)|]; eauto.
Qed.

Lemma rstrip_idem s : rstrip P (rstrip P s) = rstrip P s.
Proof.
  induction s as [|a s IH]; simpl; [reflexivity|].
  destruct (rstrip P s) as [|d t] eqn:Hr.
  - destruct (P a) eqn:Ha; simpl; [reflexivity|]. rewrite Ha; reflexivity.
  - change (rstrip P (a :: d :: t)) with
      (match rstrip P (d :: t) with [] => if P a then [] else [a] | r' => a :: r' end).
    rewrite IH; reflexivity.
Qed.

Lemma rstrip_last s c : last (rstrip P s) = Some c -> P c = false.
Proof.
  induction s as [|a s IH]; simpl; [discriminate|].
  destruct (rstrip P s) as [|d t] eqn:Hr.
  - destruct (P a) eqn:Ha; simpl; [discriminate|].
    intros H; injection H as <-; exact Ha.
  - intros H; apply IH. exact H.
Qed.

Lemma strip_head s c r : strip P s = c :: r -> P c = false.
Proof.
  unfold strip. destruct (lstrip P s) as [|a t] eqn:Hl; [discriminate|].
  destruct (rstrip_cons a t) as [H|[r' H]]; rewrite H; [discriminate|].
  intros H'; injection H' as <- _. eapply lstrip_head; eassumption.
Qed.

Lemma strip_last s c : last (strip P s) = Some c -> P c = false.
Proof. apply rstrip_last. Qed.

Lemma strip_idem s : strip P (strip P s) = strip P s.
Proof.
  unfold strip at 1. rewrite lstrip_fix.
  - apply rstrip_idem.
  - intros c r; apply strip_head.
Qed.

Lemma lstrip_Forall (Q : char -> Prop) s : Forall Q s -> Forall Q (lstrip P s).
Proof.
  induction 1 as [|a s Ha Hs IH]; simpl; [constructor|].
  destruct (P a); [exact IH|constructor; assumption].
Qed.

Lemma rstrip_Forall (Q : char -> Prop) s : Forall Q s -> Forall Q (rstrip P s).
Proof.
  induction 1 as [|a s Ha Hs IH]; simpl; [constructor|].
  destruct (rstrip P s) as [|d t].
  - destruct (P a); [constructor|]. constructor; [assumption|constructor].
  - constructor; assumption.
Qed.

Lemma strip_Forall (Q : char -> Prop) s : Forall Q s -> Forall Q (strip P s).
Proof. intros H; apply rstrip_Forall, lstrip_Forall, H. Qed.

Lemma no_run_weaken prev s : no_run P prev s = true -> no_run P false s = true.
Proof.
  destruct s as [|c r]; simpl; [reflexivity|].
  destruct (P c); [|trivial]. destruct prev; simpl; [discriminate|trivial].
Qed.

Lemma no_run_tail prev c r : no_run P prev (c :: r) = true -> no_run P false r = true.
Proof.
  simpl. destruct (P c).
  - intros H; apply andb_true_iff in H as [_ H]. eapply no_run_weaken, H.
  - trivial.
Qed.

Lemma lstrip_no_run s : no_run P false s = true -> no_run P false (lstrip P s) = true.
Proof.
  induction s as [|a s IH]; [reflexivity|].
  intros H. simpl. destruct (P a) eqn:Ha; [|exact H].
  apply IH. eapply no_run_tail, H.
Qed.

Lemma rstrip_no_run s prev : no_run P prev s = true -> no_run P prev (rstrip P s) = true.
Proof.
  revert prev; induction s as [|a s IH]; intros prev; [reflexivity|].
  simpl. destruct (P a) eqn:Ha.
  - intros H; apply andb_true_iff in H as [Hp H]. specialize (IH true H).
    destruct (rstrip P s) as [|d t]; [reflexivity|].
    cbn [no_run]. rewrite Ha, Hp. exact IH.
  - intros H. specialize (IH false H).
    destruct (rstrip P s) as [|d t]; [simpl; rewrite Ha; reflexivity|].
    cbn [no_run]. rewrite Ha. exact IH.
Qed.

Lemma strip_no_run s : no_run P false s = true -> no_run P false (strip P s) = true.
Proof. intros H; apply rstrip_no_run, lstrip_no_run, H. Qed.

(** Replacing the runs by one character of the class leaves no run. *)
Lemma sub_runs_from_no_run h prev s :
  P h = true -> no_run P prev (sub_runs_from P [h] prev s) = true.
Proof.
  intros Hh. revert prev; induction s as [|c r IH]; intros prev; [reflexivity|].
  simpl. destruct (P c) eqn:Hc.
  - destruct prev; simpl; [apply IH|]. rewrite Hh; simpl. apply IH.
  - simpl. rewrite Hc. apply IH.
Qed.

(** A string without runs, whose only character of the class is [h], is
    left as it is. *)
Lemma sub_runs_from_fix h prev s :
  no_run P prev s = true -> Forall (fun c => P c = true -> c = h) s ->
  sub_runs_from P [h] prev s = s.
Proof.
  intros Hn Hs; revert prev Hn; induction Hs as [|c r Hc Hr IH]; intros prev Hn;
    [reflexivity|].
  simpl in *. destruct (P c) eqn:Hpc.
  - apply andb_true_iff in Hn as [Hp Hn]. destruct prev; [discriminate|].
    simpl. rewrite (Hc eq_refl) at 1. f_equal. apply IH, Hn.
  - f_equal. apply IH, Hn.
Qed.

(** What the replacement of runs leaves: characters outside the class, and
    the characters of the replacement. *)
Lemma sub_runs_from_Forall (Q : char -> Prop) rep prev s :
  Forall Q rep -> Forall (fun c => P c = false -> Q c) s ->
  Forall Q (sub_runs_from P rep prev s).
Proof.
  intros Hrep Hs; revert prev; induction Hs as [|c r Hc Hr IH]; intros prev;
    [constructor|].
  simpl. destruct (P c) eqn:Hpc.
  - apply Forall_app; split; [destruct prev; [constructor|exact Hrep]|apply IH].
  - constructor; [apply Hc; reflexivity|apply IH].
Qed.

Lemma sub_delete_Forall s : Forall (fun c => P c = false) (sub_delete P s).
Proof.
  unfold sub_delete. apply List.Forall_forall. intros c Hc.
  apply List.filter_In in Hc as [_ Hc]. apply negb_true_iff, Hc.
Qed.

Lemma sub_delete_fix s : Forall (fun c => P c = false) s -> sub_delete P s = s.
Proof.
  unfold sub_delete. induction 1 as [|c r Hc Hr IH]; simpl; [reflexivity|].
  rewrite Hc; simpl. f_equal; exact IH.
Qed.

End StringFacts.

Lemma replace_char_fix a b s : Forall (fun c => c <> a) s -> replace_char a b s = s.
Proof.
  unfold replace_char. induction 1 as [|c r Hc Hr IH]; simpl; [reflexivity|].
  destruct (N.eqb_spec c a); [contradiction|]. f_equal; exact IH.
Qed.

Section MoreStringFacts.

Variable P : char -> bool.

Lemma sub_runs_from_none rep prev s :
  Forall (fun c => P c = false) s -> sub_runs_from P rep prev s = s.
Proof.
  intros Hs; revert prev; induction Hs as [|c r Hc Hr IH]; intros prev; simpl;
    [reflexivity|].
  rewrite Hc. f_equal. apply IH.
Qed.

(** Characters that a filter [Q] rejects can be replaced or stripped without
    changing what the filter keeps. *)
Lemma filter_sub_runs_from (Q : char -> bool) rep prev s :
  List.filter Q rep = [] -> Forall (fun c => P c = true -> Q c = false) s ->
  List.filter Q (sub_runs_from P rep prev s) = List.filter Q s.
Proof.
  intros Hrep Hs; revert prev; induction Hs as [|c r Hc Hr IH]; intros prev; simpl;
    [reflexivity|].
  destruct (P c) eqn:Hpc.
  - rewrite List.filter_app, IH, (Hc eq_refl).
    destruct prev; simpl; [reflexivity|]. unfold char, pystr in *. rewrite Hrep; reflexivity.
  - simpl. rewrite IH. reflexivity.
Qed.

Lemma filter_lstrip (Q : char -> bool) s :
  Forall (fun c => P c = true -> Q c = false) s ->
  List.filter Q (lstrip P s) = List.filter Q s.
Proof.
  induction 1 as [|c r Hc Hr IH]; simpl; [reflexivity|].
  destruct (P c) eqn:Hpc; [|reflexivity].
  rewrite (Hc eq_refl). exact IH.
Qed.

Lemma filter_rstrip (Q : char -> bool) s :
  Forall (fun c => P c = true -> Q c = false) s ->
  List.filter Q (rstrip P s) = List.filter Q s.
Proof.
  induction 1 as [|c r Hc Hr IH]; simpl; [reflexivity|].
  destruct (rstrip P r) as [|d t] eqn:Hd.
  - rewrite <- IH. destruct (P c) eqn:Hpc.
    + rewrite (Hc eq_refl). reflexivity.
    + simpl. destruct (Q c); reflexivity.
  - change (List.filter Q (c :: d :: t))
      with (if Q c then c :: List.filter Q (d :: t) else List.filter Q (d :: t)).
    rewrite IH. reflexivity.
Qed.

Lemma filter_strip (Q : char -> bool) s :
  Forall (fun c => P c = true -> Q c = false) s ->
  List.filter Q (strip P s) = List.filter Q s.
Proof.
  intros H. unfold strip. rewrite filter_rstrip, filter_lstrip; [reflexivity|exact H|].
  apply lstrip_Forall, H.
Qed.

End MoreStringFacts.

(** Boolean comparisons of code points, turned into arithmetic. *)
Ltac char_arith :=
  unfold slug_char, is_ascii, is_upper_AZ, is_lower_az, is_digit_09, is_hyphen,
    is_space, hyphen, ascii_lower_char in *;
  repeat match goal with
         | |- _ = false => apply not_true_is_false; intro
         | |- _ <> _ => intro
         end;
  repeat (rewrite ?andb_true_iff, ?orb_true_iff, ?negb_true_iff, ?andb_false_iff,
           ?orb_false_iff, ?negb_false_iff, ?N.leb_le, ?N.leb_gt, ?N.ltb_lt,
           ?N.ltb_ge, ?N.eqb_eq, ?N.eqb_neq in *);
  try lia.

Lemma slug_char_ascii c : slug_char c = true -> is_ascii c = true.
Proof. intros H. char_arith. Qed.

Lemma slug_char_not_upper c : slug_char c = true -> is_upper_AZ c = false.
Proof. intros H. char_arith. Qed.

Lemma slug_char_not_space c : slug_char c = true -> is_space c = false.
Proof. intros H. char_arith. Qed.

Lemma slug_char_below c : slug_char c = true -> (c < 128)%N.
Proof. intros H. char_arith. Qed.

Section SlugFacts.

Variable E : externals.

Lemma lower_ascii s : forallb is_ascii s = true -> lower E s = map ascii_lower_char s.
Proof. intros H. unfold lower. rewrite H. reflexivity. Qed.

Lemma lower_slug s : Forall (fun c => slug_char c = true) s -> lower E s = s.
Proof.
  intros H. rewrite lower_ascii.
  - induction H as [|c r Hc Hr IH]; simpl; [reflexivity|].
    unfold ascii_lower_char at 1. rewrite (slug_char_not_upper c Hc). f_equal; exact IH.
  - apply forallb_forall. intros c Hc.
    apply slug_char_ascii. eapply List.Forall_forall in H; eassumption.
Qed.

(** The shape of every slug: only [a-z0-9-], no two hyphens in a row, and
    nothing left to strip. *)
Lemma generate_slug_shape x :
  Forall (fun c => slug_char c = true) (generate_slug E x) /\
  no_run is_hyphen false (generate_slug E x) = true /\
  strip is_hyphen (generate_slug E x) = generate_slug E x.
Proof.
  unfold generate_slug. change (py "-") with [hyphen]. split; [|split].
  - apply strip_Forall. unfold sub_runs.
    apply sub_runs_from_Forall; [repeat constructor|].
    eapply Forall_impl;
      [apply sub_runs_from_Forall with (Q := fun c => slug_char c = true);
       [repeat constructor|]|intros c Hc _; exact Hc].
    eapply Forall_impl; [apply sub_delete_Forall|].
    intros c Hc Hs. simpl in Hc. unfold slug_char.
    apply negb_false_iff in Hc. rewrite Hs in Hc.
    destruct (is_lower_az c), (is_digit_09 c), (is_hyphen c); simpl in *; congruence.
  - apply strip_no_run. unfold sub_runs. apply sub_runs_from_no_run. reflexivity.
  - apply strip_idem.
Qed.

(** A string of that shape is its own slug. *)
Lemma generate_slug_fix y :
  Forall (fun c => slug_char c = true) y ->
  no_run is_hyphen false y = true ->
  strip is_hyphen y = y ->
  generate_slug E y = y.
Proof.
  intros Hc Hn Hs. unfold generate_slug. rewrite (lower_slug y Hc).
  assert (Hne : forall a b, (128 <= a)%N -> replace_char a b y = y).
  { intros a b Ha. apply replace_char_fix. eapply Forall_impl; [exact Hc|].
    intros c H. simpl in H. apply slug_char_below in H. lia. }
  rewrite !Hne by (vm_compute; discriminate).
  rewrite sub_delete_fix.
  2:{ eapply Forall_impl; [exact Hc|]. intros c H. simpl in *.
      apply negb_false_iff. unfold slug_char in H.
      destruct (is_lower_az c), (is_digit_09 c), (is_hyphen c), (is_space c);
        simpl in *; congruence. }
  unfold sub_runs. rewrite (sub_runs_from_none is_space).
  2:{ eapply Forall_impl; [exact Hc|]. intros c H. apply slug_char_not_space, H. }
  change (py "-") with [hyphen]. rewrite sub_runs_from_fix; [exact Hs|exact Hn|].
  apply List.Forall_forall. intros c _ H. apply N.eqb_eq, H.
Qed.

End SlugFacts.

(** A fact about the 128 ASCII code points can be checked by running it. *)
Lemma ascii_forall (f : N -> bool) :
  forallb (fun n => f (N.of_nat n)) (seq 0 128) = true ->
  forall c, is_ascii c = true -> f c = true.
Proof.
  intros H c Hc. rewrite forallb_forall in H.
  specialize (H (N.to_nat c)). rewrite N2Nat.id in H. apply H.
  apply in_seq. unfold is_ascii in Hc. apply N.ltb_lt in Hc. lia.
Qed.

Lemma no_run_map (P P' : char -> bool) (f : char -> char) prev s :
  (forall c, P' (f c) = true -> P c = true) ->
  no_run P prev s = true -> no_run P' prev (map f s) = true.
Proof.
  intros Hf. revert prev; induction s as [|c r IH]; intros prev; simpl; [reflexivity|].
  destruct (P' (f c)) eqn:Hc.
  - rewrite (Hf c Hc). intros H; apply andb_true_iff in H as [Hp H].
    rewrite Hp; simpl. apply IH, H.
  - intros H. apply IH. destruct (P c); [|exact H].
    apply andb_true_iff in H as [_ H]. eapply no_run_weaken, H.
Qed.

Lemma sub_delete_keeps (P : char -> bool) (Q : char -> Prop) s :
  Forall Q s -> Forall Q (sub_delete P s).
Proof.
  intros H. apply List.Forall_forall. intros c Hc.
  apply List.filter_In in Hc as [Hc _]. eapply List.Forall_forall in H; eassumption.
Qed.

Section SanitizeFacts.

Variable E : externals.

Abbreviation deleted := (not_word_space_hyphen E).
Abbreviation separator := hyphen_or_space.

Lemma ascii_word_or_hyphen c :
  is_ascii c = true -> deleted c = false -> separator c = false ->
  is_ascii c && (is_word E c || is_hyphen c) = true.
Proof.
  intros Ha Hd Hs. rewrite Ha. unfold not_word_space_hyphen, hyphen_or_space in *.
  apply negb_false_iff in Hd. apply orb_false_iff in Hs as [Hh Hsp].
  rewrite Hsp, Hh in Hd. rewrite Hh. simpl in *.
  rewrite !orb_false_r in *. exact Hd.
Qed.

Lemma ascii_lower_name_char c :
  is_ascii c = true ->
  implb (is_ascii c && (is_word E c || is_hyphen c)) (name_char (ascii_lower_char c)) = true.
Proof.
  apply (ascii_forall
           (fun c => implb (is_ascii c && (is_word E c || is_hyphen c))
                           (name_char (ascii_lower_char c)))).
  vm_compute. reflexivity.
Qed.

Lemma ascii_lower_hyphen c :
  is_ascii c = true -> implb (is_hyphen (ascii_lower_char c)) (is_hyphen c) = true.
Proof.
  apply (ascii_forall (fun c => implb (is_hyphen (ascii_lower_char c)) (is_hyphen c))).
  vm_compute. reflexivity.
Qed.

Lemma ascii_lower_word c :
  is_ascii c = true -> Bool.eqb (is_word E (ascii_lower_char c)) (is_word E c) = true.
Proof.
  apply (ascii_forall (fun c => Bool.eqb (is_word E (ascii_lower_char c)) (is_word E c))).
  vm_compute. reflexivity.
Qed.

Lemma ascii_separator_not_word c :
  is_ascii c = true -> implb (separator c) (negb (is_word E c)) = true.
Proof.
  apply (ascii_forall (fun c => implb (separator c) (negb (is_word E c)))).
  vm_compute. reflexivity.
Qed.

(** The string before lowering and stripping, for an ASCII name. *)
Lemma sanitize_middle x :
  forallb is_ascii x = true ->
  let t := sub_runs separator (py "-") (sub_delete deleted x) in
  Forall (fun c => is_ascii c && (is_word E c || is_hyphen c) = true) t /\
  no_run separator false t = true.
Proof.
  intros Hx t. subst t. change (py "-") with [hyphen]. split.
  - unfold sub_runs. apply sub_runs_from_Forall; [repeat constructor|].
    apply List.Forall_forall. intros c Hc Hs.
    pose proof Hc as Hc'. apply List.filter_In in Hc' as [Hin Hd].
    apply ascii_word_or_hyphen; [|apply negb_true_iff, Hd|exact Hs].
    rewrite forallb_forall in Hx. apply Hx, Hin.
  - apply sub_runs_from_no_run. reflexivity.
Qed.

Lemma sanitize_filename_ascii x :
  forallb is_ascii x = true ->
  sanitize_filename E x =
  strip is_hyphen
    (map ascii_lower_char (sub_runs separator (py "-") (sub_delete deleted x))).
Proof.
  intros Hx. unfold sanitize_filename.
  rewrite lower_ascii; [reflexivity|].
  apply forallb_forall. intros c Hc.
  destruct (sanitize_middle x Hx) as [H _].
  eapply List.Forall_forall in H; [|exact Hc]. apply andb_true_iff in H as [H _]. exact H.
Qed.

(** On an ASCII name: the result is made of [a-z0-9_-] and has no two
    hyphens in a row. *)
Lemma sanitize_filename_chars x :
  forallb is_ascii x = true ->
  Forall (fun c => name_char c = true) (sanitize_filename E x) /\
  no_run is_hyphen false (sanitize_filename E x) = true.
Proof.
  intros Hx. rewrite (sanitize_filename_ascii x Hx).
  destruct (sanitize_middle x Hx) as [Hc Hn]. cbv zeta in Hc, Hn. split.
  - apply strip_Forall, Forall_map. eapply Forall_impl; [exact Hc|].
    intros c H. simpl in *. pose proof H as Ha. apply andb_true_iff in Ha as [Ha _].
    pose proof (ascii_lower_name_char c Ha) as Hl. rewrite H in Hl. exact Hl.
  - apply strip_no_run. eapply no_run_map; [|exact Hn].
    intros c H. unfold hyphen_or_space.
    destruct (is_ascii c) eqn:Ha.
    + pose proof (ascii_lower_hyphen c Ha) as Hl. rewrite H in Hl. simpl in Hl.
      rewrite Hl. reflexivity.
    + unfold ascii_lower_char in H. destruct (is_upper_AZ c) eqn:Hu.
      * exfalso. clear -Ha Hu. char_arith.
      * rewrite H. reflexivity.
Qed.

(** On an ASCII name: the word characters are kept, in order, in lower
    case; everything else is deleted or turned into a hyphen. *)
Lemma sanitize_filename_words x :
  forallb is_ascii x = true ->
  List.filter (is_word E) (sanitize_filename E x)
  = map ascii_lower_char (List.filter (is_word E) x).
Proof.
  intros Hx. rewrite (sanitize_filename_ascii x Hx).
  destruct (sanitize_middle x Hx) as [Hc _]. cbv zeta in Hc.
  set (t := sub_runs separator (py "-") (sub_delete deleted x)) in *.
  assert (Ht : List.filter (is_word E) t = List.filter (is_word E) x).
  { subst t. unfold sub_runs. rewrite filter_sub_runs_from.
    - unfold sub_delete. clear Hc. induction x as [|c r IH]; [reflexivity|].
      simpl in Hx. apply andb_true_iff in Hx as [Ha Hr]. simpl.
      unfold not_word_space_hyphen at 1. rewrite negb_involutive.
      destruct (is_word E c) eqn:Hw; simpl.
      + rewrite Hw. f_equal. apply IH, Hr.
      + destruct (is_space c || is_hyphen c); simpl; [rewrite Hw|]; apply IH, Hr.
    - vm_compute. reflexivity.
    - apply List.Forall_forall. intros c Hin Hs. apply List.filter_In in Hin as [Hin _].
      rewrite forallb_forall in Hx. pose proof (ascii_separator_not_word c (Hx c Hin)) as H.
      rewrite Hs in H. simpl in H. apply negb_true_iff, H. }
  rewrite filter_strip.
  - rewrite <- Ht. clear Ht. induction Hc as [|c r Hc Hr IH]; [reflexivity|].
    simpl. apply andb_true_iff in Hc as [Ha _].
    pose proof (ascii_lower_word c Ha) as Hl. apply Bool.eqb_prop in Hl. rewrite Hl.
    destruct (is_word E c); simpl; [f_equal|]; exact IH.
  - apply Forall_map. eapply Forall_impl; [exact Hc|]. intros c H Hh. simpl in *.
    apply andb_true_iff in H as [Ha _].
    pose proof (ascii_lower_hyphen c Ha) as Hl. rewrite Hh in Hl. simpl in Hl.
    pose proof (ascii_lower_word c Ha) as Hw. apply Bool.eqb_prop in Hw. rewrite Hw.
    pose proof (ascii_separator_not_word c Ha) as Hs. unfold hyphen_or_space in Hs.
    rewrite Hl in Hs. simpl in Hs. apply negb_true_iff, Hs.
Qed.

End SanitizeFacts.

(** ** Words and hyphens

    Collapsing runs of separators into hyphens, seen as cutting the string
    into pieces and joining the pieces. *)

Lemma split_on_cons_inv (P : char -> bool) s : exists x l, split_on P s = x :: l.
Proof.
  induction s as [|c r (x & l & IH)]; [eexists _, _; reflexivity|].
  cbn [split_on]. destruct (P c); [eexists _, _; reflexivity|].
  rewrite IH. eexists _, _; reflexivity.
Qed.

Section Words.

Variable P : char -> bool.
Variable f : char -> char.
Hypothesis f_keeps : forall c, P c = false -> is_hyphen (f c) = false.
Hypothesis f_hyphen : f hyphen = hyphen.

Lemma rstrip_keep c r : is_hyphen c = false -> rstrip is_hyphen (c :: r) = c :: rstrip is_hyphen r.
Proof. intros H. cbn [rstrip]. rewrite H. destruct (rstrip is_hyphen r); reflexivity. Qed.

Lemma rstrip_push c r :
  rstrip is_hyphen r <> [] -> rstrip is_hyphen (c :: r) = c :: rstrip is_hyphen r.
Proof.
  intros H. cbn [rstrip]. destruct (rstrip is_hyphen r); [contradiction|reflexivity].
Qed.

Lemma join_cons sep x l :
  join sep (x :: l) = x ++ match l with [] => [] | _ :: _ => sep ++ join sep l end.
Proof. reflexivity. Qed.

Lemma non_empty_nil l : non_empty ([] :: l) = non_empty l.
Proof. reflexivity. Qed.

Lemma non_empty_cons c y l : non_empty ((c :: y) :: l) = (c :: y) :: non_empty l.
Proof. reflexivity. Qed.

(** What is left of the collapsed string once the hyphens at its end are
    gone, in terms of the pieces. *)
Lemma rstrip_sub_runs s :
  (forall x l, split_on P s = x :: l ->
     rstrip is_hyphen (map f (sub_runs_from P [hyphen] false s))
     = map f x ++ match non_empty l with
                  | [] => []
                  | _ :: _ => hyphen :: join [hyphen] (map (map f) (non_empty l))
                  end) /\
  rstrip is_hyphen (hyphen :: map f (sub_runs_from P [hyphen] true s))
  = match non_empty (split_on P s) with
    | [] => []
    | _ :: _ => hyphen :: join [hyphen] (map (map f) (non_empty (split_on P s)))
    end.
Proof.
  induction s as [|c r [IH1 IH2]].
  - split; [intros x l [= <- <-]; reflexivity|reflexivity].
  - destruct (split_on_cons_inv P r) as (y & m & Hr). specialize (IH1 y m Hr).
    cbn [sub_runs_from split_on]. destruct (P c) eqn:Hc.
    + split.
      * intros x l [= <- <-]. cbn [app map]. rewrite f_hyphen. exact IH2.
      * cbn [app]. rewrite non_empty_nil. exact IH2.
    + pose proof (f_keeps c Hc) as Hk. rewrite Hr. split.
      * intros x l [= <- <-]. cbn [map]. rewrite (rstrip_keep _ _ Hk), IH1. reflexivity.
      * rewrite non_empty_cons. cbn [map]. rewrite join_cons.
        assert (Hh : rstrip is_hyphen (hyphen :: f c :: map f (sub_runs_from P [hyphen] false r))
                     = hyphen :: rstrip is_hyphen (f c :: map f (sub_runs_from P [hyphen] false r))).
        { apply rstrip_push. rewrite (rstrip_keep (f c) _ Hk). discriminate. }
        rewrite Hh, (rstrip_keep _ _ Hk), IH1. cbn [app].
        destruct (non_empty m); cbn [map]; reflexivity.
Qed.

(** Collapsing the runs and stripping the hyphens gives the pieces that
    are not empty, joined by single hyphens. *)
Lemma strip_sub_runs b s :
  strip is_hyphen (map f (sub_runs_from P [hyphen] b s))
  = join [hyphen] (map (map f) (non_empty (split_on P s))).
Proof.
  revert b; induction s as [|c r IH]; intros b; [reflexivity|].
  cbn [sub_runs_from split_on]. destruct (P c) eqn:Hc.
  - rewrite non_empty_nil, <- (IH true).
    destruct b; [reflexivity|]. cbn [app map]. rewrite f_hyphen. unfold strip. cbn [lstrip].
    change (is_hyphen hyphen) with true. cbv iota. reflexivity.
  - destruct (split_on_cons_inv P r) as (y & m & Hr). rewrite Hr.
    pose proof (f_keeps c Hc) as Hk. cbn [map]. unfold strip. cbn [lstrip]. rewrite Hk.
    rewrite (rstrip_keep _ _ Hk), (proj1 (rstrip_sub_runs r) y m Hr).
    rewrite non_empty_cons. cbn [map]. rewrite join_cons. cbn [app].
    destruct (non_empty m); cbn [map]; reflexivity.
Qed.

End Words.


(** On an ASCII name, [sanitize_filename] returns the words of the name in
    lower case, joined by single hyphens. *)
Lemma sanitize_filename_join E x :
  forallb is_ascii x = true ->
  sanitize_filename E x = join (py "-") (map (map ascii_lower_char) (name_words E x)).
Proof.
  intros Hx. rewrite (sanitize_filename_ascii E x Hx). unfold sub_runs, name_words.
  change (py "-") with [hyphen]. apply strip_sub_runs; [|reflexivity].
  intros c Hc. unfold hyphen_or_space in Hc. apply orb_false_iff in Hc as [Hh _].
  unfold ascii_lower_char. destruct (is_upper_AZ c) eqn:Hu; [|exact Hh].
  clear -Hu. char_arith.
Qed.

(** Before the lower-casing, and apart from a hyphen at either end, the
    name is its words joined by single hyphens. *)
Lemma sanitize_filename_collapsed E x :
  strip is_hyphen (sub_runs hyphen_or_space (py "-") (sub_delete (not_word_space_hyphen E) x))
  = join (py "-") (name_words E x).
Proof.
  unfold sub_runs, name_words. change (py "-") with [hyphen].
  rewrite <- (map_id (sub_runs_from _ _ _ _)).
  rewrite (strip_sub_runs hyphen_or_space (fun c => c)).
  - f_equal. rewrite <- (map_id (non_empty _)) at 2. apply map_ext. intros a. apply map_id.
  - intros c Hc. unfold hyphen_or_space in Hc. apply orb_false_iff in Hc as [Hh _]. exact Hh.
  - reflexivity.
Qed.

(** ** The normalizer: [sanitize_filename], [generate_slug], [calculate_reading_time] *)

(** C4, as the claim states it, fails: the dot of the extension is
    punctuation like any other and is deleted, so the name of the example
    comes out as [my-image-finalpng]. *)
Lemma sanitize_filename_example_refuted :
  sanitize_filename Demo.env (py "My Image (final)!.png") <> py "my-image-final.png".
Proof. vm_compute. discriminate. Qed.

(** C4 (amended): [sanitize_filename] deletes the characters that are not
    word characters, white space or hyphens, turns each run of white space
    and hyphens into one hyphen, lower-cases and trims the hyphens at both
    ends.  For every name: before the lower-casing the name has no two
    hyphens in a row and is, apart from a hyphen at either end, its words
    joined by single hyphens; and the result never starts or ends with a
    hyphen.  For an ASCII name the result is exactly the words of the name
    in lower case, joined by single hyphens; so it consists of characters
    of [a-z0-9_-] without two hyphens in a row, and its word characters are
    the word characters of the input, in order and in lower case.  And
    [sanitize_filename("My Image (final)!.png")] is [my-image-finalpng]. *)
Theorem sanitize_filename_spec (E : externals) :
  (forall x, head (sanitize_filename E x) <> Some hyphen
             /\ last (sanitize_filename E x) <> Some hyphen) /\
  (forall x, forallb is_ascii x = true ->
     Forall (fun c => name_char c = true) (sanitize_filename E x)
     /\ no_run is_hyphen false (sanitize_filename E x) = true
     /\ List.filter (is_word E) (sanitize_filename E x)
        = map ascii_lower_char (List.filter (is_word E) x)) /\
  sanitize_filename E (py "My Image (final)!.png") = py "my-image-finalpng" /\
  (forall x, forallb is_ascii x = true ->
     sanitize_filename E x = join (py "-") (map (map ascii_lower_char) (name_words E x))) /\
  (forall x, exists collapsed,
     sanitize_filename E x = strip is_hyphen (lower E collapsed) /\
     no_run is_hyphen false collapsed = true /\
     strip is_hyphen collapsed = join (py "-") (name_words E x)).
Proof.
  split; [|split; [|split; [|split]]].
  - intros x. unfold sanitize_filename. split.
    + destruct (strip is_hyphen _) as [|c r] eqn:Hs; [discriminate|].
      apply strip_head in Hs. simpl. intros [= ->]. discriminate.
    + intros H. apply strip_last in H. discriminate.
  - intros x Hx. destruct (sanitize_filename_chars E x Hx) as [Hc Hn].
    split; [exact Hc|split; [exact Hn|]]. apply sanitize_filename_words, Hx.
  - vm_compute. reflexivity.
  - intros x Hx. apply sanitize_filename_join, Hx.
  - intros x. eexists. split; [reflexivity|]. split; [|apply sanitize_filename_collapsed].
    rewrite <- (map_id (sub_runs _ _ _)).
    apply (no_run_map hyphen_or_space is_hyphen (fun c => c)).
    + intros c Hc. unfold hyphen_or_space. rewrite Hc. reflexivity.
    + unfold sub_runs. change (py "-") with [hyphen]. apply sub_runs_from_no_run. reflexivity.
Qed.

Lemma sanitize_filename_spec_witness :
  forallb is_ascii (py "photo-1 of 2.png") = true /\
  sanitize_filename Demo.env (py "photo-1 of 2.png")
  = join (py "-") (map (map ascii_lower_char) (name_words Demo.env (py "photo-1 of 2.png"))) /\
  name_words Demo.env (py "photo-1 of 2.png") = [py "photo"; py "1"; py "of"; py "2png"] /\
  sanitize_filename Demo.env (py "photo-1 of 2.png") = py "photo-1-of-2png".
Proof.
  split; [reflexivity|]. split; [|split; vm_compute; reflexivity].
  apply (proj1 (proj2 (proj2 (proj2 (sanitize_filename_spec Demo.env))))
           (py "photo-1 of 2.png")).
  reflexivity.
Defined.

(** C6: [generate_slug] is idempotent; its result contains only characters
    of [a-z0-9-] and neither starts nor ends with a hyphen; and, [str.lower]
    turning the title of the example into lower case as Python does,
    [generate_slug("PostgreSQL Şirket Güncellemeleri!")] is
    [postgresql-sirket-guncellemeleri]. *)
Theorem generate_slug_idempotent (E : externals) :
  (forall x, generate_slug E (generate_slug E x) = generate_slug E x) /\
  (forall x, Forall (fun c => slug_char c = true) (generate_slug E x)) /\
  (forall x, head (generate_slug E x) <> Some hyphen
             /\ last (generate_slug E x) <> Some hyphen) /\
  (unicode_lower E (py "PostgreSQL Şirket Güncellemeleri!")
     = py "postgresql şirket güncellemeleri!" ->
   generate_slug E (py "PostgreSQL Şirket Güncellemeleri!")
     = py "postgresql-sirket-guncellemeleri").
Proof.
  split; [|split; [|split]].
  - intros x. destruct (generate_slug_shape E x) as (Hc & Hn & Hs).
    apply generate_slug_fix; assumption.
  - intros x. apply generate_slug_shape.
  - intros x. destruct (generate_slug_shape E x) as (_ & _ & Hs). split.
    + destruct (generate_slug E x) as [|c r] eqn:Hx; [discriminate|].
      apply strip_head in Hs. simpl. intros [= ->]. discriminate.
    + intros H. rewrite <- Hs in H. apply strip_last in H. discriminate.
  - intros H. unfold generate_slug, lower.
    assert (Hf : forallb is_ascii (py "PostgreSQL Şirket Güncellemeleri!") = false)
      by (vm_compute; reflexivity).
    rewrite Hf, H. vm_compute. reflexivity.
Qed.

Lemma generate_slug_idempotent_witness :
  unicode_lower Demo.env (py "PostgreSQL Şirket Güncellemeleri!")
    = py "postgresql şirket güncellemeleri!" /\
  generate_slug Demo.env (py "PostgreSQL Şirket Güncellemeleri!")
    = py "postgresql-sirket-guncellemeleri".
Proof.
  split; [vm_compute; reflexivity|].
  apply (proj2 (proj2 (proj2 (generate_slug_idempotent Demo.env)))).
  vm_compute. reflexivity.
Defined.

(** C7: [calculate_reading_time] is the ceiling of the number of words
    divided by 200, and at least 1: it is the least [m >= 1] with
    [words <= 200 * m]; hence 1 up to 200 words, 2 from 201 to 400 words,
    [k] from [200 * (k - 1) + 1] to [200 * k] words; and
    [calculate_reading_time("word " * 450)] is 3. *)
Theorem calculate_reading_time_ceiling (E : externals) :
  (forall text,
     let words := Z.of_nat (length (findall_words E text)) in
     let minutes := calculate_reading_time E text in
     1 <= minutes /\ words <= 200 * minutes
     /\ (forall m, 1 <= m -> words <= 200 * m -> minutes <= m)) /\
  (forall text k,
     1 <= k ->
     200 * (k - 1) < Z.of_nat (length (findall_words E text)) <= 200 * k ->
     calculate_reading_time E text = k) /\
  (forall text,
     Z.of_nat (length (findall_words E text)) <= 200 ->
     calculate_reading_time E text = 1) /\
  calculate_reading_time E (concat (repeat (py "word ") 450)) = 3.
Proof.
  split; [|split; [|split]].
  - intros text words minutes. subst minutes. unfold calculate_reading_time.
    fold words. assert (0 <= words) by (subst words; lia).
    repeat split; [lia| |intros m Hm Hw]; Z.div_mod_to_equations; lia.
  - intros text k Hk Hw. unfold calculate_reading_time.
    Z.div_mod_to_equations. lia.
  - intros text Hw. unfold calculate_reading_time.
    Z.div_mod_to_equations. lia.
  - vm_compute. reflexivity.
Qed.

Lemma calculate_reading_time_ceiling_witness :
  200 * (2 - 1) < Z.of_nat (length (findall_words Demo.env (concat (repeat (py "a ") 201))))
    <= 200 * 2 /\
  calculate_reading_time Demo.env (concat (repeat (py "a ") 201)) = 2.
Proof.
  assert (H : 200 * (2 - 1)
              < Z.of_nat (length (findall_words Demo.env (concat (repeat (py "a ") 201))))
              <= 200 * 2) by (vm_compute; split; [reflexivity|discriminate]).
  split; [exact H|].
  apply (proj1 (proj2 (calculate_reading_time_ceiling Demo.env)) _ 2); [lia|exact H].
Defined.

(** ** [os.path] and the image downloader *)

Lemma startswith_app s p : startswith s p = true -> exists t, s = p ++ t.
Proof.
  revert s; induction p as [|a p IH]; intros s; simpl; [eauto|].
  destruct s as [|b s]; [discriminate|].
  intros H; apply andb_true_iff in H as [Hab H]. apply N.eqb_eq in Hab as ->.
  destruct (IH s H) as [t ->]. eauto.
Qed.

Lemma endswith_In s p c : endswith s p = true -> In c p -> In c s.
Proof.
  unfold endswith. intros H Hc. apply startswith_app in H as [t H].
  apply in_rev. rewrite H. apply in_or_app. left. apply in_rev in Hc. exact Hc.
Qed.

(** [rfind] returns [-1] or the index of an occurrence. *)
Lemma rfind_from_spec c i last s :
  rfind_from c i last s = last
  \/ (i <= rfind_from c i last s
      /\ nth_error s (Z.to_nat (rfind_from c i last s - i)) = Some c).
Proof.
  revert i last; induction s as [|x r IH]; intros i last; simpl; [left; reflexivity|].
  destruct (IH (i + 1) (if (x =? c)%N then i else last)) as [H|[Hle Hn]].
  - rewrite H. destruct (N.eqb_spec x c) as [->|]; [|left; reflexivity].
    right. split; [lia|]. replace (i - i) with 0 by lia. reflexivity.
  - right. split; [lia|].
    replace (Z.to_nat (rfind_from c (i + 1) (if (x =? c)%N then i else last) r - i))
      with (S (Z.to_nat (rfind_from c (i + 1) (if (x =? c)%N then i else last) r - (i + 1))))
      by lia.
    exact Hn.
Qed.

Lemma rfind_spec s c :
  rfind s c = -1 \/ (0 <= rfind s c /\ nth_error s (Z.to_nat (rfind s c)) = Some c).
Proof.
  unfold rfind. destruct (rfind_from_spec c 0 (-1) s) as [H|[H1 H2]]; [left; exact H|].
  right. split; [exact H1|]. rewrite Z.sub_0_r in H2. exact H2.
Qed.

Lemma drop_nth_error {A} (l : list A) n x :
  nth_error l n = Some x -> exists r, drop n l = x :: r.
Proof.
  revert n; induction l as [|a l IH]; intros [|n]; simpl; try discriminate.
  - intros [= ->]. eauto.
  - apply IH.
Qed.

(** The extension [splitext] returns is empty or starts with a dot. *)
Lemma splitext_ext p : snd (splitext p) = [] \/ exists r, snd (splitext p) = dot :: r.
Proof.
  unfold splitext.
  destruct ((rfind p slash <? rfind p dot) && _) eqn:Hc; simpl; [|left; reflexivity].
  apply andb_true_iff in Hc as [Hlt _]. apply Z.ltb_lt in Hlt.
  destruct (rfind_spec p slash) as [Hs|[Hs _]];
    (destruct (rfind_spec p dot) as [Hd|[_ Hd]]; [lia|]);
    right; unfold slice_from; eapply drop_nth_error; exact Hd.
Qed.

(** The extension used for the file: the one of the URL path, or [.jpg]. *)
Lemma image_ext_dot p : exists r, or_str (snd (splitext p)) (py ".jpg") = dot :: r.
Proof.
  destruct (splitext_ext p) as [H|[r H]]; rewrite H; simpl; eauto.
Qed.

Lemma sanitize_filename_no_dot (E : externals) x :
  forallb is_ascii x = true \/ lower_makes_no_dot E ->
  ~ In dot (sanitize_filename E x).
Proof.
  intros Hx. unfold sanitize_filename.
  set (t := sub_runs hyphen_or_space (py "-") (sub_delete (not_word_space_hyphen E) x)).
  assert (Ht : Forall (fun c => c <> dot) t).
  { subst t. unfold sub_runs. apply sub_runs_from_Forall.
    - repeat constructor. discriminate.
    - eapply Forall_impl; [apply sub_delete_Forall|].
      intros c Hc _ ->. vm_compute in Hc. discriminate. }
  assert (Hl : Forall (fun c => c <> dot) (lower E t)).
  { unfold lower. destruct (forallb is_ascii t) eqn:Ha.
    - apply Forall_map. eapply Forall_impl; [exact Ht|]. intros c Hc H. simpl in *.
      apply Hc. unfold ascii_lower_char in H.
      destruct (is_upper_AZ c) eqn:Hu; [|exact H]. exfalso. clear -Hu H.
      unfold dot in H. char_arith.
    - destruct Hx as [Hx|Hx].
      + exfalso. apply not_true_iff_false in Ha. apply Ha.
        apply forallb_forall. intros c Hc. rewrite forallb_forall in Hx.
        subst t. unfold sub_runs in Hc.
        assert (Hall : Forall (fun c => is_ascii c = true)
                         (sub_runs_from hyphen_or_space (py "-") false
                            (sub_delete (not_word_space_hyphen E) x))).
        { apply sub_runs_from_Forall; [repeat constructor|].
          apply List.Forall_forall. intros d Hd _.
          apply List.filter_In in Hd as [Hd _]. apply Hx, Hd. }
        eapply List.Forall_forall in Hall; eassumption.
      + apply List.Forall_forall. intros c Hc ->. revert Hc. apply Hx.
        intros Hd. eapply List.Forall_forall in Ht; [|exact Hd]. congruence. }
  intros Hd. apply (strip_Forall is_hyphen) in Hl.
  eapply List.Forall_forall in Hl; [|exact Hd]. congruence.
Qed.

Lemma rfind_from_app c i last a b :
  rfind_from c i last (a ++ b)
  = rfind_from c (i + Z.of_nat (length a)) (rfind_from c i last a) b.
Proof.
  revert i last; induction a as [|x a IH]; intros i last; simpl.
  - rewrite Z.add_0_r. reflexivity.
  - rewrite IH. f_equal. lia.
Qed.

(** A path whose last component is [img.png] has the extension [.png]. *)
Lemma splitext_img p : basename p = py "img.png" -> snd (splitext p) = py ".png".
Proof.
  unfold basename, slice_from. set (k := Z.to_nat (rfind p slash + 1)). intros Hb.
  assert (Hsep : rfind p slash + 1 = Z.of_nat k).
  { subst k. destruct (rfind_spec p slash) as [H|[H _]]; lia. }
  assert (Hp : p = take k p ++ py "img.png") by (rewrite <- Hb; symmetry; apply take_drop).
  assert (Hk : length (take k p) = k).
  { apply length_take_le. apply Nat.lt_le_incl, (lookup_lt_is_Some_1 p k).
    rewrite <- (Nat.add_0_r k), <- lookup_drop, Hb. eexists; reflexivity. }
  assert (Hdot : rfind p dot = Z.of_nat k + 3).
  { unfold rfind. rewrite Hp at 1. rewrite rfind_from_app, Hk.
    change (py "img.png") with [105; 109; 103; 46; 112; 110; 103]%N.
    cbn [rfind_from N.eqb Pos.eqb dot]. lia. }
  unfold splitext. rewrite Hdot.
  replace (rfind p slash + 1) with (Z.of_nat k) by lia.
  replace (rfind p slash <? Z.of_nat k + 3) with true by (symmetry; apply Z.ltb_lt; lia).
  assert (Hmid : slice p (Z.of_nat k) (Z.of_nat k + 3) = py "img").
  { unfold slice. replace (Z.to_nat (Z.of_nat k + 3)) with (k + 3)%nat by lia.
    rewrite Nat2Z.id, <- take_drop_commute, Hb. reflexivity. }
  rewrite Hmid. simpl. unfold slice_from.
  replace (Z.to_nat (Z.of_nat k + 3)) with (k + 3)%nat by lia.
  rewrite <- drop_drop, Hb. reflexivity.
Qed.

Lemma startswith_prefix p t : startswith (p ++ t) p = true.
Proof.
  induction p as [|a p IH]; simpl; [destruct t; reflexivity|].
  rewrite N.eqb_refl. exact IH.
Qed.

Lemma endswith_suffix s e : endswith (s ++ e) e = true.
Proof. unfold endswith. rewrite rev_app_distr. apply startswith_prefix. Qed.

(** C10: whenever [download_image] succeeds, it returns
    [/blog/<slug>/<filename>], where [<filename>] is not empty and ends
    with the extension of the URL path ([.jpg] when the path has none).
    The sanitized base name ([image] when it is empty) contains no dot (for
    an ASCII base name, and for every base name if lower-casing introduces
    no dot), so the extension is always appended to it; a base name
    [img.png] gives the file name [imgpng.png]. *)
Theorem download_image_path (E : externals) (img_url slug p : pystr) (w w' : world) :
  download_image E img_url slug w = (Ok (Some p), w') ->
  exists parsed_path filename,
    urlparse_path E img_url = Ok parsed_path /\
    p = py "/blog/" ++ slug ++ py "/" ++ filename /\
    filename <> [] /\
    endswith filename (or_str (snd (splitext parsed_path)) (py ".jpg")) = true /\
    (forallb is_ascii (basename parsed_path) = true \/ lower_makes_no_dot E ->
     filename = or_str (sanitize_filename E (basename parsed_path)) (py "image")
                ++ or_str (snd (splitext parsed_path)) (py ".jpg")) /\
    (basename parsed_path = py "img.png" -> filename = py "imgpng.png").
Proof.
  unfold download_image, try_except, bind, requests_get, lift, mkdir, write_file, ret, print.
  destruct (http E (requests_log w) img_url) as [response|e]; [|intros [=]].
  destruct (urlparse_path E img_url) as [parsed_path|e]; [|intros [=]].
  destruct (file_write E _ _ _) as [[]|e]; [|intros [=]].
  intros [= <- _]. eexists parsed_path, _. split; [reflexivity|split; [reflexivity|]].
  set (ext := or_str (snd (splitext parsed_path)) (py ".jpg")).
  set (stem := or_str (sanitize_filename E (basename parsed_path)) (py "image")).
  assert (Hstem : stem <> []).
  { subst stem. destruct (sanitize_filename E (basename parsed_path)); discriminate. }
  split; [|split; [|split]].
  - destruct (endswith stem ext); simpl; [exact Hstem|].
    destruct stem; [contradiction|discriminate].
  - destruct (endswith stem ext) eqn:He; simpl; [exact He|apply endswith_suffix].
  - intros Hx. destruct (endswith stem ext) eqn:He; simpl; [exfalso|reflexivity].
    destruct (image_ext_dot parsed_path) as [r Hr]. fold ext in Hr.
    assert (Hd : In dot stem) by (eapply endswith_In; [exact He|rewrite Hr; left; reflexivity]).
    subst stem. destruct (sanitize_filename E (basename parsed_path)) as [|c t] eqn:Hs.
    + simpl in Hd. vm_compute in Hd. intuition discriminate.
    + apply (sanitize_filename_no_dot E (basename parsed_path) Hx). rewrite Hs. exact Hd.
  - intros Hb. subst stem ext. rewrite (splitext_img parsed_path Hb), Hb.
    vm_compute. reflexivity.
Qed.

Lemma download_image_path_witness :
  exists w',
    download_image Demo.env Demo.image_url (py "my-post") empty_world
    = (Ok (Some (py "/blog/my-post/imgpng.png")), w') /\
    exists parsed_path filename,
      urlparse_path Demo.env Demo.image_url = Ok parsed_path /\
      py "/blog/my-post/imgpng.png" = py "/blog/" ++ py "my-post" ++ py "/" ++ filename /\
      filename <> [] /\
      endswith filename (or_str (snd (splitext parsed_path)) (py ".jpg")) = true /\
      (forallb is_ascii (basename parsed_path) = true \/ lower_makes_no_dot Demo.env ->
       filename = or_str (sanitize_filename Demo.env (basename parsed_path)) (py "image")
                  ++ or_str (snd (splitext parsed_path)) (py ".jpg")) /\
      (basename parsed_path = py "img.png" -> filename = py "imgpng.png").
Proof.
  pose (r := download_image Demo.env Demo.image_url (py "my-post") empty_world).
  assert (H : r = (Ok (Some (py "/blog/my-post/imgpng.png")), snd r))
    by (vm_compute; reflexivity).
  exists (snd r). split; [exact H|].
  exact (download_image_path Demo.env Demo.image_url (py "my-post") _ empty_world (snd r) H).
Defined.

(** ** Facts about documents: [find], references and in-place changes *)

Lemma find_app {A} (P : A -> bool) a b :
  List.find P (a ++ b)
  = match List.find P a with Some y => Some y | None => List.find P b end.
Proof. induction a as [|x a IH]; simpl; [reflexivity|]. destruct (P x); auto. Qed.

(** [find_ref] finds the element that [find] finds. *)
Lemma find_ref_find P n : find P n = snd <$> find_ref P n.
Proof.
  induction n as [s|k s|s|nm cl attrs ch IH] using node_ind'; try reflexivity.
  unfold find. cbn [descendants find_ref].
  generalize 0%nat. induction IH as [|x r Hx Hr IHr]; intros i; [reflexivity|].
  cbn [List.find]. destruct (P x) eqn:Hpx; [reflexivity|].
  rewrite find_app. fold (find P x). rewrite Hx.
  destruct (find_ref P x) as [[p y]|]; [reflexivity|]. simpl. apply IHr.
Qed.

(** The position it returns is the position of that element. *)
Lemma find_ref_subtree P n pos c : find_ref P n = Some (pos, c) -> subtree n pos = Some c.
Proof.
  revert pos c. induction n as [s|k s|s|nm cl attrs ch IH] using node_ind'; try discriminate.
  intros pos c. cbn [find_ref].
  assert (Hgen : forall i pre, length pre = i ->
     (fix go (i : nat) (l : list node) {struct l} : option (path * node) :=
         match l with
         | [] => None
         | x :: r =>
             if P x then Some ([i], x)
             else match find_ref P x with
                  | Some (p, y) => Some (i :: p, y)
                  | None => go (S i) r
                  end
         end) i ch = Some (pos, c) -> subtree (NTag nm cl attrs (pre ++ ch)) pos = Some c).
  { induction IH as [|x r Hx Hr IHr]; intros i pre Hlen; [discriminate|].
    destruct (P x) eqn:Hpx.
    - intros [= <- <-]. simpl. rewrite nth_error_app2, Hlen, Nat.sub_diag by lia. reflexivity.
    - destruct (find_ref P x) as [[p y]|] eqn:Hf.
      + intros [= <- <-]. simpl. rewrite nth_error_app2, Hlen, Nat.sub_diag by lia.
        simpl. apply Hx. reflexivity.
      + intros H. specialize (IHr (S i) (pre ++ [x])).
        rewrite <- app_assoc in IHr. apply IHr; [rewrite length_app; simpl; lia|exact H]. }
  apply (Hgen 0%nat []). reflexivity.
Qed.

(** A change made at a position is seen at that position. *)
Lemma subtree_update_at f n pos c :
  subtree n pos = Some c -> subtree (update_at f n pos) pos = Some (f c).
Proof.
  revert n; induction pos as [|i pos IH]; intros n; simpl.
  - intros [= ->]. reflexivity.
  - destruct n as [s|k s|s|nm cl attrs ch]; try discriminate.
    revert i. induction ch as [|x r IHr]; intros [|i]; simpl; try discriminate.
    + apply IH.
    + apply IHr.
Qed.

(** The content region is the element that the first matching candidate
    finds, and the removal of unwanted elements from it is a change of the
    page at its position. *)
Lemma find_content_region soup pos region :
  find_content soup = Some (pos, region) ->
  (exists sel, In sel content_selectors /\ find sel soup = Some region) /\
  subtree (update_at (decompose_all unwanted_in_content) soup pos) pos
  = Some (decompose_all unwanted_in_content region).
Proof.
  intros H. split.
  - unfold find_content in H. cbv zeta in H. unfold content_selectors.
    destruct (find_ref (has_name (py "article")) soup) as [[p c]|] eqn:H1; simpl in H.
    { injection H as -> ->. eexists. split; [left; reflexivity|].
      rewrite find_ref_find, H1. reflexivity. }
    destruct (find_ref (has_name (py "main")) soup) as [[p c]|] eqn:H2; simpl in H.
    { injection H as -> ->. eexists. split; [right; left; reflexivity|].
      rewrite find_ref_find, H2. reflexivity. }
    destruct (find_ref (class_ [py "content"; py "post-body"]) soup) as [[p c]|] eqn:H3;
      simpl in H.
    { injection H as -> ->. eexists. split; [right; right; left; reflexivity|].
      rewrite find_ref_find, H3. reflexivity. }
    eexists. split; [right; right; right; left; reflexivity|].
    rewrite find_ref_find, H. reflexivity.
  - apply subtree_update_at. unfold find_content in H. cbv zeta in H.
    destruct (or_else _ _) as [[p c]|] eqn:Ho.
    + injection H as -> ->. unfold or_else in Ho.
      repeat match type of Ho with
             | match ?x with Some _ => _ | None => _ end = _ =>
                 let Hx := fresh "Hx" in
                 destruct x as [[? ?]|] eqn:Hx;
                 [injection Ho as -> ->; eapply find_ref_subtree; exact Hx|]
             end.
      eapply find_ref_subtree; exact Ho.
    + eapply find_ref_subtree; exact H.
Qed.

(** ** Effects of the extraction steps *)

Lemma bind_Ok {A B} (m : M A) (k : A -> M B) w b w' :
  bind m k w = (Ok b, w') -> exists a w1, m w = (Ok a, w1) /\ k a w1 = (Ok b, w').
Proof.
  unfold bind. destruct (m w) as [[a|e] w1]; [eauto|discriminate].
Qed.

Lemma try_except_Some {A} (m : M (option A)) (h : pystr -> M unit) w a w' :
  try_except m (fun e => h e ;; ret None) w = (Ok (Some a), w') ->
  m w = (Ok (Some a), w').
Proof.
  unfold try_except, bind, ret. destruct (m w) as [[o|e] w1]; [trivial|].
  destruct (h e w1) as [[u|e'] w2]; discriminate.
Qed.

Lemma pure_ret {A} (a : A) : pure_m (ret a).
Proof. exists (Ok a). reflexivity. Qed.

Lemma pure_lift {A} (r : result A) : pure_m (lift r).
Proof. exists r. reflexivity. Qed.

Lemma pure_bind {A B} (m : M A) (k : A -> M B) :
  pure_m m -> (forall a, pure_m (k a)) -> pure_m (bind m k).
Proof.
  intros [r Hm] Hk. destruct r as [a|e].
  - destruct (Hk a) as [r' Hr']. exists r'. intros w. unfold bind. rewrite Hm. apply Hr'.
  - exists (Raise e). intros w. unfold bind. rewrite Hm. reflexivity.
Qed.

Lemma pure_for_each {A S} (l : list A) (body : A -> S -> M S) :
  (forall x s, pure_m (body x s)) -> forall s, pure_m (for_each l body s).
Proof.
  intros Hb. induction l as [|x l IH]; intros s; simpl; [apply pure_ret|].
  apply pure_bind; [apply Hb|exact IH].
Qed.

Lemma pure_clean_html_content E html : pure_m (clean_html_content E html).
Proof.
  unfold clean_html_content. apply pure_bind; [apply pure_lift|].
  intros soup. apply pure_ret.
Qed.

Lemma pure_extract_images E html base_url : pure_m (extract_images E html base_url).
Proof.
  unfold extract_images. apply pure_bind; [apply pure_lift|].
  intros soup. apply pure_for_each. intros img images.
  destruct (or_opt _ _) as [[|c src]|]; try apply pure_ret.
  repeat match goal with
         | |- context [if ?b then _ else _] => destruct b
         end;
    try apply pure_ret; (apply pure_bind; [apply pure_lift|intros; apply pure_ret]).
Qed.

Lemma pure_run {A} (m : M A) r w w' : pure_m m -> m w = (r, w') -> w' = w /\ forall w0, m w0 = (r, w0).
Proof.
  intros [r0 H] Hm. rewrite H in Hm. injection Hm as <- <-. auto.
Qed.

(** ** The post extractor *)

(** What a successful extraction went through and what it returns. *)
Lemma scrape_blog_post_Some E url w post w' :
  scrape_blog_post E url w = (Ok (Some post), w') ->
  exists response soup pos region date content_html images,
    http E (requests_log w) url = Ok response /\
    html_parser E (text response) = Ok soup /\
    find_content soup = Some (pos, region) /\
    (forall w0,
       clean_html_content E (soup_str E (decompose_all unwanted_in_content region)) w0
       = (Ok content_html, w0)) /\
    (forall w0, extract_images E content_html url w0 = (Ok images, w0)) /\
    post =
      [ (py "title", VStr (extract_title soup));
        (py "titleTr", VStr (extract_title soup));
        (py "slug", VStr (generate_slug E (extract_title soup)));
        (py "date", VStr (isoformat date));
        (py "author", VStr (extract_author soup));
        (py "category", VStr (extract_category soup));
        (py "categoryTr",
         VStr (default (extract_category soup)
                 (assoc (py "tr")
                    (default [] (assoc (extract_category soup) CATEGORY_MAP)))));
        (py "tags", VList (extract_tags soup));
        (py "tagsTr", VList (extract_tags soup));
        (py "sourceUrl", VStr url);
        (py "canonicalUrl", VStr url);
        (py "excerpt",
         VStr (extract_excerpt
                 (update_at (decompose_all unwanted_in_content) soup pos)
                 (decompose_all unwanted_in_content region)));
        (py "excerptTr",
         VStr (extract_excerpt
                 (update_at (decompose_all unwanted_in_content) soup pos)
                 (decompose_all unwanted_in_content region)));
        (py "content", VStr content_html);
        (py "contentTr", VStr content_html);
        (py "readingTime",
         VInt (calculate_reading_time E
                 (get_text (decompose_all unwanted_in_content region))));
        (py "heroImage", VNone);
        (py "images", VList images);
        (py "published", VBool true) ].
Proof.
  unfold scrape_blog_post. intros H. apply try_except_Some in H.
  apply bind_Ok in H as ([] & w1 & Hprint & H).
  apply bind_Ok in H as (response & w2 & Hget & H).
  apply bind_Ok in H as (soup & w3 & Hparse & H).
  cbv zeta in H.
  apply bind_Ok in H as (date & w4 & Hdate & H).
  destruct (find_content soup) as [[pos region]|] eqn:Href.
  2:{ apply bind_Ok in H as (? & ? & _ & H). discriminate. }
  apply bind_Ok in H as (content_html & w5 & Hclean & H).
  apply bind_Ok in H as (images & w6 & Himages & H).
  apply (pure_run _ _ _ _ (pure_clean_html_content E _)) in Hclean as [-> Hclean].
  apply (pure_run _ _ _ _ (pure_extract_images E _ _)) in Himages as [-> Himages].
  injection H as <- <-. injection Hprint as <-.
  unfold requests_get in Hget. injection Hget as Hget <-. simpl in Hget.
  unfold lift in Hparse. injection Hparse as Hparse <-.
  exists response, soup, pos, region, date, content_html, images.
  repeat split; assumption || reflexivity.
Qed.

(** Whatever happens, the extraction returns to its caller; it makes one
    request, for the URL given, and writes no file. *)
Lemma scrape_blog_post_returns E url w :
  exists o w',
    scrape_blog_post E url w = (Ok o, w') /\
    requests_log w' = requests_log w ++ [url] /\
    files w' = files w /\ write_log w' = write_log w /\ dirs w' = dirs w /\
    slept w' = slept w.
Proof.
  unfold scrape_blog_post, try_except.
  unfold bind at 1. unfold print at 1. cbv beta iota.
  unfold bind at 1. unfold requests_get at 1. cbv beta iota.
  destruct (http E _ url) as [response|e];
    [|eexists _, _; split; [reflexivity|simpl; auto]].
  unfold bind at 1. unfold lift at 1.
  destruct (html_parser E (text response)) as [soup|e];
    [|eexists _, _; split; [reflexivity|simpl; auto]].
  cbv zeta. unfold bind at 1.
  match goal with
  | |- context [match ?d with Some d' => ret d' | None => datetime_now _ end ?w0] =>
      destruct d as [date|]; unfold ret at 1, datetime_now
  end.
  all: destruct (find_content soup) as [[pos region]|];
    [|eexists _, _; split; [reflexivity|simpl; auto]].
  all: unfold bind at 1;
    match goal with
    | |- context [clean_html_content ?E' ?h ?w0] =>
        destruct (pure_clean_html_content E' h) as [[content_html|e] Hc]; rewrite (Hc w0)
    end; [|eexists _, _; split; [reflexivity|simpl; auto]].
  all: unfold bind at 1;
    match goal with
    | |- context [extract_images ?E' ?h ?u ?w0] =>
        destruct (pure_extract_images E' h u) as [[images|e] Hi]; rewrite (Hi w0)
    end; eexists _, _; (split; [reflexivity|simpl; auto]).
Qed.

Lemma scrape_blog_post_keys E url w post w' :
  scrape_blog_post E url w = (Ok (Some post), w') ->
  keys post = post_fields /\
  exists title, dict_get post (py "slug") = Some (VStr (generate_slug E title)).
Proof.
  intros H. apply scrape_blog_post_Some in H
    as (response & soup & pos & region & date & content_html & images & _ & _ & _ & _ & _ & ->).
  split; [reflexivity|]. exists (extract_title soup). reflexivity.
Qed.

(** ** The orchestrator *)

(** One turn of the loop of [main]: the extraction returns, and what
    follows depends on what it returned. *)
Lemma main_loop_cons E url rest n w :
  exists o w1,
    scrape_blog_post E url w = (Ok o, w1) /\
    requests_log w1 = requests_log w ++ [url] /\
    files w1 = files w /\ write_log w1 = write_log w /\ dirs w1 = dirs w /\
    slept w1 = slept w /\
    match o with
    | None => main_loop E (url :: rest) n w = (sleep 2 ;; main_loop E rest n) w1
    | Some post =>
        exists title,
          keys post = post_fields /\
          dict_get post (py "slug") = Some (VStr (generate_slug E title)) /\
          main_loop E (url :: rest) n w
          = (write_file E (path_join (CONTENT_DIR E) (generate_slug E title ++ py ".json"))
               (FJson post) ;;
             print (py "Saved: " ++ generate_slug E title ++ py ".json") ;;
             sleep 2 ;;
             main_loop E rest (n + 1)) w1
    end.
Proof.
  destruct (scrape_blog_post_returns E url w)
    as (o & w1 & Hs & Hreq & Hfiles & Hwl & Hdirs & Hslept).
  exists o, w1. repeat (split; [assumption|]).
  destruct o as [post|].
  - destruct (scrape_blog_post_keys E url w post w1 Hs) as [Hkeys [title Hslug]].
    exists title. split; [exact Hkeys|]. split; [exact Hslug|].
    cbn [main_loop]. unfold bind at 1. rewrite Hs.
    destruct post as [|kv post0]; [discriminate|].
    rewrite Hslug. unfold bind, ret.
    destruct (write_file E _ _ w1) as [[[]|e] w2]; reflexivity.
  - cbn [main_loop]. unfold bind at 1. rewrite Hs. reflexivity.
Qed.

(** The loop of [main] goes through the URLs in turn.  Either it reaches the
    end of the list: then it has requested every URL, slept after each of
    them, and counted the files it wrote.  Or the file of a post cannot be
    written: then that exception leaves the loop, and the URLs after that
    post are not processed.  Nothing else stops it.  In both cases it
    writes nothing but posts, each under the name made of its slug. *)
Lemma main_loop_run E urls n w :
  exists r w' saved,
    main_loop E urls n w = (r, w') /\
    write_log w' = write_log w ++ saved /\
    (length saved <= length urls)%nat /\
    dirs w' = dirs w /\
    (map_Forall (fun _ f => is_post_file f) (files w) ->
     map_Forall (fun _ f => is_post_file f) (files w')) /\
    (map_Forall (stored_by_slug E) (files w) -> map_Forall (stored_by_slug E) (files w')) /\
    match r with
    | Ok n' =>
        n' = n + Z.of_nat (length saved) /\
        requests_log w' = requests_log w ++ urls /\
        slept w' = slept w + 2 * Z.of_nat (length urls)
    | Raise e =>
        exists done url rest,
          urls = done ++ url :: rest /\
          requests_log w' = requests_log w ++ done ++ [url] /\
          slept w' = slept w + 2 * Z.of_nat (length done) /\
          (length saved <= length done)%nat /\
          post_file_refused E w' e
    end.
Proof.
  revert n w; induction urls as [|url rest IH]; intros n w.
  - exists (Ok n), w, []. cbn [main_loop length]. unfold ret.
    rewrite !app_nil_r. repeat split; auto; lia.
  - destruct (main_loop_cons E url rest n w)
      as (o & w1 & Hs & Hreq & Hfiles & Hwl & Hdirs & Hslept & Hstep).
    destruct o as [post|].
    + destruct Hstep as (title & Hkeys & Hslug & ->).
      set (p := path_join (CONTENT_DIR E) (generate_slug E title ++ py ".json")).
      unfold bind at 1. unfold write_file at 1.
      destruct (file_write E (write_log w1) p (FJson post)) as [[]|e] eqn:Hopen.
      * unfold bind at 1, print at 1. unfold bind at 1, sleep at 1.
        cbn [requests_log stdout files write_log dirs clock_reads slept].
        match goal with
        | |- context [main_loop E rest ?m ?w0] =>
            destruct (IH m w0) as (r & w' & saved & Hl & Hw & Hlen & Hd & Hpost & Hby & Hr)
        end.
        cbn [requests_log stdout files write_log dirs clock_reads slept] in Hw, Hd, Hpost, Hby, Hr.
        exists r, w', (p :: saved). split; [exact Hl|]. cbn [length].
        split; [rewrite Hw, Hwl, <- app_assoc; reflexivity|].
        split; [lia|]. split; [rewrite Hd; exact Hdirs|].
        split; [|split].
        -- intros Hall. apply Hpost. apply map_Forall_insert_2; [|rewrite Hfiles; exact Hall].
           exists post. split; [reflexivity|exact Hkeys].
        -- intros Hall. apply Hby. apply map_Forall_insert_2; [|rewrite Hfiles; exact Hall].
           exists post, (generate_slug E title). auto.
        -- destruct r as [n'|e].
           ++ destruct Hr as (Hn & Hr & Hsl).
              split; [lia|]. split; [rewrite Hr, Hreq, <- app_assoc; reflexivity|].
              rewrite Hsl, Hslept. lia.
           ++ destruct Hr as (done & u & rest' & -> & Hr & Hsl & Hlen' & Href).
              exists (url :: done), u, rest'. split; [reflexivity|].
              split; [rewrite Hr, Hreq, <- !app_assoc; reflexivity|].
              cbn [length]. split; [rewrite Hsl, Hslept; lia|]. split; [lia|exact Href].
      * exists (Raise e), w1, []. split; [reflexivity|].
        rewrite app_nil_r. split; [exact Hwl|]. split; [cbn [length]; lia|].
        split; [exact Hdirs|]. split; [rewrite Hfiles; trivial|].
        split; [rewrite Hfiles; trivial|].
        exists [], url, rest. split; [reflexivity|]. split; [exact Hreq|].
        cbn [length]. split; [rewrite Hslept; lia|]. split; [lia|].
        exists post, title. auto.
    + rewrite Hstep. unfold bind at 1, sleep at 1.
      match goal with
      | |- context [main_loop E rest ?m ?w0] =>
          destruct (IH m w0) as (r & w' & saved & Hl & Hw & Hlen & Hd & Hpost & Hby & Hr)
      end.
      cbn [requests_log stdout files write_log dirs clock_reads slept] in Hw, Hd, Hpost, Hby, Hr.
      exists r, w', saved. split; [exact Hl|]. cbn [length].
      split; [rewrite Hw, Hwl; reflexivity|].
      split; [lia|]. split; [rewrite Hd; exact Hdirs|].
      split; [intros Hall; apply Hpost; rewrite Hfiles; exact Hall|].
      split; [intros Hall; apply Hby; rewrite Hfiles; exact Hall|].
      destruct r as [n'|e].
      * destruct Hr as (Hn & Hr & Hsl).
        split; [exact Hn|]. split; [rewrite Hr, Hreq, <- app_assoc; reflexivity|].
        rewrite Hsl, Hslept. lia.
      * destruct Hr as (done & u & rest' & -> & Hr & Hsl & Hlen' & Href).
        exists (url :: done), u, rest'. split; [reflexivity|].
        split; [rewrite Hr, Hreq, <- !app_assoc; reflexivity|].
        cbn [length]. split; [rewrite Hsl, Hslept; lia|]. split; [lia|exact Href].
Qed.

(** ** The listing crawler *)

Lemma union_absorb (u : pystr) (L U : gset pystr) : u ∈ L -> L ∪ U = L ∪ ({[u]} ∪ U).
Proof. set_solver. Qed.

Lemma union_move (u : pystr) (L U : gset pystr) : {[u]} ∪ L ∪ U = L ∪ ({[u]} ∪ U).
Proof. set_solver. Qed.

Lemma subseteq_add_in (u : pystr) (L U : gset pystr) :
  u ∈ L -> (U ⊆ L <-> {[u]} ∪ U ⊆ L).
Proof. set_solver. Qed.

Lemma not_subseteq_add (u : pystr) (L U : gset pystr) : u ∉ L -> ~ {[u]} ∪ U ⊆ L.
Proof. set_solver. Qed.

Section Crawler.

Variable E : externals.
Variable base_url : pystr.

Lemma collect_links_cons a rest links found_new :
  collect_links E base_url (a :: rest) links found_new
  = match link_target E base_url a with
    | None => collect_links E base_url rest links found_new
    | Some (Raise e) => (Raise e, (links, found_new))
    | Some (Ok u) =>
        if bool_decide (u ∈ links)
        then collect_links E base_url rest links found_new
        else collect_links E base_url rest ({[u]} ∪ links) true
    end.
Proof.
  cbn [collect_links]. unfold link_target. cbv zeta.
  destruct (negb _ && _); [|reflexivity].
  destruct (urljoin E base_url _); reflexivity.
Qed.

(** The loop over the anchors either stops at a link that cannot be
    resolved, or adds the URLs of the page and tells whether one was new. *)
Lemma collect_links_spec anchors links found_new :
  let targets := omap (link_target E base_url) anchors in
  let urls : gset pystr := list_to_set (omap ok_value targets) in
  match collect_links E base_url anchors links found_new with
  | (Raise _, _) => exists e, In (Raise e) targets
  | (Ok _, (links', found_new')) =>
      (forall e, ~ In (Raise e) targets)
      /\ links' = links ∪ urls
      /\ (found_new' = false <-> found_new = false /\ urls ⊆ links)
  end.
Proof.
  cbv zeta. revert links found_new; induction anchors as [|a rest IH];
    intros links found_new.
  - simpl. split; [tauto|]. split; [symmetry; apply (right_id_L ∅ (∪))|].
    split; [intros ->; split; [reflexivity|apply empty_subseteq]|tauto].
  - rewrite collect_links_cons. cbn [omap list_omap].
    destruct (link_target E base_url a) as [[u|e]|]; [| |apply IH].
    + cbn [omap list_omap ok_value list_to_set].
      set (T := omap (link_target E base_url) rest) in *.
      set (U := list_to_set (omap ok_value T) : gset pystr) in *.
      case_bool_decide as Hin.
      * specialize (IH links found_new).
        destruct (collect_links E base_url rest links found_new) as [[[]|e] [l f]].
        -- destruct IH as (Hno & -> & Hf). split; [|split].
           ++ intros e [He|He]; [discriminate|]. eapply Hno, He.
           ++ apply union_absorb, Hin.
           ++ rewrite Hf, <- (subseteq_add_in u links U Hin). reflexivity.
        -- destruct IH as [e' He']. exists e'. right. exact He'.
      * specialize (IH ({[u]} ∪ links) true).
        destruct (collect_links E base_url rest ({[u]} ∪ links) true) as [[[]|e] [l f]].
        -- destruct IH as (Hno & -> & Hf). split; [|split].
           ++ intros e [He|He]; [discriminate|]. eapply Hno, He.
           ++ apply union_move.
           ++ split.
              ** intros Hf'. apply Hf in Hf' as [[=] _].
              ** intros [_ Hsub]. exfalso. eapply not_subseteq_add; eassumption.
        -- destruct IH as [e' He']. exists e'. right. exact He'.
    + exists e. left. reflexivity.
Qed.

(** One turn of the loop never raises; it requests the page and touches no
    file; and it does what the page tells. *)
Lemma crawl_page_returns page links wp :
  exists links' exit wp',
    crawl_page E base_url page links wp = (Ok (links', exit), wp') /\
    requests_log wp' = requests_log wp ++ [page_url base_url page] /\
    files wp' = files wp /\ write_log wp' = write_log wp /\ dirs wp' = dirs wp /\
    match http E (requests_log wp) (page_url base_url page) with
    | Raise _ => links' = links /\ exit = Break
    | Ok response =>
        match html_parser E (text response) with
        | Raise _ => links' = links /\ exit = Break
        | Ok soup =>
            match collect_links E base_url (find_all post_anchor soup) links false with
            | (Raise _, (l, _)) => links' = l /\ exit = Break
            | (Ok _, (l, found_new)) =>
                links' = l /\
                exit = if negb found_new || negb (bool_decide (is_Some (find next_anchor soup)))
                       then Break else NextTurn
            end
        end
    end.
Proof.
  unfold crawl_page, try_except. cbv zeta.
  unfold bind at 1. unfold print at 1. cbv beta iota.
  unfold bind at 1. unfold requests_get at 1. cbv beta iota.
  cbn [requests_log].
  destruct (http E (requests_log wp) (page_url base_url page)) as [response|e];
    [|eexists _, _, _; split; [reflexivity|simpl; auto 10]].
  unfold bind at 1. unfold lift at 1.
  destruct (html_parser E (text response)) as [soup|e];
    [|eexists _, _, _; split; [reflexivity|simpl; auto 10]].
  destruct (collect_links E base_url (find_all post_anchor soup) links false)
    as [[[]|e] [l f]];
    [|eexists _, _, _; split; [reflexivity|simpl; auto 10]].
  destruct (negb f || negb (bool_decide (is_Some (find next_anchor soup))));
    eexists _, _, _; (split; [reflexivity|simpl; auto 10]).
Qed.

Variable w : world.

Lemma history_before_S p :
  (1 <= p)%nat ->
  history_before base_url w (S p)
  = history_before base_url w p ++ [page_url base_url (Z.of_nat p)].
Proof.
  intros Hp. unfold history_before. rewrite <- app_assoc. f_equal.
  replace (S p - 1)%nat with (S (p - 1)) by lia.
  rewrite seq_S, map_app. simpl. repeat f_equal. lia.
Qed.

(** A turn that goes on to the next page has met a page that could be
    read, contributed a new URL and announced a next page. *)
Lemma crawl_page_next p links wp links' wp' :
  (1 <= p)%nat ->
  requests_log wp = history_before base_url w p ->
  crawl_page E base_url (Z.of_nat p) links wp = (Ok (links', NextTurn), wp') ->
  requests_log wp' = history_before base_url w (S p) /\
  exists soup,
    listing_page E base_url w p = Ok soup /\
    links' = links ∪ page_urls E base_url soup /\
    ~ page_urls E base_url soup ⊆ links /\
    find next_anchor soup <> None /\
    forall e, ~ In (Raise e) (page_targets E base_url soup).
Proof.
  intros Hp Hlog Hturn.
  destruct (crawl_page_returns (Z.of_nat p) links wp)
    as (l & x & wx & Hrun & Hreq & _ & _ & _ & Hcases).
  rewrite Hturn in Hrun. injection Hrun as <- <- <-.
  split; [rewrite history_before_S, Hreq, Hlog by exact Hp; reflexivity|].
  unfold listing_page. rewrite <- Hlog.
  destruct (http E (requests_log wp) (page_url base_url (Z.of_nat p))) as [response|e];
    [|destruct Hcases as [_ [=]]].
  destruct (html_parser E (text response)) as [soup|e]; [|destruct Hcases as [_ [=]]].
  pose proof (collect_links_spec (find_all post_anchor soup) links false) as Hc.
  cbv zeta in Hc.
  destruct (collect_links E base_url (find_all post_anchor soup) links false)
    as [[[]|e] [l f]]; [|destruct Hcases as [_ [=]]].
  destruct Hcases as [-> Hexit]. destruct Hc as (Hno & -> & Hf).
  exists soup. split; [reflexivity|]. split; [reflexivity|].
  destruct f; simpl in Hexit.
  - case_bool_decide as Hnext; simpl in Hexit; [|discriminate].
    split; [|split].
    + intros Hsub. destruct Hf as [_ Hf]. discriminate Hf. split; [reflexivity|exact Hsub].
    + intros Hn. rewrite Hn in Hnext. destruct Hnext as [? [=]].
    + exact Hno.
  - discriminate.
Qed.

(** More fuel does not change the result of a crawl that has ended. *)
Lemma crawl_fuel_mono fuel page links wp l wp' :
  crawl E fuel base_url page links wp = (Ok (Some l), wp') ->
  forall fuel', (fuel <= fuel')%nat ->
  crawl E fuel' base_url page links wp = (Ok (Some l), wp').
Proof.
  revert page links wp; induction fuel as [|fuel IH]; intros page links wp H fuel' Hle.
  - discriminate.
  - destruct fuel' as [|fuel']; [lia|]. cbn [crawl] in *. unfold bind in *.
    destruct (crawl_page E base_url page links wp) as [[[l0 []]|e] w0]; try exact H.
    apply IH; [exact H|lia].
Qed.

(** The crawl ends at the latest at the first page that stops it. *)
Lemma crawl_stops n d :
  forall p links wp,
    (1 <= p)%nat -> n = (p + d)%nat ->
    requests_log wp = history_before base_url w p ->
    links = accumulated E base_url w (p - 1) ->
    page_stops E base_url w n ->
    exists links' wp',
      crawl E (S d) base_url (Z.of_nat p) links wp = (Ok (Some links'), wp').
Proof.
  induction d as [|d IH]; intros p links wp Hp Hn Hlog Hacc Hstop.
  - cbn [crawl]. unfold bind.
    destruct (crawl_page_returns (Z.of_nat p) links wp)
      as (l & x & wx & Hrun & _). rewrite Hrun.
    destruct x; [eauto|]. exfalso.
    destruct (crawl_page_next p links wp l wx Hp Hlog Hrun)
      as (_ & soup & Hpage & _ & Hnew & Hnext & Hno).
    replace n with p in Hstop by lia. unfold page_stops in Hstop.
    rewrite Hpage in Hstop. destruct Hstop as [[e He]|[Hsub|Hnone]].
    + eapply Hno, He.
    + apply Hnew. rewrite Hacc. exact Hsub.
    + apply Hnext, Hnone.
  - cbn [crawl]. unfold bind at 1.
    destruct (crawl_page_returns (Z.of_nat p) links wp)
      as (l & x & wx & Hrun & _). rewrite Hrun.
    destruct x; [eauto|].
    destruct (crawl_page_next p links wp l wx Hp Hlog Hrun)
      as (Hlog' & soup & Hpage & Hl & _).
    replace (Z.of_nat p + 1) with (Z.of_nat (S p)) by lia.
    apply IH; [lia|lia|exact Hlog'| |exact Hstop].
    replace (S p - 1)%nat with (S (p - 1)) by lia. cbn [accumulated].
    replace (S (p - 1)) with p by lia. rewrite Hpage, Hl, Hacc. reflexivity.
Qed.

End Crawler.

(** The crawl never raises and writes nothing. *)
Lemma crawl_returns E fuel base_url page links w :
  exists o w',
    crawl E fuel base_url page links w = (Ok o, w') /\
    files w' = files w /\ write_log w' = write_log w /\ dirs w' = dirs w.
Proof.
  revert page links w; induction fuel as [|fuel IH]; intros page links w.
  - exists None, w. auto.
  - cbn [crawl]. unfold bind.
    destruct (crawl_page_returns E base_url page links w)
      as (l & x & wx & Hrun & _ & Hf & Hw & Hd & _). rewrite Hrun.
    destruct x.
    + exists (Some l), wx. auto.
    + destruct (IH (page + 1) l wx) as (o & w' & Hc & Hf' & Hw' & Hd').
      exists o, w'. split; [exact Hc|]. rewrite Hf', Hw', Hd'. auto.
Qed.

(** A page fetch failure ends the crawl with the links collected so far. *)
Lemma crawl_fetch_failure E fuel base_url page links w e :
  http E (requests_log w) (page_url base_url page) = Raise e ->
  exists w', crawl E (S fuel) base_url page links w = (Ok (Some links), w').
Proof.
  intros Hfail. cbn [crawl]. unfold bind.
  destruct (crawl_page_returns E base_url page links w)
    as (l & x & wx & Hrun & _ & _ & _ & _ & Hcases). rewrite Hrun.
  rewrite Hfail in Hcases. destruct Hcases as [-> ->]. eauto.
Qed.

(** No candidate for the content region matches. *)
Lemma find_content_None soup :
  Forall (fun sel => find_ref sel soup = None) content_selectors ->
  find_content soup = None.
Proof.
  unfold content_selectors, find_content. intros H.
  apply Forall_cons in H as [H1 H]. apply Forall_cons in H as [H2 H].
  apply Forall_cons in H as [H3 H]. apply Forall_cons in H as [H4 _].
  rewrite H1, H2, H3. simpl. exact H4.
Qed.

(** The failures of one extraction. *)
Lemma scrape_blog_post_fetch_failure E url w e :
  http E (requests_log w) url = Raise e ->
  exists w',
    scrape_blog_post E url w = (Ok None, w') /\
    last (stdout w') = Some (py "Error scraping " ++ url ++ py ": " ++ e).
Proof.
  intros H. unfold scrape_blog_post, try_except.
  unfold bind at 1. unfold print at 1. cbv beta iota.
  unfold bind at 1. unfold requests_get at 1. cbv beta iota. cbn [requests_log].
  rewrite H. eexists. split; [reflexivity|]. simpl. apply last_snoc.
Qed.

Lemma scrape_blog_post_parse_failure E url w response e :
  http E (requests_log w) url = Ok response ->
  html_parser E (text response) = Raise e ->
  exists w',
    scrape_blog_post E url w = (Ok None, w') /\
    last (stdout w') = Some (py "Error scraping " ++ url ++ py ": " ++ e).
Proof.
  intros H Hp. unfold scrape_blog_post, try_except.
  unfold bind at 1. unfold print at 1. cbv beta iota.
  unfold bind at 1. unfold requests_get at 1. cbv beta iota. cbn [requests_log].
  rewrite H. unfold bind at 1. unfold lift at 1. rewrite Hp.
  eexists. split; [reflexivity|]. simpl. apply last_snoc.
Qed.

Lemma scrape_blog_post_no_content E url w response soup :
  http E (requests_log w) url = Ok response ->
  html_parser E (text response) = Ok soup ->
  find_content soup = None ->
  exists w',
    scrape_blog_post E url w = (Ok None, w') /\
    last (stdout w') = Some (py "Could not find content for " ++ url).
Proof.
  intros H Hp Hc. unfold scrape_blog_post, try_except.
  unfold bind at 1. unfold print at 1. cbv beta iota.
  unfold bind at 1. unfold requests_get at 1. cbv beta iota. cbn [requests_log].
  rewrite H. unfold bind at 1. unfold lift at 1. rewrite Hp.
  cbv zeta. unfold bind at 1.
  match goal with
  | |- context [match ?d with Some d' => ret d' | None => datetime_now _ end ?w0] =>
      destruct d as [date|]; unfold ret at 1, datetime_now
  end; rewrite Hc; eexists; (split; [reflexivity|]); simpl; apply last_snoc.
Qed.

(** [main] is the set-up, the crawl, the loop and the report. *)
Lemma main_steps E fuel w :
  exists w0 o wc,
    requests_log w0 = requests_log w /\
    crawl E fuel BASE_URL 1 ∅ w0 = (Ok o, wc) /\
    files wc = files w /\ write_log wc = write_log w /\
    match o with
    | None => main E fuel w = (Ok None, wc)
    | Some links =>
        exists wl,
          requests_log wl = requests_log wc /\
          files wl = files wc /\ write_log wl = write_log wc /\
          main E fuel w
          = match main_loop E (elements links) 0 wl with
            | (Ok count, w2) =>
                (Ok (Some tt),
                 snd (print ([10%N] ++ py "Scraping complete! Scraped " ++ str_of_Z count
                             ++ py " posts.") w2))
            | (Raise e, w2) => (Raise e, w2)
            end
    end.
Proof.
  assert (Hsetup : exists w0,
    requests_log w0 = requests_log w /\ files w0 = files w /\ write_log w0 = write_log w /\
    main E fuel w
    = (let* found := find_all_blog_links E fuel BASE_URL in
       match found with
       | None => ret None
       | Some blog_urls =>
           print (py "Found " ++ str_of_Z (Z.of_nat (size blog_urls)) ++ py " blog posts") ;;
           let* scraped_count := main_loop E (elements blog_urls) 0 in
           print ([10%N] ++ py "Scraping complete! Scraped " ++ str_of_Z scraped_count
                  ++ py " posts.") ;;
           ret (Some tt)
       end) w0).
  { eexists. split; [|split; [|split]]; [| | |
      unfold main;
      unfold bind at 1; unfold print at 1; cbv beta iota;
      unfold bind at 1; unfold mkdir at 1; cbv beta iota;
      unfold bind at 1; unfold mkdir at 1; cbv beta iota;
      unfold bind at 1; unfold print at 1; cbv beta iota;
      cbn [requests_log stdout files write_log dirs clock_reads slept];
      reflexivity]; reflexivity. }
  destruct Hsetup as (w0 & Hr0 & Hf0 & Hw0 & ->).
  unfold find_all_blog_links.
  destruct (crawl_returns E fuel BASE_URL 1 ∅ w0) as (o & wc & Hc & Hf & Hw & _).
  exists w0, o, wc. split; [exact Hr0|]. split; [exact Hc|].
  split; [rewrite Hf; exact Hf0|]. split; [rewrite Hw; exact Hw0|].
  destruct o as [links|]; [|unfold bind at 1; rewrite Hc; reflexivity].
  exists (snd (print (py "Found " ++ str_of_Z (Z.of_nat (size links)) ++ py " blog posts") wc)).
  unfold print at 1. cbn [snd requests_log files write_log].
  split; [reflexivity|]. split; [reflexivity|]. split; [reflexivity|].
  unfold bind at 1. rewrite Hc.
  unfold bind, print, ret. cbn [snd].
  match goal with
  | |- context [main_loop E ?l 0 ?wl] => destruct (main_loop E l 0 wl) as [[count|e] w2]
  end; reflexivity.
Qed.

(** [main], whatever happens: it writes nothing but posts, each under the
    name made of its slug; it raises only when the file of a post cannot be
    written; and when it reaches its end, its last line reports the number
    of files written. *)
Lemma main_spec E fuel w :
  exists r w' saved,
    main E fuel w = (r, w') /\
    write_log w' = write_log w ++ saved /\
    (map_Forall (fun _ f => is_post_file f) (files w) ->
     map_Forall (fun _ f => is_post_file f) (files w')) /\
    (map_Forall (stored_by_slug E) (files w) -> map_Forall (stored_by_slug E) (files w')) /\
    match r with
    | Ok (Some _) => last (stdout w') = Some (report_line (length saved))
    | Ok None => saved = []
    | Raise e => post_file_refused E w' e
    end.
Proof.
  destruct (main_steps E fuel w) as (w0 & o & wc & _ & _ & Hf & Hw & Hmain).
  destruct o as [links|].
  - destruct Hmain as (wl & _ & Hfl & Hwl & ->).
    destruct (main_loop_run E (elements links) 0 wl)
      as (r & w2 & saved & Hl & Hw2 & _ & _ & Hpost & Hby & Hr).
    rewrite Hl. rewrite Hfl, Hf in Hpost, Hby. rewrite Hwl, Hw in Hw2.
    destruct r as [count|e].
    + exists (Ok (Some tt)), (snd (print ([10%N] ++ py "Scraping complete! Scraped "
                                          ++ str_of_Z count ++ py " posts.") w2)), saved.
      unfold print. cbn [snd files write_log stdout].
      split; [reflexivity|]. split; [exact Hw2|]. split; [exact Hpost|]. split; [exact Hby|].
      rewrite last_snoc. destruct Hr as (-> & _). unfold report_line.
      rewrite Z.add_0_l. reflexivity.
    + exists (Raise e), w2, saved.
      split; [reflexivity|]. split; [exact Hw2|]. split; [exact Hpost|]. split; [exact Hby|].
      destruct Hr as (_ & _ & _ & _ & _ & _ & _ & Href). exact Href.
  - exists (Ok None), wc, []. split; [exact Hmain|]. rewrite app_nil_r, Hf.
    split; [exact Hw|]. auto.
Qed.

(** ** The claims about the crawler, the extractor and the orchestrator *)

(** C8: the listing crawler terminates whenever some listing page stops it:
    a page that contributes no URL beyond those of the pages before it, or
    has no next/pagination anchor, or cannot be fetched, parsed or resolved,
    whatever the pages after it are.  From page [n] on, the number of turns
    allowed does not matter.  And a page that cannot be fetched ends the
    crawl with exactly the links collected before it. *)
Theorem find_all_blog_links_terminates (E : externals) (base_url : pystr) :
  (forall (w : world) (n : nat),
     (1 <= n)%nat -> page_stops E base_url w n ->
     exists links w',
       forall fuel, (n <= fuel)%nat ->
         find_all_blog_links E fuel base_url w = (Ok (Some links), w')) /\
  (forall fuel page links (w : world) e,
     http E (requests_log w) (page_url base_url page) = Raise e ->
     exists w', crawl E (S fuel) base_url page links w = (Ok (Some links), w')).
Proof.
  split.
  - intros w n Hn Hstop. unfold find_all_blog_links.
    destruct (crawl_stops E base_url w n (n - 1) 1 ∅ w) as (links & w' & Hc);
      [lia|lia| |reflexivity|exact Hstop|].
    + unfold history_before. simpl. rewrite app_nil_r. reflexivity.
    + exists links, w'. intros fuel Hfuel.
      eapply crawl_fuel_mono; [exact Hc|lia].
  - intros fuel page links w e. apply crawl_fetch_failure.
Qed.

Lemma find_all_blog_links_terminates_witness :
  page_stops Demo.env BASE_URL empty_world 2 /\
  exists links w',
    forall fuel, (2 <= fuel)%nat ->
      find_all_blog_links Demo.env fuel BASE_URL empty_world = (Ok (Some links), w').
Proof.
  assert (H : page_stops Demo.env BASE_URL empty_world 2).
  { unfold page_stops.
    replace (listing_page Demo.env BASE_URL empty_world 2) with (Ok Demo.listing2)
      by (vm_compute; reflexivity).
    right; right. vm_compute. reflexivity. }
  split; [exact H|].
  apply (proj1 (find_all_blog_links_terminates Demo.env BASE_URL) empty_world 2%nat);
    [lia|exact H].
Defined.

(** C2, as the claim states it, fails: the translated fields are not named
    [...Translated]. *)
Lemma post_fields_translated_refuted :
  ~ (forall E url w post w',
       scrape_blog_post E url w = (Ok (Some post), w') -> keys post = translated_fields).
Proof.
  intros H.
  pose (r := scrape_blog_post Demo.env Demo.news_url empty_world).
  pose (post := match fst r with Ok (Some p) => p | _ => [] end).
  assert (Hr : r = (Ok (Some post), snd r)) by (vm_compute; reflexivity).
  apply H in Hr. vm_compute in Hr. discriminate.
Qed.

(** C2 (amended): every post record has exactly the nineteen keys [title],
    [titleTr], [slug], [date], [author], [category], [categoryTr], [tags],
    [tagsTr], [sourceUrl], [canonicalUrl], [excerpt], [excerptTr],
    [content], [contentTr], [readingTime], [heroImage], [images] and
    [published], in this order, and [main] writes no file that is not such
    an object (whose values are scalars and lists of strings). *)
Theorem post_record_fields (E : externals) :
  (forall url w post w',
     scrape_blog_post E url w = (Ok (Some post), w') -> keys post = post_fields) /\
  (forall fuel w r w',
     main E fuel w = (r, w') ->
     map_Forall (fun _ f => is_post_file f) (files w) ->
     map_Forall (fun _ f => is_post_file f) (files w')).
Proof.
  split.
  - intros url w post w' H. apply (scrape_blog_post_keys E url w post w' H).
  - intros fuel w r w' H. destruct (main_spec E fuel w) as (r0 & w0 & saved & H0 & _ & Hf & _).
    rewrite H0 in H. injection H as <- <-. exact Hf.
Qed.

Lemma post_record_fields_witness :
  exists post w',
    scrape_blog_post Demo.env Demo.news_url empty_world = (Ok (Some post), w') /\
    keys post = post_fields.
Proof.
  pose (r := scrape_blog_post Demo.env Demo.news_url empty_world).
  pose (post := match fst r with Ok (Some p) => p | _ => [] end).
  assert (Hr : r = (Ok (Some post), snd r)) by (vm_compute; reflexivity).
  exists post, (snd r). split; [exact Hr|].
  exact (proj1 (post_record_fields Demo.env) Demo.news_url empty_world post (snd r) Hr).
Defined.

(** C3: the slug of a record can be empty.  A title without ASCII letters
    and digits, such as [???], has the empty slug; the page with that
    heading yields a record whose slug is empty, and [main] saves it under
    the name [.json]. *)
Theorem slug_can_be_empty :
  (forall E, generate_slug E (py "???") = []) /\
  (exists post w',
     scrape_blog_post Demo.env Demo.questions_url empty_world = (Ok (Some post), w') /\
     dict_get post (py "title") = Some (VStr (py "???")) /\
     dict_get post (py "slug") = Some (VStr [])) /\
  In (py "wwwroot/content/blog/.json") (write_log (snd (main Demo.env 2 empty_world))).
Proof.
  split; [intros E; vm_compute; reflexivity|]. split.
  - pose (r := scrape_blog_post Demo.env Demo.questions_url empty_world).
    pose (post := match fst r with Ok (Some p) => p | _ => [] end).
    exists post, (snd r). repeat split; vm_compute; reflexivity.
  - vm_compute. tauto.
Qed.

(** C5, as the claim states it, fails: a description taken from a meta tag
    is not truncated. *)
Lemma excerpt_bound_refuted :
  ~ (forall E url w post w' excerpt,
       scrape_blog_post E url w = (Ok (Some post), w') ->
       dict_get post (py "excerpt") = Some (VStr excerpt) ->
       (length excerpt <= 200)%nat).
Proof.
  intros H.
  pose (r := scrape_blog_post Demo.env Demo.news_url empty_world).
  pose (post := match fst r with Ok (Some p) => p | _ => [] end).
  assert (Hr : r = (Ok (Some post), snd r)) by (vm_compute; reflexivity).
  specialize (H _ _ _ _ _ Demo.long_description Hr).
  assert (He : dict_get post (py "excerpt") = Some (VStr Demo.long_description))
    by (vm_compute; reflexivity).
  apply H in He. vm_compute in He. lia.
Qed.

(** The paragraph used is the first one, also when it is empty and a later
    one is not. *)
Lemma excerpt_of_empty_first_paragraph :
  exists post w',
    scrape_blog_post Demo.env Demo.questions_url empty_world = (Ok (Some post), w') /\
    dict_get post (py "excerpt") = Some (VStr []).
Proof.
  pose (r := scrape_blog_post Demo.env Demo.questions_url empty_world).
  pose (post := match fst r with Ok (Some p) => p | _ => [] end).
  exists post, (snd r). split; vm_compute; reflexivity.
Qed.

(** C5 (amended): the excerpt of a record is the [content] attribute of the
    first [og:description] meta tag of the page, or of the first
    [name=description] meta tag when the page has no [og:description] one,
    taken whole, when that attribute is present and not empty; otherwise it
    is the stripped text of the first paragraph of the content region, cut
    to 200 characters, and the empty string when the region has no
    paragraph.  Only in this second case is it at most 200 characters
    long. *)
Theorem excerpt_source (E : externals) (url : pystr) (w : world)
    (post : pydict) (w' : world) :
  scrape_blog_post E url w = (Ok (Some post), w') ->
  exists response soup pos region excerpt,
    http E (requests_log w) url = Ok response /\
    html_parser E (text response) = Ok soup /\
    find_content soup = Some (pos, region) /\
    dict_get post (py "excerpt") = Some (VStr excerpt) /\
    let content_elem := decompose_all unwanted_in_content region in
    let page := update_at (decompose_all unwanted_in_content) soup pos in
    let description :=
      match or_else (find og_description page) (find meta_description page) with
      | Some meta => default [] (get meta (py "content"))
      | None => []
      end in
    (description <> [] -> excerpt = description) /\
    (description = [] ->
     excerpt = match find (has_name (py "p")) content_elem with
               | Some first_p => take 200 (get_text_strip first_p)
               | None => []
               end
     /\ (length excerpt <= 200)%nat).
Proof.
  intros H. apply scrape_blog_post_Some in H
    as (response & soup & pos & region & date & content_html & images
        & Hh & Hp & Hc & _ & _ & ->).
  exists response, soup, pos, region. eexists.
  split; [exact Hh|]. split; [exact Hp|]. split; [exact Hc|].
  split; [reflexivity|]. cbv zeta. unfold extract_excerpt. cbv zeta.
  destruct (match or_else _ _ with Some meta => _ | None => _ end) as [|c d].
  - split; [congruence|]. intros _.
    destruct (find (has_name (py "p")) _) as [first_p|].
    + split; [reflexivity|]. rewrite length_take. lia.
    + split; [reflexivity|]. simpl. lia.
  - split; [reflexivity|discriminate].
Qed.

Lemma excerpt_source_witness :
  exists post w' excerpt,
    scrape_blog_post Demo.env Demo.news_url empty_world = (Ok (Some post), w') /\
    dict_get post (py "excerpt") = Some (VStr excerpt) /\
    length excerpt = 201%nat.
Proof.
  pose (r := scrape_blog_post Demo.env Demo.news_url empty_world).
  pose (post := match fst r with Ok (Some p) => p | _ => [] end).
  assert (Hr : r = (Ok (Some post), snd r)) by (vm_compute; reflexivity).
  destruct (excerpt_source Demo.env Demo.news_url empty_world post (snd r) Hr)
    as (response & soup & pos & region & excerpt & _ & _ & _ & He & _).
  exists post, (snd r), excerpt. split; [exact Hr|]. split; [exact He|].
  assert (He' : dict_get post (py "excerpt") = Some (VStr Demo.long_description))
    by (vm_compute; reflexivity).
  rewrite He' in He. injection He as <-. reflexivity.
Defined.

(** C1: [main] does not download images.  It writes nothing but post
    records; and on the site of [Demo], whose first post shows an image
    that can be downloaded, the saved record keeps the absolute URL of the
    image, the image is never requested, and only JSON files are written. *)
Theorem main_does_not_download :
  (forall E fuel w r w',
     main E fuel w = (r, w') -> files w = ∅ ->
     forall path f, files w' !! path = Some f -> exists d, f = FJson d) /\
  (let w' := snd (main Demo.env 2 empty_world) in
   fst (main Demo.env 2 empty_world) = Ok (Some tt) /\
   (exists post,
      files w' !! py "wwwroot/content/blog/postgresql-sirket-guncellemeleri.json"
      = Some (FJson post) /\
      dict_get post (py "images") = Some (VList [Demo.image_url])) /\
   ~ In Demo.image_url (requests_log w') /\
   Forall (fun p => endswith p (py ".json") = true) (write_log w') /\
   fst (download_image Demo.env Demo.image_url
          (py "postgresql-sirket-guncellemeleri") w')
   = Ok (Some (py "/blog/postgresql-sirket-guncellemeleri/imgpng.png"))).
Proof.
  split.
  - intros E fuel w r w' H Hempty path f Hf.
    destruct (main_spec E fuel w) as (r0 & w0 & saved & H0 & _ & Hall & _).
    rewrite H0 in H. injection H as <- <-.
    assert (Hw : map_Forall (fun _ f => is_post_file f) (files w0)).
    { apply Hall. rewrite Hempty. apply map_Forall_empty. }
    destruct (map_Forall_lookup_1 _ _ _ _ Hw Hf) as (d & -> & _). eauto.
  - cbv zeta. split; [vm_compute; reflexivity|]. split; [|split; [|split]].
    + eexists. split; vm_compute; reflexivity.
    + vm_compute. intuition discriminate.
    + vm_compute. repeat constructor.
    + vm_compute. reflexivity.
Qed.

Lemma main_does_not_download_witness :
  files empty_world = ∅ /\
  forall path f,
    files (snd (main Demo.env 2 empty_world)) !! path = Some f -> exists d, f = FJson d.
Proof.
  split; [reflexivity|].
  apply (proj1 main_does_not_download Demo.env 2%nat empty_world
           (fst (main Demo.env 2 empty_world)) (snd (main Demo.env 2 empty_world)));
    [apply surjective_pairing|reflexivity].
Defined.

(** ** Further properties: the HTML cleaner *)

Section Decompose.

Variable P : node -> bool.

(** What is left after a removal: the descendants that did not satisfy the
    filter, themselves cleaned. *)
Lemma descendants_decompose_all n y :
  In y (descendants (decompose_all P n)) ->
  exists x, In x (descendants n) /\ P x = false /\ y = decompose_all P x.
Proof.
  revert y. induction n as [s|k s|s|nm cl attrs ch IH] using node_ind'; try (intros y []).
  cbn [decompose_all descendants].
  induction IH as [|c r Hc Hr IHr]; intros y Hy; [destruct Hy|].
  destruct (P c) eqn:Hpc.
  - destruct (IHr y Hy) as (x & Hx & Hpx & ->).
    exists x. split; [right; apply in_or_app; right; exact Hx|auto].
  - destruct Hy as [<-|Hy].
    + exists c. split; [left; reflexivity|auto].
    + apply in_app_or in Hy as [Hy|Hy].
      * destruct (Hc y Hy) as (x & Hx & Hpx & ->).
        exists x. split; [right; apply in_or_app; left; exact Hx|auto].
      * destruct (IHr y Hy) as (x & Hx & Hpx & ->).
        exists x. split; [right; apply in_or_app; right; exact Hx|auto].
Qed.

(** Removing nothing changes nothing. *)
Lemma decompose_all_id n :
  (forall x, In x (descendants n) -> P x = false) -> decompose_all P n = n.
Proof.
  induction n as [s|k s|s|nm cl attrs ch IH] using node_ind'; try reflexivity.
  cbn [decompose_all descendants]. intros H. f_equal.
  induction IH as [|c r Hc Hr IHr]; [reflexivity|].
  rewrite (H c) by (left; reflexivity). f_equal.
  - apply Hc. intros x Hx. apply H. right. apply in_or_app. left. exact Hx.
  - apply IHr. intros x Hx. apply H. right. apply in_or_app. right. exact Hx.
Qed.

(** Removing elements without text of a class does not change the text of
    that class. *)
Lemma stripped_strings_decompose_all types n :
  (forall x, P x = true ->
     List.filter (fun s => negb (eqb s [])) (map (strip is_space) (strings_of types x)) = []) ->
  List.filter (fun s => negb (eqb s []))
    (map (strip is_space) (strings_of types (decompose_all P n)))
  = List.filter (fun s => negb (eqb s [])) (map (strip is_space) (strings_of types n)).
Proof.
  intros HP. induction n as [s|k s|s|nm cl attrs ch IH] using node_ind'; try reflexivity.
  cbn [decompose_all strings_of].
  induction IH as [|c r Hc Hr IHr]; [reflexivity|].
  rewrite map_app, List.filter_app. destruct (P c) eqn:Hpc.
  - rewrite IHr, (HP c Hpc). reflexivity.
  - rewrite map_app, List.filter_app, Hc, IHr. reflexivity.
Qed.

End Decompose.

(** The filters of the cleaner look at the name and the classes of an
    element only: a removal below the element does not change them. *)
Lemma select_matches_decompose_all sel P x :
  select_matches sel (decompose_all P x) = select_matches sel x.
Proof. destruct sel, x; reflexivity. Qed.

Lemma has_name_decompose_all nm P x : has_name nm (decompose_all P x) = has_name nm x.
Proof. destruct x; reflexivity. Qed.

Lemma interesting_decompose_all P x :
  interesting_string_types (decompose_all P x) = interesting_string_types x.
Proof. destruct x; reflexivity. Qed.

(** The text of a paragraph is made of ordinary strings. *)
Lemma paragraph_interesting x :
  has_name (py "p") x = true -> interesting_string_types x = None.
Proof.
  destruct x as [s|k s|s|nm cl attrs ch]; try discriminate.
  unfold has_name, eqb. intros H. apply bool_decide_eq_true in H. subst nm. reflexivity.
Qed.

Lemma paragraph_strings x :
  has_name (py "p") x = true -> all_strings x = strings_of None x.
Proof. intros H. unfold all_strings. rewrite (paragraph_interesting x H). reflexivity. Qed.

(** A text that is empty is made of no string. *)
Lemma stripped_strings_empty x : get_text_strip x = [] -> stripped_strings x = [].
Proof.
  unfold get_text_strip. fold (stripped_strings x). unfold stripped_strings.
  destruct (List.filter _ _) as [|s0 t] eqn:Hf; [reflexivity|]. intros H. exfalso.
  assert (Hin : In s0 (s0 :: t)) by (left; reflexivity).
  rewrite <- Hf in Hin. apply List.filter_In in Hin as [_ Hne].
  simpl in H. destruct s0; [|discriminate]. discriminate Hne.
Qed.

(** After the loop over the selectors, no element matches any of them. *)
Lemma fold_selectors_clean sels :
  forall soup done,
    (forall sel x, In sel done -> In x (descendants soup) -> select_matches sel x = false) ->
    forall sel x,
      In sel (done ++ sels) ->
      In x (descendants
              (fold_left (fun soup selector => decompose_all (select_matches selector) soup)
                 sels soup)) ->
      select_matches sel x = false.
Proof.
  induction sels as [|s0 sels IH]; intros soup done Hdone sel x Hsel Hx.
  - rewrite app_nil_r in Hsel. simpl in Hx. eapply Hdone; eassumption.
  - cbn [fold_left] in Hx.
    apply (IH (decompose_all (select_matches s0) soup) (done ++ [s0])) with (sel := sel) in Hx;
      [exact Hx| |rewrite <- app_assoc; exact Hsel].
    intros sel' y Hsel' Hy.
    apply descendants_decompose_all in Hy as (z & Hz & Hpz & ->).
    rewrite select_matches_decompose_all.
    apply in_app_or in Hsel' as [Hsel'|[<-|[]]]; [eapply Hdone; eassumption|exact Hpz].
Qed.

(** X1: what [clean_html_content] returns is the serialization of a
    document in which no element matches a selector of the block list and
    no paragraph is without text. *)
Theorem clean_html_content_removes (E : externals) (html out : pystr) (w w' : world) :
  clean_html_content E html w = (Ok out, w') ->
  exists soup cleaned,
    html_parser E html = Ok soup /\
    out = soup_str E cleaned /\
    (forall sel x,
       In sel unwanted_selectors -> In x (descendants cleaned) ->
       select_matches sel x = false) /\
    (forall x,
       In x (descendants cleaned) -> has_name (py "p") x = true ->
       get_text_strip x <> []).
Proof.
  unfold clean_html_content, bind, lift, ret.
  destruct (html_parser E html) as [soup|e]; [|discriminate].
  intros [= <- _]. eexists soup, _. split; [reflexivity|]. split; [reflexivity|].
  change (fun p : node => has_name (py "p") p && eqb (get_text_strip p) [])
    with empty_paragraph.
  split.
  - intros sel x Hsel Hx.
    apply descendants_decompose_all in Hx as (z & Hz & _ & ->).
    rewrite select_matches_decompose_all.
    apply (fold_selectors_clean unwanted_selectors soup [] ltac:(intros ? ? []) sel z Hsel Hz).
  - intros x Hx Hp.
    apply descendants_decompose_all in Hx as (z & Hz & Hpz & ->).
    rewrite has_name_decompose_all in Hp.
    unfold empty_paragraph in Hpz. rewrite Hp in Hpz. simpl in Hpz.
    unfold eqb in Hpz. apply bool_decide_eq_false in Hpz.
    intros Hempty. apply Hpz. revert Hempty.
    unfold get_text_strip, all_strings.
    rewrite interesting_decompose_all, (paragraph_interesting z Hp).
    rewrite stripped_strings_decompose_all; [trivial|].
    intros y Hy. unfold empty_paragraph in Hy. apply andb_true_iff in Hy as [Hn Hy].
    unfold eqb in Hy. apply bool_decide_eq_true in Hy.
    apply stripped_strings_empty in Hy. unfold stripped_strings in Hy.
    rewrite (paragraph_strings y Hn) in Hy. exact Hy.
Qed.

Lemma clean_html_content_removes_witness :
  exists out w' soup cleaned,
    clean_html_content Demo.env (Demo.to_str (Demo.document [Demo.questions_article]))
      empty_world = (Ok out, w') /\
    html_parser Demo.env (Demo.to_str (Demo.document [Demo.questions_article])) = Ok soup /\
    out = soup_str Demo.env cleaned /\
    (forall x,
       In x (descendants cleaned) -> has_name (py "p") x = true ->
       get_text_strip x <> []).
Proof.
  pose (r := clean_html_content Demo.env
               (Demo.to_str (Demo.document [Demo.questions_article])) empty_world).
  pose (out := match fst r with Ok o => o | Raise _ => [] end).
  assert (Hr : r = (Ok out, snd r)) by (vm_compute; reflexivity).
  destruct (clean_html_content_removes Demo.env _ out empty_world (snd r) Hr)
    as (soup & cleaned & H1 & H2 & _ & H4).
  exists out, (snd r), soup, cleaned. auto.
Defined.

(** X2: on a document in which no element matches a selector of the block
    list and no paragraph is without text, [clean_html_content] changes
    nothing: it returns the serialization of the document as parsed. *)
Theorem clean_html_content_noop (E : externals) (html : pystr) (soup : node) (w : world) :
  html_parser E html = Ok soup ->
  (forall sel x,
     In sel unwanted_selectors -> In x (descendants soup) -> select_matches sel x = false) ->
  (forall x,
     In x (descendants soup) -> has_name (py "p") x = true -> get_text_strip x <> []) ->
  clean_html_content E html w = (Ok (soup_str E soup), w).
Proof.
  intros Hp Hsel Hpar. unfold clean_html_content, bind, lift, ret. rewrite Hp.
  assert (Hfold : fold_left
                    (fun soup selector => decompose_all (select_matches selector) soup)
                    unwanted_selectors soup = soup).
  { assert (Hall : Forall (fun sel => decompose_all (select_matches sel) soup = soup)
                     unwanted_selectors).
    { apply List.Forall_forall. intros sel Hin. apply decompose_all_id.
      intros x Hx. apply Hsel; assumption. }
    clear Hsel. induction Hall as [|sel sels Hs Hr IH]; [reflexivity|].
    cbn [fold_left]. rewrite Hs. exact IH. }
  rewrite Hfold. rewrite decompose_all_id; [reflexivity|].
  intros x Hx. destruct (has_name (py "p") x) eqn:Hn; [|reflexivity]. simpl.
  unfold eqb. apply bool_decide_eq_false. apply Hpar; assumption.
Qed.

Lemma clean_html_content_noop_witness :
  clean_html_content Demo.env (Demo.to_str (Demo.document [Demo.news_article])) empty_world
  = (Ok (soup_str Demo.env (Demo.document [Demo.news_article])), empty_world).
Proof.
  apply clean_html_content_noop.
  - vm_compute. reflexivity.
  - intros sel x Hsel Hx.
    assert (H : forallb (fun sel => forallb (fun x => negb (select_matches sel x))
                                       (descendants (Demo.document [Demo.news_article])))
                  unwanted_selectors = true) by (vm_compute; reflexivity).
    rewrite forallb_forall in H. specialize (H sel Hsel).
    rewrite forallb_forall in H. apply negb_true_iff, H, Hx.
  - intros x Hx Hp.
    assert (H : forallb (fun x => implb (has_name (py "p") x)
                                   (negb (eqb (get_text_strip x) [])))
                  (descendants (Demo.document [Demo.news_article])) = true)
      by (vm_compute; reflexivity).
    rewrite forallb_forall in H. specialize (H x Hx). rewrite Hp in H. simpl in H.
    apply negb_true_iff in H. unfold eqb in H. apply bool_decide_eq_false in H. exact H.
Defined.

(** ** Further properties: the image functions *)

(** The loop of [extract_images]: it appends one entry for every image that
    has a reference. *)
Lemma extract_images_loop E base_url imgs :
  forall images out w w',
    for_each imgs
      (fun img images =>
         match or_opt (get img (py "src")) (get img (py "data-src")) with
         | Some ((_ :: _) as src) =>
             if startswith src (py "//") then ret (images ++ [py "https:" ++ src])
             else if startswith src (py "/") then
               let* src := lift (urljoin E base_url src) in ret (images ++ [src])
             else if negb (startswith src (py "http")) then
               let* src := lift (urljoin E base_url src) in ret (images ++ [src])
             else ret (images ++ [src])
         | _ => ret images
         end) images w = (Ok out, w') ->
    exists new,
      out = images ++ new /\
      Forall2 (resolves_to E base_url) (omap image_src imgs) new.
Proof.
  induction imgs as [|img imgs IH]; intros images out w w'.
  - intros [= <- _]. exists []. rewrite app_nil_r. split; [reflexivity|constructor].
  - cbn [for_each omap list_omap]. intros H. apply bind_Ok in H as (images1 & w1 & Hb & H).
    apply IH in H as (new & -> & Hnew). unfold image_src.
    destruct (or_opt (get img (py "src")) (get img (py "data-src"))) as [[|c src]|].
    + unfold ret in Hb. injection Hb as <- <-. eauto.
    + assert (Hstep : exists entry,
                images1 = images ++ [entry] /\ resolves_to E base_url (c :: src) entry).
      { unfold resolves_to. revert Hb.
        generalize (startswith (c :: src) (py "//")), (startswith (c :: src) (py "/")),
          (startswith (c :: src) (py "http")).
        intros b1 b2 b3. unfold bind, lift, ret.
        destruct b1; [intros [= <- _]; eauto|].
        destruct b2; cbn [orb negb].
        - destruct (urljoin E base_url (c :: src)); [intros [= <- _]; eauto|discriminate].
        - destruct b3; cbn [orb negb].
          + intros [= <- _]; eauto.
          + destruct (urljoin E base_url (c :: src)); [intros [= <- _]; eauto|discriminate]. }
      destruct Hstep as (entry & -> & Hentry).
      exists (entry :: new). rewrite <- app_assoc. split; [reflexivity|].
      constructor; assumption.
    + unfold ret in Hb. injection Hb as <- <-. eauto.
Qed.

(** X3: the list [extract_images] returns has, in document order, one entry
    for every image element that has a non-empty [src] (or, failing that,
    [data-src]).  A reference that starts with [//] gets [https:] in front;
    one that starts with [/], or does not start with [http], is resolved
    against the base URL; any other reference, that is any reference that
    starts with [http], is kept as it is. *)
Theorem extract_images_entries (E : externals) (html base_url : pystr)
    (images : list pystr) (w w' : world) :
  extract_images E html base_url w = (Ok images, w') ->
  exists soup,
    html_parser E html = Ok soup /\
    Forall2 (resolves_to E base_url)
      (omap image_src (find_all (has_name (py "img")) soup)) images.
Proof.
  unfold extract_images. intros H. apply bind_Ok in H as (soup & w1 & Hp & H).
  unfold lift in Hp. injection Hp as Hp <-.
  apply extract_images_loop in H as (new & -> & Hnew).
  exists soup. split; [exact Hp|exact Hnew].
Qed.

Lemma extract_images_entries_witness :
  exists images w' soup,
    extract_images Demo.env (Demo.to_str (Demo.document [Demo.news_article]))
      Demo.news_url empty_world = (Ok images, w') /\
    html_parser Demo.env (Demo.to_str (Demo.document [Demo.news_article])) = Ok soup /\
    Forall2 (resolves_to Demo.env Demo.news_url)
      (omap image_src (find_all (has_name (py "img")) soup)) images.
Proof.
  pose (r := extract_images Demo.env (Demo.to_str (Demo.document [Demo.news_article]))
               Demo.news_url empty_world).
  pose (images := match fst r with Ok l => l | Raise _ => [] end).
  assert (Hr : r = (Ok images, snd r)) by (vm_compute; reflexivity).
  destruct (extract_images_entries Demo.env _ _ images empty_world (snd r) Hr)
    as (soup & H1 & H2).
  exists images, (snd r), soup. auto.
Defined.

(** X4: [download_image] never raises.  When the request fails, or the URL
    cannot be parsed, it returns [None], prints one line that names the
    URL and the error, and creates no directory and writes no file. *)
Theorem download_image_failure (E : externals) (img_url slug : pystr) (w : world) :
  (exists o w', download_image E img_url slug w = (Ok o, w')) /\
  (forall e,
     http E (requests_log w) img_url = Raise e
     \/ (exists response, http E (requests_log w) img_url = Ok response
                          /\ urlparse_path E img_url = Raise e) ->
     exists w',
       download_image E img_url slug w = (Ok None, w') /\
       stdout w' = stdout w ++ [py "Error downloading image " ++ img_url ++ py ": " ++ e] /\
       files w' = files w /\ write_log w' = write_log w /\ dirs w' = dirs w).
Proof.
  unfold download_image, try_except, bind, requests_get, lift, mkdir, write_file, ret, print.
  split.
  - destruct (http E (requests_log w) img_url) as [response|e]; [|eauto].
    destruct (urlparse_path E img_url) as [parsed_path|e]; [|eauto].
    destruct (file_write E _ _ _) as [[]|e]; eauto.
  - intros e [H|(response & H & Hu)]; rewrite H; [|rewrite Hu];
      eexists; (split; [reflexivity|]); simpl; auto.
Qed.

Lemma download_image_failure_witness :
  http Demo.env (requests_log empty_world) Demo.gone_url
    = Raise (py "404 Client Error: Not Found for url: " ++ Demo.gone_url) /\
  exists w',
    download_image Demo.env Demo.gone_url (py "my-post") empty_world = (Ok None, w') /\
    files w' = files empty_world /\ dirs w' = dirs empty_world.
Proof.
  assert (H : http Demo.env (requests_log empty_world) Demo.gone_url
              = Raise (py "404 Client Error: Not Found for url: " ++ Demo.gone_url))
    by (vm_compute; reflexivity).
  split; [exact H|].
  destruct (proj2 (download_image_failure Demo.env Demo.gone_url (py "my-post") empty_world)
              _ (or_introl H)) as (w' & H1 & _ & H2 & _ & H3).
  exists w'. auto.
Defined.

(** *** Paths *)

Lemma split_on_none (P : char -> bool) s :
  forallb (fun c => negb (P c)) s = true -> split_on P s = [s].
Proof.
  induction s as [|c r IH]; [reflexivity|]. cbn [forallb split_on].
  intros H. apply andb_true_iff in H as [Hc Hr].
  destruct (P c); [discriminate|]. rewrite (IH Hr). reflexivity.
Qed.

Lemma split_on_app (P : char -> bool) a c b :
  P c = true -> split_on P (a ++ c :: b) = split_on P a ++ split_on P b.
Proof.
  intros Hc. induction a as [|x a IH]; cbn [app split_on].
  - rewrite Hc. reflexivity.
  - destruct (P x); [rewrite IH; reflexivity|].
    rewrite IH. destruct (split_on_cons_inv P a) as (y & l & ->). reflexivity.
Qed.

Lemma join_snoc sep l x : l <> [] -> join sep (l ++ [x]) = join sep l ++ sep ++ x.
Proof.
  induction l as [|y l IH]; [congruence|]. intros _.
  destruct l as [|z l].
  - cbn [app join]. rewrite !app_nil_r. reflexivity.
  - specialize (IH ltac:(discriminate)).
    change (join sep ((y :: z :: l) ++ [x])) with (y ++ sep ++ join sep ((z :: l) ++ [x])).
    change (join sep (y :: z :: l)) with (y ++ sep ++ join sep (z :: l)).
    rewrite IH, <- !app_assoc. reflexivity.
Qed.

Lemma lstrip_all (P : char -> bool) d :
  lstrip P d = [] -> forallb P d = true.
Proof.
  induction d as [|c r IH]; [reflexivity|]. cbn [lstrip forallb].
  destruct (P c); [exact IH|discriminate].
Qed.

Lemma parts_of_slashes d : forallb is_slash d = true -> parts_of d = [].
Proof.
  unfold parts_of. induction d as [|c r IH]; [reflexivity|]. cbn [forallb split_on].
  intros H. apply andb_true_iff in H as [Hc Hr]. rewrite Hc. cbn [List.filter].
  change (negb (eqb [] []) && negb (eqb [] [dot])) with false. cbv iota. exact (IH Hr).
Qed.

Lemma lstrip_app (P : char -> bool) d t :
  lstrip P d <> [] -> lstrip P (d ++ t) = lstrip P d ++ t.
Proof.
  induction d as [|c r IH]; [intros H; exfalso; apply H; reflexivity|]. cbn [lstrip app].
  destruct (P c); [exact IH|reflexivity].
Qed.

Lemma lstrip_length (P : char -> bool) d : (length (lstrip P d) <= length d)%nat.
Proof.
  induction d as [|c r IH]; [reflexivity|]. cbn [lstrip]. destruct (P c); cbn [length]; lia.
Qed.

Lemma root_of_app d t : parts_of d <> [] -> root_of (d ++ t) = root_of d.
Proof.
  intros Hparts.
  assert (Hl : lstrip is_slash d <> []).
  { intros H. apply Hparts, parts_of_slashes, lstrip_all, H. }
  destruct d as [|c r]; [contradiction|].
  unfold root_of. cbn [app]. destruct (is_slash c); [|reflexivity].
  change (c :: r ++ t) with ((c :: r) ++ t). rewrite (lstrip_app _ _ t Hl), !length_app.
  pose proof (lstrip_length is_slash (c :: r)).
  replace (length (c :: r) + length t - (length (lstrip is_slash (c :: r)) + length t))%nat
    with (length (c :: r) - length (lstrip is_slash (c :: r)))%nat by lia.
  reflexivity.
Qed.

Lemma is_segment_spec name :
  is_segment name = true ->
  name <> [] /\ root_of name = [] /\ parts_of name = [name].
Proof.
  unfold is_segment. intros H.
  apply andb_true_iff in H as [H Hs]. apply andb_true_iff in H as [Hne Hdot].
  split; [intros ->; discriminate|]. split.
  - destruct name as [|c r]; [reflexivity|]. cbn [forallb] in Hs.
    apply andb_true_iff in Hs as [Hc _]. unfold root_of. destruct (is_slash c); [discriminate|reflexivity].
  - unfold parts_of. rewrite (split_on_none _ _ Hs). cbn [List.filter]. rewrite Hne, Hdot. reflexivity.
Qed.

Lemma is_plain_path_spec d :
  is_plain_path d = true -> d = root_of d ++ join [slash] (parts_of d) /\ parts_of d <> [].
Proof.
  unfold is_plain_path. intros H. apply andb_true_iff in H as [H1 H2].
  unfold eqb in H1. apply bool_decide_eq_true in H1. split; [exact H1|].
  destruct (parts_of d); [discriminate|discriminate].
Qed.

Lemma parts_of_child d name :
  parts_of (d ++ [slash] ++ name) = parts_of d ++ parts_of name.
Proof.
  unfold parts_of. cbn [app]. rewrite split_on_app by reflexivity. apply List.filter_app.
Qed.

(** Joining a component to a path appends it after a slash. *)
Lemma path_join_segment d name :
  is_plain_path d = true -> is_segment name = true ->
  path_join d name = d ++ [slash] ++ name /\ is_plain_path (d ++ [slash] ++ name) = true.
Proof.
  intros Hd Hn. apply is_plain_path_spec in Hd as [Hd Hparts].
  apply is_segment_spec in Hn as (Hne & Hroot & Hname).
  assert (Hstr : root_of d ++ join [slash] (parts_of d ++ [name]) = d ++ [slash] ++ name).
  { rewrite (join_snoc _ _ _ Hparts), app_assoc, <- Hd. reflexivity. }
  split.
  - unfold path_join, joinpath, format_path. rewrite Hroot, Hname, Hstr.
    destruct d; reflexivity.
  - unfold is_plain_path. rewrite parts_of_child, Hname, (root_of_app _ _ Hparts), Hstr.
    unfold eqb. rewrite bool_decide_eq_true_2 by reflexivity.
    destruct (parts_of d); [contradiction|reflexivity].
Qed.

(** Joining an absolute path forgets the directory. *)
Lemma path_join_absolute d d' name :
  startswith name [slash] = true -> path_join d name = path_join d' name.
Proof.
  intros H. unfold path_join, joinpath.
  destruct name as [|c r]; [discriminate|]. cbn [startswith] in H.
  apply andb_true_iff in H as [H _]. apply N.eqb_eq in H. subst c.
  unfold root_of. change (is_slash slash) with true. cbv iota.
  destruct (_ =? 2)%nat; reflexivity.
Qed.

(** [rfind] returns the last index. *)
Lemma rfind_from_ge c i last s : last < i -> last <= rfind_from c i last s.
Proof.
  revert i last; induction s as [|x r IH]; intros i last Hlt; simpl; [lia|].
  destruct (x =? c)%N.
  - specialize (IH (i + 1) i). lia.
  - specialize (IH (i + 1) last). lia.
Qed.

Lemma rfind_from_last c i last s n :
  last < i -> nth_error s n = Some c -> i + Z.of_nat n <= rfind_from c i last s.
Proof.
  revert i last n; induction s as [|x r IH]; intros i last [|n] Hlt; simpl; try discriminate.
  - intros [= ->]. rewrite N.eqb_refl.
    pose proof (rfind_from_ge c (i + 1) i r). lia.
  - intros Hn. destruct (x =? c)%N.
    + specialize (IH (i + 1) i n ltac:(lia) Hn). lia.
    + specialize (IH (i + 1) last n ltac:(lia) Hn). lia.
Qed.

Lemma nth_error_drop_plus {A} (l : list A) k n :
  nth_error (drop k l) n = nth_error l (k + n).
Proof.
  revert k; induction l as [|a l IH]; intros [|k]; simpl; try reflexivity.
  - destruct n; reflexivity.
  - apply IH.
Qed.

(** The extension [splitext] returns contains no slash. *)
Lemma splitext_ext_no_slash p :
  forallb (fun c => negb (is_slash c)) (snd (splitext p)) = true.
Proof.
  unfold splitext.
  destruct ((rfind p slash <? rfind p dot) && _) eqn:Hc; simpl; [|reflexivity].
  apply andb_true_iff in Hc as [Hlt _]. apply Z.ltb_lt in Hlt.
  apply forallb_forall. intros c Hin. unfold slice_from in Hin.
  destruct (N.eqb_spec c slash) as [->|Hne];
    [|unfold is_slash; apply negb_true_iff, N.eqb_neq; exact Hne].
  exfalso. apply In_nth_error in Hin as [n Hn].
  rewrite nth_error_drop_plus in Hn.
  pose proof (rfind_from_last slash 0 (-1) p _ ltac:(lia) Hn) as Hle.
  unfold rfind in Hlt, Hle. lia.
Qed.

(** The name under which an image is stored is one component of a path. *)
Lemma image_filename_segment E parsed_path :
  forallb is_ascii (basename parsed_path) = true ->
  let ext := or_str (snd (splitext parsed_path)) (py ".jpg") in
  let stem := or_str (sanitize_filename E (basename parsed_path)) (py "image") in
  is_segment (if negb (endswith stem ext) then stem ++ ext else stem) = true.
Proof.
  intros Hx ext stem.
  assert (Hstem : Forall (fun c => name_char c = true) stem /\ stem <> []).
  { subst stem. destruct (sanitize_filename_chars E (basename parsed_path) Hx) as [Hc _].
    destruct (sanitize_filename E (basename parsed_path)) as [|c t];
      [split; [vm_compute; repeat constructor|discriminate]|split; [exact Hc|discriminate]]. }
  destruct Hstem as [Hchars Hne].
  assert (Hext : forallb (fun c => negb (is_slash c)) ext = true).
  { subst ext. pose proof (splitext_ext_no_slash parsed_path) as H.
    destruct (snd (splitext parsed_path)); [reflexivity|exact H]. }
  assert (Hns : forallb (fun c => negb (is_slash c)) stem = true).
  { apply forallb_forall. intros c Hc. rewrite List.Forall_forall in Hchars.
    specialize (Hchars c Hc). unfold is_slash.
    destruct (N.eqb_spec c slash) as [->|]; [discriminate Hchars|reflexivity]. }
  clearbody stem ext.
  assert (Hseg : forall t, forallb (fun c => negb (is_slash c)) t = true ->
                           is_segment (stem ++ t) = true).
  { intros t Ht. destruct stem as [|c r]; [contradiction|].
    apply List.Forall_cons_iff in Hchars as [Hc _].
    unfold is_segment. unfold char, pystr in *. rewrite forallb_app, Hns, Ht.
    assert (Hd : c <> dot) by (intros ->; discriminate Hc).
    unfold eqb. rewrite !bool_decide_eq_false_2; [reflexivity| |discriminate].
    cbn [app]. intros [= ? _]. contradiction. }
  destruct (negb (endswith stem ext)); [apply Hseg, Hext|].
  rewrite <- (app_nil_r stem). apply Hseg. reflexivity.
Qed.

(** X5: when [download_image] succeeds, the bytes of the response are in the
    file [post_images_dir / <filename>], where [post_images_dir] is
    [IMAGES_DIR / <slug>] and [<filename>] is the very file name of the path
    it returns; that directory has been created; one request was made, one
    file written and nothing printed.  When [IMAGES_DIR] is a path with a
    last component, the slug is one component and the base name of the URL
    path is ASCII, the file is [IMAGES_DIR/<slug>/<filename>] as a string.
    But a slug that starts with a slash replaces [IMAGES_DIR]: the
    directory is then the same for every [IMAGES_DIR]. *)
Theorem download_image_stores (E : externals) (img_url slug p : pystr) (w w' : world) :
  download_image E img_url slug w = (Ok (Some p), w') ->
  exists response parsed_path filename,
    http E (requests_log w) img_url = Ok response /\
    urlparse_path E img_url = Ok parsed_path /\
    p = py "/blog/" ++ slug ++ py "/" ++ filename /\
    let post_images_dir := path_join (IMAGES_DIR E) slug in
    let local_path := path_join post_images_dir filename in
    files w' !! local_path = Some (FBytes (content response)) /\
    post_images_dir ∈ dirs w' /\
    write_log w' = write_log w ++ [local_path] /\
    requests_log w' = requests_log w ++ [img_url] /\
    stdout w' = stdout w /\
    (is_plain_path (IMAGES_DIR E) = true -> is_segment slug = true ->
     forallb is_ascii (basename parsed_path) = true ->
     local_path = IMAGES_DIR E ++ py "/" ++ slug ++ py "/" ++ filename) /\
    (startswith slug (py "/") = true -> forall d, post_images_dir = path_join d slug).
Proof.
  unfold download_image, try_except, bind, requests_get, lift, mkdir, write_file, ret, print.
  destruct (http E (requests_log w) img_url) as [response|e]; [|intros [=]].
  destruct (urlparse_path E img_url) as [parsed_path|e]; [|intros [=]].
  destruct (file_write E _ _ _) as [[]|e]; [|intros [=]].
  intros [= <- <-]. eexists response, parsed_path, _.
  split; [reflexivity|]. split; [reflexivity|]. split; [reflexivity|].
  cbv zeta. cbn [files dirs write_log requests_log stdout].
  split; [apply lookup_insert_eq|]. split; [set_solver|].
  split; [reflexivity|]. split; [reflexivity|]. split; [reflexivity|]. split.
  - intros Hdir Hslug Hascii. change (py "/") with [slash].
    destruct (path_join_segment _ _ Hdir Hslug) as [-> Hplain].
    pose proof (image_filename_segment E parsed_path Hascii) as Hfile. cbv zeta in Hfile.
    destruct (path_join_segment _ _ Hplain Hfile) as [Heq _].
    etransitivity; [exact Heq|]. rewrite <- !app_assoc. reflexivity.
  - intros Habs d. apply path_join_absolute. exact Habs.
Qed.

Lemma download_image_stores_witness :
  exists w' response filename,
    download_image Demo.env Demo.image_url (py "my-post") empty_world
    = (Ok (Some (py "/blog/my-post/imgpng.png")), w') /\
    py "/blog/my-post/imgpng.png" = py "/blog/" ++ py "my-post" ++ py "/" ++ filename /\
    files w' !! (IMAGES_DIR Demo.env ++ py "/" ++ py "my-post" ++ py "/" ++ filename)
      = Some (FBytes (content response)).
Proof.
  pose (r := download_image Demo.env Demo.image_url (py "my-post") empty_world).
  assert (H : r = (Ok (Some (py "/blog/my-post/imgpng.png")), snd r))
    by (vm_compute; reflexivity).
  destruct (download_image_stores Demo.env Demo.image_url (py "my-post") _ empty_world
              (snd r) H) as (response & parsed_path & filename & _ & Hp & H2 & H3 & _ & _ & _ & _ & H4 & _).
  exists (snd r), response, filename. split; [exact H|]. split; [exact H2|].
  cbv zeta in H3, H4. rewrite <- H4; [exact H3|reflexivity|reflexivity|].
  assert (Hp' : urlparse_path Demo.env Demo.image_url = Ok (py "/img.png"))
    by (vm_compute; reflexivity).
  rewrite Hp' in Hp. injection Hp as <-. reflexivity.
Defined.

(** ** Further properties: the fields of a record *)

Lemma existsb_eqb t (l : list pystr) : existsb (eqb t) l = true <-> In t l.
Proof.
  rewrite existsb_exists. split.
  - intros (x & Hx & He). unfold eqb in He. apply bool_decide_eq_true in He. subst. exact Hx.
  - intros H. exists t. split; [exact H|]. unfold eqb. apply bool_decide_eq_true. reflexivity.
Qed.

(** The loop over the tag elements, for a body [f] that appends the text
    of an element when it is not empty and not yet in the list. *)
Lemma tags_loop (f : list pystr -> node -> list pystr) (elems : list node) :
  (forall tags e,
     f tags e = if negb (eqb (get_text_strip e) [])
                   && negb (existsb (eqb (get_text_strip e)) tags)
                then tags ++ [get_text_strip e] else tags) ->
  forall tags,
    NoDup tags -> ~ In [] tags ->
    NoDup (fold_left f elems tags) /\ ~ In [] (fold_left f elems tags) /\
    (forall t, In t (fold_left f elems tags) <->
               In t tags \/ (t <> [] /\ exists e, In e elems /\ get_text_strip e = t)).
Proof.
  intros Hf. induction elems as [|e elems IH]; intros tags Hnd Hne.
  - simpl. split; [exact Hnd|]. split; [exact Hne|].
    intros t. split; [auto|]. intros [H|(_ & x & [] & _)]. exact H.
  - cbn [fold_left]. rewrite Hf.
    destruct (negb (eqb (get_text_strip e) []) && negb (existsb (eqb (get_text_strip e)) tags))
      eqn:Hc.
    + apply andb_true_iff in Hc as [Hc1 Hc2].
      apply negb_true_iff in Hc1, Hc2. unfold eqb in Hc1.
      apply bool_decide_eq_false in Hc1.
      assert (Hnin : ~ In (get_text_strip e) tags).
      { intros Hin. apply existsb_eqb in Hin. congruence. }
      destruct (IH (tags ++ [get_text_strip e])) as (H1 & H2 & H4).
      * apply NoDup_app. split; [exact Hnd|]. split; [|apply NoDup_singleton].
        intros x Hx Hx'. apply list_elem_of_In in Hx.
        apply list_elem_of_In in Hx'. destruct Hx' as [<-|[]]. contradiction.
      * intros Hin. apply in_app_or in Hin as [Hin|[Hin|[]]]; [contradiction|].
        apply Hc1. exact Hin.
      * split; [exact H1|]. split; [exact H2|].
        intros t. rewrite H4. split.
        -- intros [Hin|(Ht & x & Hx & Hxt)].
           ++ apply in_app_or in Hin as [Hin|[<-|[]]]; [left; exact Hin|].
              right. split; [exact Hc1|]. exists e. split; [left; reflexivity|reflexivity].
           ++ right. split; [exact Ht|]. exists x. split; [right; exact Hx|exact Hxt].
        -- intros [Hin|(Ht & x & [<-|Hx] & Hxt)].
           ++ left. apply in_or_app. left. exact Hin.
           ++ left. apply in_or_app. right. left. exact Hxt.
           ++ right. split; [exact Ht|]. exists x. split; [exact Hx|exact Hxt].
    + destruct (IH tags Hnd Hne) as (H1 & H2 & H4).
      split; [exact H1|]. split; [exact H2|]. intros t. rewrite H4. split.
      * intros [Hin|(Ht & x & Hx & Hxt)]; [left; exact Hin|].
        right. split; [exact Ht|]. exists x. split; [right; exact Hx|exact Hxt].
      * intros [Hin|(Ht & x & [<-|Hx] & Hxt)]; [left; exact Hin| |].
        -- apply andb_false_iff in Hc as [Hc|Hc]; apply negb_false_iff in Hc.
           ++ unfold eqb in Hc. apply bool_decide_eq_true in Hc. congruence.
           ++ apply existsb_eqb in Hc. left. rewrite <- Hxt. exact Hc.
        -- right. split; [exact Ht|]. exists x. split; [exact Hx|exact Hxt].
Qed.

(** X6: the tags of a page are the non-empty stripped texts of the elements
    whose class matches [tag|keyword], each of them once. *)
Theorem extract_tags_distinct (soup : node) :
  NoDup (extract_tags soup) /\
  ~ In [] (extract_tags soup) /\
  (forall t,
     In t (extract_tags soup) <->
     t <> [] /\
     exists e, In e (find_all (class_ [py "tag"; py "keyword"]) soup)
               /\ get_text_strip e = t).
Proof.
  unfold extract_tags. cbv zeta.
  match goal with
  | |- context [fold_left ?f ?l []] =>
      destruct (tags_loop f l (fun _ _ => eq_refl) [] (NoDup_nil_2) (fun H => H))
        as (H1 & H2 & H4)
  end.
  split; [exact H1|]. split; [exact H2|].
  intros t. rewrite H4. split; [intros [[]|H]; exact H|auto].
Qed.

(** The keys of the category table. *)
Lemma category_key c v :
  assoc c CATEGORY_MAP = Some v -> c = py "PostgreSQL" \/ c = py "Company Updates".
Proof.
  unfold CATEGORY_MAP. cbn [assoc]. unfold eqb.
  case_bool_decide as H1; [auto|]. case_bool_decide as H2; [auto|]. discriminate.
Qed.

Lemma extract_category_key soup :
  extract_category soup = py "PostgreSQL" \/ extract_category soup = py "Company Updates".
Proof.
  unfold extract_category.
  destruct (find _ soup) as [e|]; [|left; reflexivity]. cbv zeta.
  destruct (assoc (get_text_strip e) CATEGORY_MAP) eqn:H; [|left; reflexivity].
  symmetry in H. destruct (category_key _ _ (eq_sym H)) as [Hc|Hc]; rewrite Hc; auto.
Qed.

(** X7: the category of a record is a key of the category table, and
    [categoryTr] is the Turkish name the table gives for it: the record says
    [PostgreSQL] and [PostgreSQL], or [Company Updates] and
    [Şirket Güncellemeleri]. *)
Theorem record_category (E : externals) (url : pystr) (w : world)
    (post : pydict) (w' : world) :
  scrape_blog_post E url w = (Ok (Some post), w') ->
  (dict_get post (py "category") = Some (VStr (py "PostgreSQL"))
   /\ dict_get post (py "categoryTr") = Some (VStr (py "PostgreSQL")))
  \/ (dict_get post (py "category") = Some (VStr (py "Company Updates"))
      /\ dict_get post (py "categoryTr") = Some (VStr (py "Şirket Güncellemeleri"))).
Proof.
  intros H. apply scrape_blog_post_Some in H
    as (response & soup & pos & region & date & content_html & images
        & _ & _ & _ & _ & _ & ->).
  destruct (extract_category_key soup) as [Hc|Hc]; [left|right]; rewrite Hc;
    split; vm_compute; reflexivity.
Qed.

Lemma record_category_witness :
  exists post w',
    scrape_blog_post Demo.env Demo.news_url empty_world = (Ok (Some post), w') /\
    dict_get post (py "category") = Some (VStr (py "PostgreSQL")).
Proof.
  pose (r := scrape_blog_post Demo.env Demo.news_url empty_world).
  pose (post := match fst r with Ok (Some p) => p | _ => [] end).
  assert (Hr : r = (Ok (Some post), snd r)) by (vm_compute; reflexivity).
  exists post, (snd r). split; [exact Hr|].
  destruct (record_category Demo.env Demo.news_url empty_world post (snd r) Hr)
    as [[H _]|[H _]]; [exact H|].
  exfalso. vm_compute in H. discriminate.
Defined.

(** X8: in every record the translated fields repeat the source fields
    ([titleTr], [tagsTr], [excerptTr], [contentTr]), both URL fields are the
    URL that was scraped, the slug is the slug of the title, the reading
    time is at least one minute, there is no hero image and the record is
    published. *)
Theorem record_invariants (E : externals) (url : pystr) (w : world)
    (post : pydict) (w' : world) :
  scrape_blog_post E url w = (Ok (Some post), w') ->
  exists title tags excerpt content_html minutes,
    dict_get post (py "title") = Some (VStr title) /\
    dict_get post (py "titleTr") = Some (VStr title) /\
    dict_get post (py "slug") = Some (VStr (generate_slug E title)) /\
    dict_get post (py "tags") = Some (VList tags) /\
    dict_get post (py "tagsTr") = Some (VList tags) /\
    dict_get post (py "excerpt") = Some (VStr excerpt) /\
    dict_get post (py "excerptTr") = Some (VStr excerpt) /\
    dict_get post (py "content") = Some (VStr content_html) /\
    dict_get post (py "contentTr") = Some (VStr content_html) /\
    dict_get post (py "sourceUrl") = Some (VStr url) /\
    dict_get post (py "canonicalUrl") = Some (VStr url) /\
    dict_get post (py "readingTime") = Some (VInt minutes) /\ 1 <= minutes /\
    dict_get post (py "heroImage") = Some VNone /\
    dict_get post (py "published") = Some (VBool true).
Proof.
  intros H. apply scrape_blog_post_Some in H
    as (response & soup & pos & region & date & content_html & images
        & _ & _ & _ & _ & _ & ->).
  eexists _, _, _, _, _. repeat split; try reflexivity.
  unfold calculate_reading_time. lia.
Qed.

Lemma record_invariants_witness :
  exists post w' title,
    scrape_blog_post Demo.env Demo.news_url empty_world = (Ok (Some post), w') /\
    dict_get post (py "title") = Some (VStr title) /\
    dict_get post (py "titleTr") = Some (VStr title).
Proof.
  pose (r := scrape_blog_post Demo.env Demo.news_url empty_world).
  pose (post := match fst r with Ok (Some p) => p | _ => [] end).
  assert (Hr : r = (Ok (Some post), snd r)) by (vm_compute; reflexivity).
  destruct (record_invariants Demo.env Demo.news_url empty_world post (snd r) Hr)
    as (title & tags & excerpt & content_html & minutes & H1 & H2 & _).
  exists post, (snd r), title. auto.
Defined.

(** ** Further properties: slugs and file names *)

Lemma no_run_ext (P P' : char -> bool) prev s :
  Forall (fun c => P c = P' c) s -> no_run P prev s = no_run P' prev s.
Proof.
  intros H; revert prev; induction H as [|c r Hc Hr IH]; intros prev; simpl; [reflexivity|].
  rewrite Hc. destruct (P' c); rewrite IH; reflexivity.
Qed.

(** Without two neighbours in the class there is no substring of two. *)
Lemma no_run_contains prev s :
  no_run is_hyphen prev s = true -> contains s (py "--") = false.
Proof.
  change (py "--") with [hyphen; hyphen].
  revert prev; induction s as [|c r IH]; intros prev H; [reflexivity|].
  cbn [contains startswith]. cbn [no_run] in H.
  destruct (is_hyphen c) eqn:Hc.
  - apply andb_true_iff in H as [_ H]. rewrite (IH true H), orb_false_r.
    destruct r as [|d r']; [rewrite andb_false_r; reflexivity|].
    cbn [no_run] in H. destruct (is_hyphen d) eqn:Hd; [discriminate|].
    unfold is_hyphen in Hd. rewrite N.eqb_sym in Hd. cbn [startswith]. rewrite Hd.
    rewrite andb_false_r. reflexivity.
  - rewrite (IH false H), orb_false_r. unfold is_hyphen in Hc.
    rewrite N.eqb_sym in Hc. rewrite Hc. reflexivity.
Qed.

Lemma name_char_facts E c :
  name_char c = true ->
  is_ascii c = true /\ is_upper_AZ c = false /\ not_word_space_hyphen E c = false
  /\ hyphen_or_space c = is_hyphen c.
Proof.
  intros H.
  assert (Ha : is_ascii c = true) by (unfold name_char in H; char_arith).
  pose proof (ascii_forall
                (fun c => implb (name_char c)
                            (negb (is_upper_AZ c) && negb (not_word_space_hyphen E c)
                             && Bool.eqb (hyphen_or_space c) (is_hyphen c)))
                ltac:(vm_compute; reflexivity) c Ha) as Hall.
  cbv beta in Hall. rewrite H in Hall. simpl in Hall.
  apply andb_true_iff in Hall as [Hall H3]. apply andb_true_iff in Hall as [H1 H2].
  apply negb_true_iff in H1, H2. apply Bool.eqb_prop in H3. auto.
Qed.

(** A name of the shape [sanitize_filename] produces is left as it is. *)
Lemma sanitize_filename_fix E z :
  Forall (fun c => name_char c = true) z ->
  no_run is_hyphen false z = true ->
  strip is_hyphen z = z ->
  sanitize_filename E z = z.
Proof.
  intros Hc Hn Hs. unfold sanitize_filename.
  rewrite sub_delete_fix.
  2:{ eapply Forall_impl; [exact Hc|]. intros c H. apply (name_char_facts E c H). }
  unfold sub_runs. change (py "-") with [hyphen]. rewrite sub_runs_from_fix.
  - rewrite lower_ascii.
    + replace (map ascii_lower_char z) with z; [exact Hs|].
      clear Hn Hs. induction Hc as [|c r Hc Hr IH]; [reflexivity|]. simpl.
      unfold ascii_lower_char at 1.
      destruct (name_char_facts E c Hc) as (_ & -> & _). f_equal. exact IH.
    + apply forallb_forall. intros c Hin. eapply List.Forall_forall in Hc; [|exact Hin].
      apply (name_char_facts E c Hc).
  - rewrite <- Hn. apply no_run_ext. eapply Forall_impl; [exact Hc|].
    intros c H. apply (name_char_facts E c H).
  - eapply Forall_impl; [exact Hc|]. intros c H Hp. simpl in *.
    destruct (name_char_facts E c H) as (_ & _ & _ & Heq). rewrite Heq in Hp.
    apply N.eqb_eq, Hp.
Qed.

Lemma slug_char_name_char c : slug_char c = true -> name_char c = true.
Proof.
  unfold slug_char, name_char. intros H.
  destruct (is_lower_az c), (is_digit_09 c), (is_hyphen c); simpl in *;
    rewrite ?orb_true_r; try reflexivity; discriminate.
Qed.

(** X9: a slug is a sanitized file name already: [sanitize_filename] leaves
    every result of [generate_slug] as it is. *)
Theorem sanitize_filename_generate_slug (E : externals) (title : pystr) :
  sanitize_filename E (generate_slug E title) = generate_slug E title.
Proof.
  destruct (generate_slug_shape E title) as (Hc & Hn & Hs).
  apply sanitize_filename_fix; [|exact Hn|exact Hs].
  eapply Forall_impl; [exact Hc|]. intros c H. apply slug_char_name_char, H.
Qed.

(** X10: on ASCII names [sanitize_filename] is idempotent. *)
Theorem sanitize_filename_idempotent (E : externals) (x : pystr) :
  forallb is_ascii x = true ->
  sanitize_filename E (sanitize_filename E x) = sanitize_filename E x.
Proof.
  intros Hx. destruct (sanitize_filename_chars E x Hx) as [Hc Hn].
  apply sanitize_filename_fix; [exact Hc|exact Hn|].
  unfold sanitize_filename. apply strip_idem.
Qed.

Lemma sanitize_filename_idempotent_witness :
  forallb is_ascii (py "My Image (final)!.png") = true /\
  sanitize_filename Demo.env (sanitize_filename Demo.env (py "My Image (final)!.png"))
  = sanitize_filename Demo.env (py "My Image (final)!.png").
Proof.
  split; [reflexivity|]. apply sanitize_filename_idempotent. reflexivity.
Defined.

(** X11: a slug never contains two hyphens in a row; and a string of
    [a-z0-9-] that neither contains two hyphens in a row nor starts or ends
    with a hyphen is its own slug. *)
Theorem generate_slug_hyphens (E : externals) :
  (forall title, contains (generate_slug E title) (py "--") = false) /\
  (forall y,
     Forall (fun c => slug_char c = true) y ->
     contains y (py "--") = false ->
     head y <> Some hyphen -> last y <> Some hyphen ->
     generate_slug E y = y).
Proof.
  split.
  - intros title. destruct (generate_slug_shape E title) as (_ & Hn & _).
    eapply no_run_contains, Hn.
  - intros y Hc Hd Hh Hl. apply generate_slug_fix; [exact Hc| |].
    + clear Hc Hh Hl. change (py "--") with [hyphen; hyphen] in Hd.
      assert (Hgen : forall prev, (prev = true -> head y <> Some hyphen) ->
                                  no_run is_hyphen prev y = true).
      { induction y as [|c r IH]; intros prev Hp; [reflexivity|].
        cbn [contains startswith] in Hd. apply orb_false_iff in Hd as [Hs Hd].
        cbn [no_run]. destruct (is_hyphen c) eqn:Hc.
        - apply andb_true_iff. split.
          + destruct prev; [|reflexivity]. exfalso. apply (Hp eq_refl).
            unfold is_hyphen in Hc. apply N.eqb_eq in Hc. subst. reflexivity.
          + apply IH; [exact Hd|]. intros _ Hr. destruct r as [|d r']; [discriminate|].
            injection Hr as ->. unfold is_hyphen in Hc. rewrite N.eqb_sym in Hc.
            cbn [startswith] in Hs. rewrite Hc in Hs. simpl in Hs.
            destruct r'; discriminate.
        - apply IH; [exact Hd|]. intros [=]. }
      apply Hgen. intros [=].
    + unfold strip. rewrite lstrip_fix.
      * clear Hc Hd Hh. induction y as [|c r IH]; [reflexivity|].
        cbn [rstrip]. destruct r as [|d r'].
        -- simpl. destruct (is_hyphen c) eqn:Hc; [|reflexivity].
           exfalso. apply Hl. unfold is_hyphen in Hc. apply N.eqb_eq in Hc. subst.
           reflexivity.
        -- rewrite IH by exact Hl. reflexivity.
      * intros c r -> . destruct (is_hyphen c) eqn:Hc'; [|reflexivity].
        exfalso. apply Hh. unfold is_hyphen in Hc'. apply N.eqb_eq in Hc'. subst.
        reflexivity.
Qed.

Lemma generate_slug_hyphens_witness :
  Forall (fun c => slug_char c = true) (py "pg-17-release") /\
  generate_slug Demo.env (py "pg-17-release") = py "pg-17-release".
Proof.
  assert (H : Forall (fun c => slug_char c = true) (py "pg-17-release")).
  { apply List.Forall_forall. intros c Hc.
    assert (Hb : forallb slug_char (py "pg-17-release") = true) by reflexivity.
    rewrite forallb_forall in Hb. apply Hb, Hc. }
  split; [exact H|].
  apply (proj2 (generate_slug_hyphens Demo.env)); [exact H|reflexivity| |];
    vm_compute; discriminate.
Defined.

(** ** Further properties: what one extraction does to the world *)

(** X12: one extraction makes exactly one request, for the URL given; it
    writes no file, creates no directory and does not sleep; it reads the
    clock at most once.  It prints [Scraping: <url>], and then nothing more
    when it returns a record, and one line more when it returns none. *)
Theorem scrape_blog_post_effects (E : externals) (url : pystr) (w : world) :
  exists o w',
    scrape_blog_post E url w = (Ok o, w') /\
    requests_log w' = requests_log w ++ [url] /\
    files w' = files w /\ write_log w' = write_log w /\ dirs w' = dirs w /\
    slept w' = slept w /\
    (clock_reads w <= clock_reads w' <= S (clock_reads w))%nat /\
    match o with
    | Some _ => stdout w' = stdout w ++ [py "Scraping: " ++ url]
    | None => exists line, stdout w' = stdout w ++ [py "Scraping: " ++ url; line]
    end.
Proof.
  assert (Hcons : forall (l : list pystr) a b, (l ++ [a]) ++ [b] = l ++ [a; b])
    by (intros; rewrite <- app_assoc; reflexivity).
  unfold scrape_blog_post, try_except.
  unfold bind at 1. unfold print at 1. cbv beta iota.
  unfold bind at 1. unfold requests_get at 1. cbv beta iota.
  destruct (http E _ url) as [response|e];
    [|eexists _, _; split; [reflexivity|]; cbn [requests_log files write_log dirs slept clock_reads stdout]; rewrite ?Hcons; repeat split; eauto].
  unfold bind at 1. unfold lift at 1.
  destruct (html_parser E (text response)) as [soup|e];
    [|eexists _, _; split; [reflexivity|]; cbn [requests_log files write_log dirs slept clock_reads stdout]; rewrite ?Hcons; repeat split; eauto].
  cbv zeta. unfold bind at 1.
  match goal with
  | |- context [match ?d with Some d' => ret d' | None => datetime_now _ end ?w0] =>
      destruct d as [date|]; unfold ret at 1, datetime_now
  end.
  all: destruct (find_content soup) as [[pos region]|];
    [|eexists _, _; split; [reflexivity|]; cbn [requests_log files write_log dirs slept clock_reads stdout]; rewrite ?Hcons; repeat split; eauto].
  all: unfold bind at 1;
    match goal with
    | |- context [clean_html_content ?E' ?h ?w0] =>
        destruct (pure_clean_html_content E' h) as [[content_html|e] Hc]; rewrite (Hc w0)
    end; [|eexists _, _; split; [reflexivity|]; cbn [requests_log files write_log dirs slept clock_reads stdout]; rewrite ?Hcons; repeat split; eauto].
  all: unfold bind at 1;
    match goal with
    | |- context [extract_images ?E' ?h ?u ?w0] =>
        destruct (pure_extract_images E' h u) as [[images|e] Hi]; rewrite (Hi w0)
    end; eexists _, _; (split; [reflexivity|]); cbn [requests_log files write_log dirs slept clock_reads stdout]; rewrite ?Hcons; repeat split; eauto.
Qed.

(** The format that [first_parse] uses is the first one that parses. *)
Lemma first_parse_Some E s fmts d :
  first_parse E s fmts = Some d ->
  exists before fmt after,
    fmts = before ++ fmt :: after /\
    strptime E s fmt = Ok d /\
    Forall (fun f => exists e, strptime E s f = Raise e) before.
Proof.
  induction fmts as [|f fmts IH]; [discriminate|]. cbn [first_parse].
  destruct (strptime E s f) as [d0|e] eqn:Hf.
  - intros [= ->]. exists [], f, fmts. split; [reflexivity|]. split; [exact Hf|constructor].
  - intros H. destruct (IH H) as (before & fmt & after & -> & Hs & Hb).
    exists (f :: before), fmt, after. split; [reflexivity|]. split; [exact Hs|].
    constructor; [eauto|exact Hb].
Qed.

Lemma first_parse_None E s fmts :
  first_parse E s fmts = None -> Forall (fun f => exists e, strptime E s f = Raise e) fmts.
Proof.
  induction fmts as [|f fmts IH]; [constructor|]. cbn [first_parse].
  destruct (strptime E s f) as [d0|e] eqn:Hf; [discriminate|].
  intros H. constructor; [eauto|apply IH, H].
Qed.

(** X13: the date of a record is never left unset.  It is what [strptime]
    returns on the first 19 characters of the date string of the page for
    the first of the four formats that parses them, and then the clock is
    not read; when the page has no date string, or no format parses it, the
    date is the reading of the clock at that moment. *)
Theorem record_date (E : externals) (url : pystr) (w : world)
    (post : pydict) (w' : world) :
  scrape_blog_post E url w = (Ok (Some post), w') ->
  exists response soup date,
    http E (requests_log w) url = Ok response /\
    html_parser E (text response) = Ok soup /\
    dict_get post (py "date") = Some (VStr (isoformat date)) /\
    ((extract_date_str soup <> [] /\
      (exists before fmt after,
         date_formats = before ++ fmt :: after /\
         strptime E (take 19 (extract_date_str soup)) fmt = Ok date /\
         Forall (fun f => exists e, strptime E (take 19 (extract_date_str soup)) f = Raise e)
           before) /\
      clock_reads w' = clock_reads w)
     \/ ((extract_date_str soup = []
          \/ Forall (fun f => exists e,
                       strptime E (take 19 (extract_date_str soup)) f = Raise e)
               date_formats) /\
         date = clock E (clock_reads w) /\
         clock_reads w' = S (clock_reads w))).
Proof.
  unfold scrape_blog_post. intros H. apply try_except_Some in H.
  apply bind_Ok in H as ([] & w1 & Hprint & H).
  apply bind_Ok in H as (response & w2 & Hget & H).
  apply bind_Ok in H as (soup & w3 & Hparse & H).
  cbv zeta in H.
  apply bind_Ok in H as (date & w4 & Hdate & H).
  destruct (find_content soup) as [[pos region]|] eqn:Href.
  2:{ apply bind_Ok in H as (? & ? & _ & H). discriminate. }
  apply bind_Ok in H as (content_html & w5 & Hclean & H).
  apply bind_Ok in H as (images & w6 & Himages & H).
  apply (pure_run _ _ _ _ (pure_clean_html_content E _)) in Hclean as [-> Hclean].
  apply (pure_run _ _ _ _ (pure_extract_images E _ _)) in Himages as [-> Himages].
  injection H as <- <-. injection Hprint as <-.
  unfold requests_get in Hget. injection Hget as Hget <-. simpl in Hget.
  unfold lift in Hparse. injection Hparse as Hparse <-.
  exists response, soup, date. split; [exact Hget|]. split; [exact Hparse|].
  split; [reflexivity|].
  destruct (extract_date_str soup) as [|c s] eqn:Hs.
  - right. unfold datetime_now in Hdate. injection Hdate as <- <-. cbn. auto.
  - destruct (first_parse E (take 19 (c :: s)) date_formats) as [d|] eqn:Hf.
    + left. unfold ret in Hdate. injection Hdate as <- <-.
      split; [discriminate|]. split; [apply first_parse_Some, Hf|reflexivity].
    + right. unfold datetime_now in Hdate. injection Hdate as <- <-. cbn.
      split; [right; apply first_parse_None, Hf|auto].
Qed.

Lemma record_date_witness :
  exists post w' date,
    scrape_blog_post Demo.env Demo.news_url empty_world = (Ok (Some post), w') /\
    dict_get post (py "date") = Some (VStr (isoformat date)) /\
    isoformat date = py "2024-05-01T00:00:00".
Proof.
  pose (r := scrape_blog_post Demo.env Demo.news_url empty_world).
  pose (post := match fst r with Ok (Some p) => p | _ => [] end).
  assert (Hr : r = (Ok (Some post), snd r)) by (vm_compute; reflexivity).
  destruct (record_date Demo.env Demo.news_url empty_world post (snd r) Hr)
    as (response & soup & date & _ & _ & Hd & _).
  exists post, (snd r), date. split; [exact Hr|]. split; [exact Hd|].
  assert (Hd' : dict_get post (py "date") = Some (VStr (py "2024-05-01T00:00:00")))
    by (vm_compute; reflexivity).
  rewrite Hd' in Hd. injection Hd as <-. reflexivity.
Defined.

(** ** Further properties: the orchestrator *)

(** X14: the loop of [main] ends before the end of the list only when the
    file of a post cannot be written: that exception leaves the loop and
    the URLs after it are not processed.  When the loop reaches the end of the
    list, it has slept two seconds for every URL, whether the URL yields a
    post or not, and the number of posts it counts is the number of files
    it has written, which is at most the number of URLs.  When it is
    stopped, it has slept two seconds for each URL before the one whose
    file could not be written, and has written at most one file for each
    of them. *)
Theorem main_loop_count (E : externals) (urls : list pystr) (n : Z) (w : world) :
  exists r w' saved,
    main_loop E urls n w = (r, w') /\
    write_log w' = write_log w ++ saved /\
    (length saved <= length urls)%nat /\
    match r with
    | Ok n' =>
        n' - n = Z.of_nat (length saved) /\
        slept w' = slept w + 2 * Z.of_nat (length urls)
    | Raise e =>
        exists done url rest,
          urls = done ++ url :: rest /\
          (length saved <= length done)%nat /\
          slept w' = slept w + 2 * Z.of_nat (length done) /\
          post_file_refused E w' e
    end.
Proof.
  destruct (main_loop_run E urls n w)
    as (r & w' & saved & Hl & Hw & Hlen & _ & _ & _ & Hr).
  exists r, w', saved. split; [exact Hl|]. split; [exact Hw|]. split; [exact Hlen|].
  destruct r as [n'|e].
  - destruct Hr as (-> & _ & Hs). split; [lia|exact Hs].
  - destruct Hr as (done & url & rest & Hu & _ & Hs & Hd & Href).
    exists done, url, rest. auto.
Qed.

(** The second case occurs: a title of 300 characters gives a file name
    that is too long, and the post after it is never requested. *)
Lemma main_loop_halts_on_long_name :
  exists e w',
    main_loop Demo.env [Demo.long_url; Demo.news_url] 0 empty_world = (Raise e, w') /\
    requests_log w' = [Demo.long_url] /\ write_log w' = [] /\ slept w' = 0.
Proof.
  pose (r := main_loop Demo.env [Demo.long_url; Demo.news_url] 0 empty_world).
  pose (e := match fst r with Raise e => e | Ok _ => [] end).
  assert (Hr : r = (Raise e, snd r)) by (vm_compute; reflexivity).
  exists e, (snd r). split; [exact Hr|]. vm_compute. auto.
Qed.

(** X15: every file that [main] writes holds a post and is named after the
    slug of that post: it is [CONTENT_DIR/<slug>.json]. *)
Theorem main_files_by_slug (E : externals) (fuel : nat) (w : world)
    (r : result (option unit)) (w' : world) :
  main E fuel w = (r, w') ->
  files w = ∅ ->
  forall path f,
    files w' !! path = Some f ->
    exists d slug,
      f = FJson d /\ dict_get d (py "slug") = Some (VStr slug)
      /\ path = path_join (CONTENT_DIR E) (slug ++ py ".json").
Proof.
  intros Hmain Hempty.
  assert (Hall : map_Forall (stored_by_slug E) (files w')).
  { destruct (main_spec E fuel w) as (r0 & w0 & saved & H0 & _ & _ & Hby & _).
    rewrite H0 in Hmain. injection Hmain as <- <-.
    apply Hby. rewrite Hempty. apply map_Forall_empty. }
  intros path f Hf. exact (map_Forall_lookup_1 _ _ _ _ Hall Hf).
Qed.

Lemma main_files_by_slug_witness :
  files empty_world = ∅ /\
  forall path f,
    files (snd (main Demo.env 2 empty_world)) !! path = Some f ->
    exists d slug,
      f = FJson d /\ dict_get d (py "slug") = Some (VStr slug)
      /\ path = path_join (CONTENT_DIR Demo.env) (slug ++ py ".json").
Proof.
  split; [reflexivity|].
  apply (main_files_by_slug Demo.env 2%nat empty_world
           (fst (main Demo.env 2 empty_world)) (snd (main Demo.env 2 empty_world)));
    [apply surjective_pairing|reflexivity].
Defined.

Lemma page_url_first base_url : page_url base_url 1 = base_url.
Proof. reflexivity. Qed.

(** A turn of the crawl whose request fails. *)
Lemma crawl_page_fetch_failure E base_url page links w e :
  http E (requests_log w) (page_url base_url page) = Raise e ->
  exists w',
    crawl_page E base_url page links w = (Ok (links, Break), w') /\
    requests_log w' = requests_log w ++ [page_url base_url page] /\
    files w' = files w /\ write_log w' = write_log w /\
    stdout w'
    = stdout w ++ [py "Fetching blog list page " ++ str_of_Z page ++ py "...";
                   py "Error fetching blog list page " ++ str_of_Z page ++ py ": " ++ e].
Proof.
  intros H. unfold crawl_page, try_except. cbv zeta.
  unfold bind at 1. unfold print at 1. cbv beta iota.
  unfold bind at 1. unfold requests_get at 1. cbv beta iota.
  cbn [requests_log]. rewrite H.
  unfold bind, print, ret. eexists. split; [reflexivity|].
  cbn [requests_log files write_log stdout]. rewrite <- app_assoc. auto.
Qed.

(** X16: when the first listing page cannot be fetched, [main] still runs
    to its end: it has made that one request, writes no file, and its last
    two lines report that it found and scraped no post. *)
Theorem main_without_listing (E : externals) (fuel : nat) (w : world) (e : pystr) :
  http E (requests_log w) BASE_URL = Raise e ->
  exists w',
    main E (S fuel) w = (Ok (Some tt), w') /\
    requests_log w' = requests_log w ++ [BASE_URL] /\
    files w' = files w /\ write_log w' = write_log w /\
    exists lines,
      stdout w' = stdout w ++ lines ++
                  [py "Found 0 blog posts";
                   [10%N] ++ py "Scraping complete! Scraped 0 posts."].
Proof.
  intros H. unfold main, find_all_blog_links.
  unfold bind at 1. unfold print at 1. cbv beta iota.
  unfold bind at 1. unfold mkdir at 1. cbv beta iota.
  unfold bind at 1. unfold mkdir at 1. cbv beta iota.
  unfold bind at 1. unfold print at 1. cbv beta iota.
  cbn [requests_log stdout files write_log dirs clock_reads slept].
  unfold bind at 1. cbn [crawl]. unfold bind at 1.
  match goal with
  | |- context [crawl_page E BASE_URL 1 ∅ ?w0] =>
      destruct (crawl_page_fetch_failure E BASE_URL 1 ∅ w0 e H)
        as (w1 & Hrun & Hreq & Hfiles & Hwl & Hout);
      rewrite Hrun
  end.
  cbn [requests_log stdout files write_log] in Hreq, Hfiles, Hwl, Hout.
  rewrite page_url_first in Hreq.
  unfold ret at 1.
  unfold bind at 1. unfold print at 1. cbv beta iota.
  unfold bind at 1. rewrite size_empty, elements_empty. cbn [main_loop]. unfold ret at 1.
  unfold bind at 1. unfold print at 1. cbv beta iota. unfold ret.
  eexists. split; [reflexivity|].
  cbn [requests_log stdout files write_log].
  split; [exact Hreq|]. split; [exact Hfiles|]. split; [exact Hwl|].
  rewrite Hout. eexists [_; _; _; _]. rewrite <- !app_assoc. reflexivity.
Qed.

Lemma main_without_listing_witness :
  http Demo.offline (requests_log empty_world) BASE_URL = Raise (py "ConnectionError") /\
  exists w',
    main Demo.offline 1 empty_world = (Ok (Some tt), w') /\
    files w' = files empty_world.
Proof.
  split; [reflexivity|].
  destruct (main_without_listing Demo.offline 0 empty_world (py "ConnectionError") eq_refl)
    as (w' & H1 & _ & H2 & _).
  exists w'. auto.
Defined.

(** ** Further properties: what the crawler returns *)

Lemma subseteq_union_mono (u : pystr) (L L' U : gset pystr) :
  {[u]} ∪ L ⊆ L' -> L' ⊆ {[u]} ∪ L ∪ U -> L ⊆ L' /\ L' ⊆ L ∪ ({[u]} ∪ U).
Proof. set_solver. Qed.

Lemma subseteq_union_skip (u : pystr) (L L' U : gset pystr) :
  L ⊆ L' -> L' ⊆ L ∪ U -> L ⊆ L' /\ L' ⊆ L ∪ ({[u]} ∪ U).
Proof. set_solver. Qed.

Lemma subseteq_union_self (L U : gset pystr) : L ⊆ L /\ L ⊆ L ∪ U.
Proof. set_solver. Qed.

Lemma sandwich_step (A L l C : gset pystr) :
  L = A -> L ⊆ l -> l ⊆ L ∪ C -> A ⊆ l /\ l ⊆ A ∪ C.
Proof. intros -> H1 H2. auto. Qed.

Section CrawlerResult.

Variable E : externals.
Variable base_url : pystr.

(** Whatever the loop over the anchors meets, it only adds URLs of the
    page. *)
Lemma collect_links_bounds anchors links found_new :
  let urls : gset pystr :=
    list_to_set (omap ok_value (omap (link_target E base_url) anchors)) in
  links ⊆ (collect_links E base_url anchors links found_new).2.1 /\
  (collect_links E base_url anchors links found_new).2.1 ⊆ links ∪ urls.
Proof.
  cbv zeta. revert links found_new; induction anchors as [|a rest IH];
    intros links found_new.
  - simpl. apply subseteq_union_self.
  - rewrite collect_links_cons. cbn [omap list_omap].
    destruct (link_target E base_url a) as [[u|e]|]; [| |apply IH].
    + cbn [omap list_omap ok_value list_to_set].
      set (U := list_to_set (omap ok_value (omap (link_target E base_url) rest))
                : gset pystr) in *.
      case_bool_decide as Hin.
      * destruct (IH links found_new) as [H1 H2].
        apply subseteq_union_skip; assumption.
      * destruct (IH ({[u]} ∪ links) true) as [H1 H2].
        apply subseteq_union_mono; assumption.
    + simpl. apply subseteq_union_self.
Qed.

(** A turn sleeps one second exactly when it goes on to the next page. *)
Lemma crawl_page_slept page links w l x w' :
  crawl_page E base_url page links w = (Ok (l, x), w') ->
  slept w' = slept w + match x with NextTurn => 1 | Break => 0 end.
Proof.
  unfold crawl_page, try_except. cbv zeta.
  unfold bind at 1. unfold print at 1. cbv beta iota.
  unfold bind at 1. unfold requests_get at 1. cbv beta iota.
  cbn [requests_log].
  destruct (http E (requests_log w) (page_url base_url page)) as [response|e];
    [|unfold bind, print, ret; intros [= _ <- <-]; cbn [slept]; lia].
  unfold bind at 1. unfold lift at 1.
  destruct (html_parser E (text response)) as [soup|e];
    [|unfold bind, print, ret; intros [= _ <- <-]; cbn [slept]; lia].
  destruct (collect_links E base_url (find_all post_anchor soup) links false)
    as [[[]|e] [l0 f]];
    [|unfold bind, print, ret; intros [= _ <- <-]; cbn [slept]; lia].
  destruct (negb f || negb (bool_decide (is_Some (find next_anchor soup))));
    unfold bind, sleep, ret; intros [= _ <- <-]; cbn [slept]; lia.
Qed.

Variable w : world.

(** What listing page [p] can contribute. *)
Lemma accumulated_step p :
  (1 <= p)%nat ->
  accumulated E base_url w p
  = accumulated E base_url w (p - 1)
    ∪ match listing_page E base_url w p with
      | Ok soup => page_urls E base_url soup
      | Raise _ => ∅
      end.
Proof.
  intros Hp. destruct p as [|p]; [lia|]. cbn [accumulated].
  replace (S p - 1)%nat with p by lia. reflexivity.
Qed.

(** A turn that ends the crawl has added nothing but URLs of its page. *)
Lemma crawl_page_bounds p links wp l x wx :
  (1 <= p)%nat ->
  requests_log wp = history_before base_url w p ->
  links = accumulated E base_url w (p - 1) ->
  crawl_page E base_url (Z.of_nat p) links wp = (Ok (l, x), wx) ->
  accumulated E base_url w (p - 1) ⊆ l /\ l ⊆ accumulated E base_url w p.
Proof.
  intros Hp Hlog Hacc Hrun.
  destruct (crawl_page_returns E base_url (Z.of_nat p) links wp)
    as (l0 & x0 & w0 & Hrun0 & _ & _ & _ & _ & Hcases).
  rewrite Hrun in Hrun0. injection Hrun0 as <- <- <-.
  rewrite (accumulated_step p Hp). unfold listing_page. rewrite <- Hlog.
  destruct (http E (requests_log wp) (page_url base_url (Z.of_nat p))) as [response|e].
  - destruct (html_parser E (text response)) as [soup|e].
    + pose proof (collect_links_bounds (find_all post_anchor soup) links false) as Hb.
      cbv zeta in Hb.
      destruct (collect_links E base_url (find_all post_anchor soup) links false)
        as [[[]|e] [l0 f]]; cbn [fst snd] in Hb; destruct Hcases as [-> _];
        destruct Hb as [Hb1 Hb2]; unfold page_urls, page_targets;
        eapply sandwich_step; eassumption.
    + destruct Hcases as [-> _]. rewrite <- Hacc. apply subseteq_union_self.
  - destruct Hcases as [-> _]. rewrite <- Hacc. apply subseteq_union_self.
Qed.

Lemma crawl_sound fuel :
  forall p links wp result w',
    (1 <= p)%nat ->
    requests_log wp = history_before base_url w p ->
    links = accumulated E base_url w (p - 1) ->
    crawl E fuel base_url (Z.of_nat p) links wp = (Ok (Some result), w') ->
    exists k,
      (p <= k < p + fuel)%nat /\
      accumulated E base_url w (k - 1) ⊆ result /\
      result ⊆ accumulated E base_url w k /\
      requests_log w' = history_before base_url w (S k) /\
      slept w' = slept wp + Z.of_nat (k - p).
Proof.
  induction fuel as [|fuel IH]; intros p links wp result w' Hp Hlog Hacc Hrun;
    [discriminate|].
  cbn [crawl] in Hrun. unfold bind in Hrun.
  destruct (crawl_page_returns E base_url (Z.of_nat p) links wp)
    as (l & x & wx & Hturn & Hreq & _). rewrite Hturn in Hrun.
  pose proof (crawl_page_slept _ _ _ _ _ _ Hturn) as Hslept.
  destruct x.
  - unfold ret in Hrun. injection Hrun as <- <-.
    destruct (crawl_page_bounds p links wp l Break wx Hp Hlog Hacc Hturn) as [H1 H2].
    exists p. split; [lia|]. split; [exact H1|]. split; [exact H2|].
    split; [rewrite history_before_S, Hreq, Hlog by exact Hp; reflexivity|].
    rewrite Hslept. replace (p - p)%nat with 0%nat by lia. reflexivity.
  - destruct (crawl_page_next E base_url w p links wp l wx Hp Hlog Hturn)
      as (Hlog' & soup & Hpage & Hl & _).
    replace (Z.of_nat p + 1) with (Z.of_nat (S p)) in Hrun by lia.
    apply IH in Hrun as (k & Hk & H1 & H2 & H3 & H4); [|lia|exact Hlog'|].
    + exists k. split; [lia|]. split; [exact H1|]. split; [exact H2|].
      split; [exact H3|]. rewrite H4, Hslept. lia.
    + replace (S p - 1)%nat with p by lia.
      rewrite (accumulated_step p Hp), Hpage, Hl, Hacc. reflexivity.
Qed.

End CrawlerResult.

(** Where a URL of the first [n] listing pages comes from. *)
Lemma accumulated_elem E base_url w n u :
  u ∈ accumulated E base_url w n ->
  exists i soup a href,
    (1 <= i <= n)%nat /\
    listing_page E base_url w i = Ok soup /\
    In a (find_all post_anchor soup) /\
    get a (py "href") = Some href /\
    contains href (py "/blog/") = true /\
    urljoin E base_url href = Ok u.
Proof.
  induction n as [|n IH]; cbn [accumulated]; [intros H; exfalso; set_solver|].
  intros H. apply elem_of_union in H as [H|H].
  - destruct (IH H) as (i & soup & a & href & Hi & Hrest).
    exists i, soup, a, href. split; [lia|exact Hrest].
  - destruct (listing_page E base_url w (S n)) as [soup|e] eqn:Hpage;
      [|exfalso; set_solver].
    unfold page_urls, page_targets in H.
    apply elem_of_list_to_set in H. apply list_elem_of_omap in H as (r & Hr & Hok).
    apply list_elem_of_omap in Hr as (a & Ha & Hta).
    destruct r as [u'|e]; simpl in Hok; [|discriminate].
    assert (u' = u) by congruence. subst u'.
    apply list_elem_of_In in Ha.
    unfold link_target in Hta. cbv zeta in Hta.
    destruct (negb (eqb (default [] (get a (py "href"))) [])
              && contains (default [] (get a (py "href"))) (py "/blog/")) eqn:Hcond;
      [|discriminate].
    apply andb_true_iff in Hcond as [Hne Hc].
    assert (Hj : urljoin E base_url (default [] (get a (py "href"))) = Ok u) by congruence.
    destruct (get a (py "href")) as [href|] eqn:Hget.
    + change (default [] (Some href)) with href in *.
      exists (S n), soup, a, href. split; [lia|]. auto.
    + exfalso. vm_compute in Hne. discriminate.
Qed.

(** X17: what [find_all_blog_links] returns, when it returns.  It has
    fetched the listing pages [1..k] for some [k], the first one at the base
    URL, and slept one second between two pages.  The set it returns holds
    all the URLs of the pages before page [k] and nothing but URLs of the
    pages up to [k]: each of its elements is the [href] of an anchor of one
    of these pages, an [href] that contains [/blog/], resolved against the
    base URL. *)
Theorem find_all_blog_links_sound (E : externals) (base_url : pystr) (w : world)
    (fuel : nat) (links : gset pystr) (w' : world) :
  find_all_blog_links E fuel base_url w = (Ok (Some links), w') ->
  exists k,
    (1 <= k <= fuel)%nat /\
    requests_log w'
    = requests_log w ++ map (fun i => page_url base_url (Z.of_nat i)) (seq 1 k) /\
    page_url base_url 1 = base_url /\
    slept w' = slept w + Z.of_nat (k - 1) /\
    accumulated E base_url w (k - 1) ⊆ links /\
    (forall u,
       u ∈ links ->
       exists i soup a href,
         (1 <= i <= k)%nat /\
         listing_page E base_url w i = Ok soup /\
         In a (find_all post_anchor soup) /\
         get a (py "href") = Some href /\
         contains href (py "/blog/") = true /\
         urljoin E base_url href = Ok u).
Proof.
  unfold find_all_blog_links. intros H.
  apply (crawl_sound E base_url w fuel 1 ∅ w links w') in H
    as (k & Hk & H1 & H2 & H3 & H4); [|lia| |reflexivity].
  - exists k. split; [lia|].
    split; [rewrite H3; unfold history_before; rewrite Nat.sub_succ, Nat.sub_0_r;
            reflexivity|].
    split; [reflexivity|]. split; [exact H4|]. split; [exact H1|].
    intros u Hu. apply accumulated_elem. apply H2, Hu.
  - unfold history_before. simpl. rewrite app_nil_r. reflexivity.
Qed.

Lemma find_all_blog_links_sound_witness :
  exists links w' k,
    find_all_blog_links Demo.env 2 BASE_URL empty_world = (Ok (Some links), w') /\
    (1 <= k <= 2)%nat /\
    slept w' = slept empty_world + Z.of_nat (k - 1).
Proof.
  pose (r := find_all_blog_links Demo.env 2 BASE_URL empty_world).
  pose (links := match fst r with Ok (Some l) => l | _ => ∅ end).
  assert (Hr : r = (Ok (Some links), snd r)) by (vm_compute; reflexivity).
  destruct (find_all_blog_links_sound Demo.env BASE_URL empty_world 2 links (snd r) Hr)
    as (k & Hk & _ & _ & Hs & _).
  exists links, (snd r), k. auto.
Defined.

(** ** The orchestrator, from the listing to the report *)

(** When some listing page stops the crawl, [main] goes through the listing
    pages up to a page [k], then through every URL the crawl returned (in
    the order in which the set of URLs is iterated), and ends with its
    report, unless the file of a post cannot be written. *)
Lemma main_run E fuel w n :
  (1 <= n <= fuel)%nat -> page_stops E BASE_URL w n ->
  exists r w' k links saved,
    main E fuel w = (r, w') /\
    (1 <= k <= n)%nat /\
    accumulated E BASE_URL w (k - 1) ⊆ links /\ links ⊆ accumulated E BASE_URL w k /\
    write_log w' = write_log w ++ saved /\
    match r with
    | Ok o =>
        o = Some tt /\
        (exists order,
           order ≡ₚ elements links /\
           requests_log w' = history_before BASE_URL w (S k) ++ order) /\
        last (stdout w') = Some (report_line (length saved))
    | Raise e =>
        exists done url rest,
          done ++ url :: rest ≡ₚ elements links /\
          requests_log w' = history_before BASE_URL w (S k) ++ done ++ [url] /\
          post_file_refused E w' e
    end.
Proof.
  intros Hn Hstop.
  destruct (main_steps E fuel w) as (w0 & o & wc & Hr0 & Hc & Hf & Hw & Hmain).
  assert (Hlog : requests_log w0 = history_before BASE_URL w 1).
  { unfold history_before. simpl. rewrite app_nil_r. exact Hr0. }
  destruct (crawl_stops E BASE_URL w n (n - 1) 1 ∅ w0) as (links & wp & Hrun);
    [lia|lia|exact Hlog|reflexivity|exact Hstop|].
  destruct (crawl_sound E BASE_URL w (S (n - 1)) 1 ∅ w0 links wp)
    as (k & Hk & Hlow & Hup & Hreq & _); [lia|exact Hlog|reflexivity|exact Hrun|].
  apply (crawl_fuel_mono E BASE_URL _ _ _ _ _ _) with (fuel' := fuel) in Hrun; [|lia].
  change (Z.of_nat 1) with 1 in Hrun. rewrite Hrun in Hc. injection Hc as <- <-.
  destruct Hmain as (wl & Hrl & Hfl & Hwl & ->).
  destruct (main_loop_run E (elements links) 0 wl)
    as (r & w2 & saved & Hl & Hw2 & _ & _ & _ & _ & Hr).
  rewrite Hl. rewrite Hwl, Hw in Hw2.
  destruct r as [count|e].
  - exists (Ok (Some tt)), (snd (print ([10%N] ++ py "Scraping complete! Scraped "
                                        ++ str_of_Z count ++ py " posts.") w2)),
      k, links, saved.
    unfold print. cbn [snd requests_log write_log stdout].
    split; [reflexivity|]. split; [lia|]. split; [exact Hlow|]. split; [exact Hup|].
    split; [exact Hw2|]. destruct Hr as (-> & Hr & _).
    split; [reflexivity|].
    split; [exists (elements links); split; [reflexivity|rewrite Hr, Hrl, Hreq; reflexivity]|].
    rewrite last_snoc. unfold report_line. rewrite Z.add_0_l. reflexivity.
  - exists (Raise e), w2, k, links, saved.
    split; [reflexivity|]. split; [lia|]. split; [exact Hlow|]. split; [exact Hup|].
    split; [exact Hw2|].
    destruct Hr as (done & url & rest & Hu & Hr & _ & _ & Href).
    exists done, url, rest. split; [rewrite Hu; reflexivity|]. split; [|exact Href].
    rewrite Hr, Hrl, Hreq. reflexivity.
Qed.

(** C9: the extraction of a post never raises to the orchestrator.  A
    request that raises, a parser that raises and a page without any
    candidate for the content region each yield [None] and a logged line.
    A URL that yields [None] changes nothing in the loop of the
    orchestrator: the loop sleeps and goes on with the URLs that remain,
    with the same count.  The loop requests the URLs in turn and ends in
    one of two ways: at the end of the list, with every URL requested and
    the number of files written as its count; or, since the file of a post
    is written outside any [try], with the exception of a file that could
    not be written.  Accordingly [main], when some listing page stops the
    crawl, requests the listing pages, then every URL found, and ends by
    reporting the number of posts written, unless the write of such a file
    raises; when no write raises, the loop and [main] always reach their
    end. *)
Theorem scrape_blog_post_never_raises (E : externals) :
  (forall url w, exists o w', scrape_blog_post E url w = (Ok o, w')) /\
  (forall url w e,
     http E (requests_log w) url = Raise e ->
     exists w',
       scrape_blog_post E url w = (Ok None, w') /\
       last (stdout w') = Some (py "Error scraping " ++ url ++ py ": " ++ e)) /\
  (forall url w response e,
     http E (requests_log w) url = Ok response ->
     html_parser E (text response) = Raise e ->
     exists w',
       scrape_blog_post E url w = (Ok None, w') /\
       last (stdout w') = Some (py "Error scraping " ++ url ++ py ": " ++ e)) /\
  (forall url w response soup,
     http E (requests_log w) url = Ok response ->
     html_parser E (text response) = Ok soup ->
     Forall (fun sel => find_ref sel soup = None) content_selectors ->
     exists w',
       scrape_blog_post E url w = (Ok None, w') /\
       last (stdout w') = Some (py "Could not find content for " ++ url)) /\
  (forall url rest n w w1,
     scrape_blog_post E url w = (Ok None, w1) ->
     main_loop E (url :: rest) n w = (sleep 2 ;; main_loop E rest n) w1) /\
  (forall urls n w,
     exists r w' saved,
       main_loop E urls n w = (r, w') /\
       write_log w' = write_log w ++ saved /\
       match r with
       | Ok n' =>
           requests_log w' = requests_log w ++ urls /\
           n' = n + Z.of_nat (length saved)
       | Raise e =>
           exists done url rest,
             urls = done ++ url :: rest /\
             requests_log w' = requests_log w ++ done ++ [url] /\
             post_file_refused E w' e
       end) /\
  (forall fuel w n,
     (1 <= n <= fuel)%nat -> page_stops E BASE_URL w n ->
     exists r w' k links saved,
       main E fuel w = (r, w') /\
       (1 <= k <= n)%nat /\
       accumulated E BASE_URL w (k - 1) ⊆ links /\ links ⊆ accumulated E BASE_URL w k /\
       write_log w' = write_log w ++ saved /\
       match r with
       | Ok o =>
           o = Some tt /\
           (exists order,
              order ≡ₚ elements links /\
              requests_log w' = history_before BASE_URL w (S k) ++ order) /\
           last (stdout w') = Some (report_line (length saved))
       | Raise e =>
           exists done url rest,
             done ++ url :: rest ≡ₚ elements links /\
             requests_log w' = history_before BASE_URL w (S k) ++ done ++ [url] /\
             post_file_refused E w' e
       end) /\
  ((forall written p f, file_write E written p f = Ok tt) ->
   (forall urls n w, exists n' w', main_loop E urls n w = (Ok n', w')) /\
   (forall fuel w n,
      (1 <= n <= fuel)%nat -> page_stops E BASE_URL w n ->
      exists w', main E fuel w = (Ok (Some tt), w'))).
Proof.
  split; [|split; [|split; [|split; [|split; [|split; [|split]]]]]].
  - intros url w. destruct (scrape_blog_post_returns E url w) as (o & w' & H & _). eauto.
  - intros url w e. apply scrape_blog_post_fetch_failure.
  - intros url w response e. apply scrape_blog_post_parse_failure.
  - intros url w response soup Hh Hp Hc.
    eapply scrape_blog_post_no_content; [exact Hh|exact Hp|].
    apply find_content_None, Hc.
  - intros url rest n w w1 Hs.
    destruct (main_loop_cons E url rest n w) as (o & w1' & Hs' & _ & _ & _ & _ & _ & Hstep).
    rewrite Hs in Hs'. injection Hs' as <- <-. exact Hstep.
  - intros urls n w.
    destruct (main_loop_run E urls n w) as (r & w' & saved & Hl & Hw & _ & _ & _ & _ & Hr).
    exists r, w', saved. split; [exact Hl|]. split; [exact Hw|].
    destruct r as [n'|e].
    + destruct Hr as (Hn & Hr & _). auto.
    + destruct Hr as (done & url & rest & Hu & Hr & _ & _ & Href).
      exists done, url, rest. auto.
  - intros fuel w n. apply main_run.
  - intros Hopen. split.
    + intros urls n w.
      destruct (main_loop_run E urls n w) as (r & w' & saved & Hl & _ & _ & _ & _ & _ & Hr).
      destruct r as [n'|e]; [eauto|].
      destruct Hr as (_ & _ & _ & _ & _ & _ & _ & post & title & _ & _ & Href).
      rewrite Hopen in Href. discriminate.
    + intros fuel w n Hn Hstop.
      destruct (main_run E fuel w n Hn Hstop)
        as (r & w' & k & links & saved & Hm & _ & _ & _ & _ & Hr).
      destruct r as [o|e].
      * destruct Hr as (-> & _). eauto.
      * destruct Hr as (_ & _ & _ & _ & _ & post & title & _ & _ & Href).
        rewrite Hopen in Href. discriminate.
Qed.

Lemma scrape_blog_post_never_raises_witness :
  (http Demo.env (requests_log empty_world) Demo.gone_url
     = Raise (py "404 Client Error: Not Found for url: " ++ Demo.gone_url) /\
   exists w',
     scrape_blog_post Demo.env Demo.gone_url empty_world = (Ok None, w') /\
     last (stdout w')
     = Some (py "Error scraping " ++ Demo.gone_url ++ py ": "
             ++ (py "404 Client Error: Not Found for url: " ++ Demo.gone_url)) /\
     forall rest n,
       main_loop Demo.env (Demo.gone_url :: rest) n empty_world
       = (sleep 2 ;; main_loop Demo.env rest n) w') /\
  (page_stops Demo.env BASE_URL empty_world 2 /\
   exists w' k (links : gset pystr) saved,
     main Demo.env 2 empty_world = (Ok (Some tt), w') /\
     write_log w' = saved /\
     (exists order,
        order ≡ₚ elements links /\
        requests_log w' = history_before BASE_URL empty_world (S k) ++ order) /\
     last (stdout w') = Some (report_line (length saved))) /\
  ((forall written p f, file_write Demo.roomy written p f = Ok tt) /\
   exists n' w', main_loop Demo.roomy [Demo.long_url; Demo.news_url] 0 empty_world = (Ok n', w')).
Proof.
  split; [|split].
  - split; [vm_compute; reflexivity|].
    destruct (proj1 (proj2 (scrape_blog_post_never_raises Demo.env))
                Demo.gone_url empty_world
                (py "404 Client Error: Not Found for url: " ++ Demo.gone_url))
      as (w' & Hs & Hout); [vm_compute; reflexivity|].
    exists w'. split; [exact Hs|]. split; [exact Hout|].
    intros rest n.
    apply (proj1 (proj2 (proj2 (proj2 (proj2 (scrape_blog_post_never_raises Demo.env)))))).
    exact Hs.
  - assert (H : page_stops Demo.env BASE_URL empty_world 2).
    { unfold page_stops.
      replace (listing_page Demo.env BASE_URL empty_world 2) with (Ok Demo.listing2)
        by (vm_compute; reflexivity).
      right; right. vm_compute. reflexivity. }
    split; [exact H|].
    destruct (proj1 (proj2 (proj2 (proj2 (proj2 (proj2 (proj2
                (scrape_blog_post_never_raises Demo.env)))))))
                2%nat empty_world 2%nat ltac:(lia) H)
      as (r & w' & k & links & saved & Hm & _ & _ & _ & Hw & Hr).
    assert (Hok : fst (main Demo.env 2 empty_world) = Ok (Some tt))
      by (vm_compute; reflexivity).
    rewrite Hm in Hok. cbn [fst] in Hok. subst r.
    destruct Hr as (_ & Hreq & Hout).
    exists w', k, links, saved. auto.
  - split; [reflexivity|].
    apply (proj1 (proj2 (proj2 (proj2 (proj2 (proj2 (proj2 (proj2
             (scrape_blog_post_never_raises Demo.roomy)))))))
             ltac:(reflexivity))).
Defined.
